(** * trading-helper: the risk and decision core

    A shallow embedding of the trading engine of the repository:
    - [TradeManager] (src/gas/TradeManager.ts): the stop-limit calculator,
      the capital allocator, the per-asset decision step and one trade cycle;
    - [V2Trader] (apps-script/Trader.ts and the later copy that follows
      src/gas/dao/Config.ts): the threshold checks of a held position, the
      sell routine and the averaging-down reinvestment.

    Further parts cover the ticker check of [V2Trader] and the loop of
    [Ticker] (src/gas/Watcher.ts), [ConfigDao], [WithdrawalsManager], the
    stop-loss trader of v2/Trader.ts and the grouping and sorting of the two
    views (src/web/components/Home.tsx, src/unnamed/part_000).

    Number model.  A JavaScript [number] is an exact rational ([Q]); counters
    that only ever hold small integers ([ttl], [canInvest]) are integers
    ([Z]).  Equality of numbers is [Qeq] ([==]), the test [x === 0] is
    [Qeq_bool].  Three places leave the exact rationals:
    - division: [x / 0] is 0 in [Q] and NaN or an infinity in JavaScript.
      The stop-limit formula is embedded a second time over numbers with NaN
      and the infinities ([JS]); the two embeddings agree when no denominator
      is zero ([wellConditioned]), and the statements about the formula say
      so;
    - rounding: a product or sum that is compared with a price the market
      reports is computed by the machine operations [fadd], [fsub], [fmul] of
      the environment, of which nothing is assumed;
    - thrown values: an exception is the string a handler reads as
      [e.message]; the strings [null] and [undefined] stand for a thrown
      value that has no properties ([isNullish]). *)

From Stdlib Require Import ZArith QArith Qround Qminmax List String Bool Lia Lqa.
Import ListNotations.
Open Scope Q_scope.

(** ** Data model *)

Definition number := Q.
Abbreviation CoinName := string.

Inductive TradeState := IDLE | BUY | BOUGHT | SELL | SOLD.

Definition TradeState_eqb (a b : TradeState) : bool :=
  match a, b with
  | IDLE, IDLE | BUY, BUY | BOUGHT, BOUGHT | SELL, SELL | SOLD, SOLD => true
  | _, _ => false
  end.

(** Modelled from the spec: the [PriceMove] enumeration of lib/ is not among
    the sources; section 4.1 names its values DOWN / FLAT / UP, and the code
    compares them as numbers ([priceMove < PriceMove.UP]). *)
Inductive PriceMove := DOWN | FLAT | UP.

Definition PriceMove_rank (m : PriceMove) : Z :=
  match m with DOWN => 0 | FLAT => 1 | UP => 2 end%Z.

Definition PriceMove_ltb (a b : PriceMove) : bool :=
  (PriceMove_rank a <? PriceMove_rank b)%Z.

Record ExchangeSymbol := mkSymbol {
  quantityAsset : CoinName;
  priceAsset : string
}.

Record TradeResult := mkTradeResult {
  symbol : ExchangeSymbol;
  quantity : number;
  paid : number;
  price : number;
  gained : number;
  profit : number;
  commission : number;
  fromExchange : bool
}.

Record TradeMemo := mkTradeMemo {
  tradeResult : TradeResult;
  state : TradeState;
  prices : list number;
  currentPrice : number;
  maxObservedPrice : number;
  stopLimitPrice : number;
  ttl : Z;
  hodl : bool;
  deleted : bool
}.

(** Field assignments ([tm.f = v]). *)

Definition set_tradeResult (tm : TradeMemo) (r : TradeResult) : TradeMemo :=
  mkTradeMemo r (state tm) (prices tm) (currentPrice tm) (maxObservedPrice tm)
    (stopLimitPrice tm) (ttl tm) (hodl tm) (deleted tm).

Definition set_prices (tm : TradeMemo) (ps : list number) : TradeMemo :=
  mkTradeMemo (tradeResult tm) (state tm) ps (currentPrice tm)
    (maxObservedPrice tm) (stopLimitPrice tm) (ttl tm) (hodl tm) (deleted tm).

Definition set_stopLimitPrice (tm : TradeMemo) (p : number) : TradeMemo :=
  mkTradeMemo (tradeResult tm) (state tm) (prices tm) (currentPrice tm)
    (maxObservedPrice tm) p (ttl tm) (hodl tm) (deleted tm).

Definition set_ttl (tm : TradeMemo) (n : Z) : TradeMemo :=
  mkTradeMemo (tradeResult tm) (state tm) (prices tm) (currentPrice tm)
    (maxObservedPrice tm) (stopLimitPrice tm) n (hodl tm) (deleted tm).

Definition set_hodl (tm : TradeMemo) (b : bool) : TradeMemo :=
  mkTradeMemo (tradeResult tm) (state tm) (prices tm) (currentPrice tm)
    (maxObservedPrice tm) (stopLimitPrice tm) (ttl tm) b (deleted tm).

Definition set_deleted (tm : TradeMemo) (b : bool) : TradeMemo :=
  mkTradeMemo (tradeResult tm) (state tm) (prices tm) (currentPrice tm)
    (maxObservedPrice tm) (stopLimitPrice tm) (ttl tm) (hodl tm) b.

Definition set_commission (r : TradeResult) (c : number) : TradeResult :=
  mkTradeResult (symbol r) (quantity r) (paid r) (price r) (gained r)
    (profit r) c (fromExchange r).

Definition set_profit (r : TradeResult) (p : number) : TradeResult :=
  mkTradeResult (symbol r) (quantity r) (paid r) (price r) (gained r)
    p (commission r) (fromExchange r).

Definition set_quantity (r : TradeResult) (q : number) : TradeResult :=
  mkTradeResult (symbol r) q (paid r) (price r) (gained r)
    (profit r) (commission r) (fromExchange r).

(** Modelled from the spec: [TradeMemo.setState], [stateIs] and [getCoinName]
    are missing from the sources (lib/); section 3 has [state] a field of the
    record and the record keyed by its asset, the quantity asset of its
    symbol. *)

Definition setState (tm : TradeMemo) (s : TradeState) : TradeMemo :=
  mkTradeMemo (tradeResult tm) s (prices tm) (currentPrice tm)
    (maxObservedPrice tm) (stopLimitPrice tm) (ttl tm) (hodl tm) (deleted tm).

Definition stateIs (tm : TradeMemo) (s : TradeState) : bool :=
  TradeState_eqb (state tm) s.

Definition getCoinName (tm : TradeMemo) : CoinName :=
  quantityAsset (symbol (tradeResult tm)).

(** Modelled from the spec: [TradeMemo.resetState] is missing from the
    sources; sections 4.3, 4.6 and 7 say a record that is reset "reverts to
    IDLE". *)
Definition resetState (tm : TradeMemo) : TradeMemo := setState tm IDLE.

(** JavaScript truthiness of a number ([if (x)]): false exactly at zero. *)
Definition truthy (x : number) : bool := negb (Qeq_bool x 0).

(** [x > 0] on numbers, as a boolean. *)
Definition Qgtb0 (x : number) : bool := negb (Qle_bool x 0).

(** [isFinite(n)]: every counter of this model is a finite integer. *)
Definition isFinite (n : Z) : bool := true.

(** [xs.slice(-n)]: the last [n] elements, all of them when there are fewer. *)
Definition slice_last {A} (n : nat) (xs : list A) : list A :=
  skipn (List.length xs - n) xs.

(** What the engine does to the outside world, in order. *)
Inductive Event :=
| MarketBuy (s : ExchangeSymbol) (cost : number)
| MarketSell (s : ExchangeSymbol) (qty : number)
| AddProfit (p : number)
| BnbUpdate (q : number)
| CancelAction (c : CoinName)
| LogAlert (msg : string)
| LogInfo (msg : string)
| LogError (msg : string).

Definition isMarketBuy (e : Event) : bool :=
  match e with MarketBuy _ _ => true | _ => false end.

Definition isAddProfit (e : Event) : bool :=
  match e with AddProfit _ => true | _ => false end.

(** ** The configuration of src/gas/dao/Config.ts *)

Record Config := mkConfig {
  StableCoin : string;
  StableBalance : number;
  SellAtStopLimit : bool;
  ChannelSize : number;
  ChannelWindowMins : number;
  FearGreedIndex : number
}.

Definition DefaultConfig : Config :=
  mkConfig "BUSD" (-1) true 0.25 4500 2.

Definition set_StableBalance (c : Config) (b : number) : Config :=
  mkConfig (StableCoin c) b (SellAtStopLimit c) (ChannelSize c)
    (ChannelWindowMins c) (FearGreedIndex c).

(** ** A state and exception monad

    The methods of [TradeManager] mutate the manager's private fields and the
    objects handed to them, and any call may throw.  A computation takes the
    state and returns the state it leaves behind together with a value or the
    exception thrown: what was assigned before a [throw] stays assigned, as in
    JavaScript. *)

Inductive res (A : Type) : Type :=
| Val (a : A)
| Throw (e : string).

Arguments Val {A} a.
Arguments Throw {A} e.

Section Monad.

Variable St : Type.

Definition M (A : Type) : Type := St -> res A * St.

Definition ret {A} (a : A) : M A := fun s => (Val a, s).

Definition bind {A B} (m : M A) (f : A -> M B) : M B :=
  fun s =>
    match m s with
    | (Val a, s') => f a s'
    | (Throw e, s') => (Throw e, s')
    end.

Definition throw {A} (e : string) : M A := fun s => (Throw e, s).

Definition lift {A} (r : res A) : M A := fun s => (r, s).

Definition get : M St := fun s => (Val s, s).

Definition modify (f : St -> St) : M unit := fun s => (Val tt, f s).

(** [try { body } catch (e) { handler e } finally { fin }]. *)
Definition tryCatchFinally (body : M unit) (handler : string -> M unit)
    (fin : M unit) : M unit :=
  fun s =>
    match body s with
    | (Val _, s1) => fin s1
    | (Throw e, s1) =>
        match handler e s1 with
        | (Val _, s2) => fin s2
        | (Throw e', s2) =>
            match fin s2 with
            | (Val _, s3) => (Throw e', s3)
            | (Throw e'', s3) => (Throw e'', s3)
            end
        end
    end.

(** [try { body } catch (e) { handler e }]. *)
Definition tryCatch (body : M unit) (handler : string -> M unit) : M unit :=
  fun s =>
    match body s with
    | (Val _, s1) => (Val tt, s1)
    | (Throw e, s1) => handler e s1
    end.

(** [xs.forEach(f)]. *)
Fixpoint forEach {A} (f : A -> M unit) (xs : list A) : M unit :=
  match xs with
  | [] => ret tt
  | x :: xs' => bind (f x) (fun _ => forEach f xs')
  end.

End Monad.

Arguments ret {St A} a.
Arguments bind {St A B} m f.
Arguments throw {St A} e.
Arguments lift {St A} r.
Arguments get {St}.
Arguments modify {St} f.
Arguments tryCatchFinally {St} body handler fin.
Arguments tryCatch {St} body handler.
Arguments forEach {St A} f xs.

(** A thrown value is represented by a string: an [Error] by its message,
    any other value by its rendering.  ["null"] and ["undefined"] stand for
    the two values a property cannot be read from: [e.message] throws a
    [TypeError] for them. *)
Definition isNullish (e : string) : bool :=
  String.eqb e "null" || String.eqb e "undefined".

Declare Scope monad_scope.
Delimit Scope monad_scope with monad.
Notation "x <- m ;; k" := (bind m (fun x => k))
  (at level 61, m at next level, right associativity) : monad_scope.
Notation "m ;; k" := (bind m (fun _ => k))
  (at level 61, right associativity) : monad_scope.

(** ** TradeManager (src/gas/TradeManager.ts) *)

Module TradeManager.

Definition MIN_BUSD_BUY : Z := 15.

(** [TradeAction] of traders/pro/api. *)
Inductive TradeAction := Buy | Sell.

(** What [PriceProvider.get(stable)[coin]] holds for a listed pair. *)
Record PricesHolder := mkPricesHolder {
  holderPrices : list number;
  holderCurrentPrice : number
}.

(** The collaborators handed to the constructor, the run-time flag [isNode]
    and the methods of lib/ ([TradeMemo], [f2]) that are not among the
    sources.  Each is taken as it is used; a collaborator whose call may throw
    returns a [res]. *)
Record Env := mkEnv {
  isNode : bool;
  (* priceProvider.get(stableCoin)[coin] *)
  priceProvider_get : string -> CoinName -> option PricesHolder;
  (* channelsDao.get(coin)[Key.MIN] *)
  channelsDao_get : CoinName -> res number;
  (* Object.keys(channelsDao.getCandidates(window)) *)
  channelsDao_getCandidates : number -> list CoinName;
  exchange_marketBuy : ExchangeSymbol -> number -> TradeResult;
  exchange_marketSell : ExchangeSymbol -> number -> TradeResult;
  exchange_getBalance : string -> number;
  (* StableUSDCoin[coin] is defined *)
  isStableUSDCoin : string -> bool;
  (* plugin.trade(...) *)
  plugin_trade : Config -> list (CoinName * TradeAction);
  tradesDao_noInvestments : list TradeMemo -> bool;
  (* trades.sort by coin name, and trades.sort(() => Math.random() - 0.5) *)
  sortByCoinName : list TradeMemo -> list TradeMemo;
  shuffle : list TradeMemo -> list TradeMemo;
  (* TradeMemo methods *)
  pushPrice : TradeMemo -> number -> TradeMemo;
  getPriceMove : TradeMemo -> PriceMove;
  stopLimitCrossedDown : TradeMemo -> bool;
  memoProfit : TradeMemo -> number;
  joinWithNewTrade : TradeMemo -> TradeResult -> res TradeMemo;
  f2 : number -> number;
  (* stats.addProfit(profit), which writes to the store and may throw *)
  stats_addProfit : number -> res unit
}.

(** The private fields of a [TradeManager], the two objects its running
    method holds by reference (the [TradeMemo] being processed and the
    [TradeResult] the exchange returned), the two stores it writes, and the
    events emitted so far (latest first). *)
Record TM := mkTM {
  config : Config;
  canInvest : Z;
  balance : number;
  optimalInvestRatio : Z;
  memo : TradeMemo;
  result : TradeResult;
  trades : list TradeMemo;
  configStore : Config;
  log : list Event
}.

Definition set_config (s : TM) (c : Config) : TM :=
  mkTM c (canInvest s) (balance s) (optimalInvestRatio s) (memo s) (result s)
    (trades s) (configStore s) (log s).

Definition set_canInvest (s : TM) (n : Z) : TM :=
  mkTM (config s) n (balance s) (optimalInvestRatio s) (memo s) (result s)
    (trades s) (configStore s) (log s).

Definition set_balance (s : TM) (b : number) : TM :=
  mkTM (config s) (canInvest s) b (optimalInvestRatio s) (memo s) (result s)
    (trades s) (configStore s) (log s).

Definition set_optimalInvestRatio (s : TM) (n : Z) : TM :=
  mkTM (config s) (canInvest s) (balance s) n (memo s) (result s)
    (trades s) (configStore s) (log s).

Definition set_memo (s : TM) (tm : TradeMemo) : TM :=
  mkTM (config s) (canInvest s) (balance s) (optimalInvestRatio s) tm (result s)
    (trades s) (configStore s) (log s).

Definition set_result (s : TM) (r : TradeResult) : TM :=
  mkTM (config s) (canInvest s) (balance s) (optimalInvestRatio s) (memo s) r
    (trades s) (configStore s) (log s).

Definition set_trades (s : TM) (l : list TradeMemo) : TM :=
  mkTM (config s) (canInvest s) (balance s) (optimalInvestRatio s) (memo s)
    (result s) l (configStore s) (log s).

Definition set_configStore (s : TM) (c : Config) : TM :=
  mkTM (config s) (canInvest s) (balance s) (optimalInvestRatio s) (memo s)
    (result s) (trades s) c (log s).

Definition emit (s : TM) (e : Event) : TM :=
  mkTM (config s) (canInvest s) (balance s) (optimalInvestRatio s) (memo s)
    (result s) (trades s) (configStore s) (e :: log s).

Definition emptyResult (sym : ExchangeSymbol) : TradeResult :=
  mkTradeResult sym 0 0 0 0 0 0 false.

Definition noSymbol : ExchangeSymbol := mkSymbol EmptyString EmptyString.

(** [new TradeMemo(new TradeResult(symbol))]. *)
Definition newMemo (sym : ExchangeSymbol) : TradeMemo :=
  mkTradeMemo (emptyResult sym) IDLE [] 0 0 0 0 false false.

(** [new TradeManager(...)] over a ledger and a stored configuration: the
    field initialisers give [#canInvest = 0], [#balance = 0] and
    [#optimalInvestRatio = 0]. *)
Definition newTradeManager (ledger : list TradeMemo) (stored : Config) : TM :=
  mkTM stored 0 0 0 (newMemo noSymbol) (emptyResult noSymbol)
    ledger stored [].

Local Open Scope monad_scope.

Definition logEvent (e : Event) : M TM unit := modify (fun s => emit s e).

Definition setMemo (tm : TradeMemo) : M TM unit :=
  modify (fun s => set_memo s tm).

(** *** Stop-limit calculator: the formula of [updateStopLimit] *)

Section StopLimit.

Variable E : Env.
Variable cfg : Config.
Variable tm : TradeMemo.

Definition lastN : nat := 3.

Definition PG : number := ChannelSize cfg * (0.9 / FearGreedIndex cfg).

Definition P : number := memoProfit E tm / paid (tradeResult tm).

Definition K : number :=
  Qmin 0.99 (1 - ChannelSize cfg + Qmax 0 ((P * ChannelSize cfg) / PG)).

Definition avePrice : number :=
  fold_left (fun a b => a + b) (slice_last lastN (prices tm)) 0
  / inject_Z (Z.of_nat lastN).

Definition candidateA : number := Qmin (K * avePrice) (currentPrice tm).

Definition maxTTL : number := ChannelWindowMins cfg / FearGreedIndex cfg.

Definition curTTL : number := Qmin (inject_Z (ttl tm)) maxTTL.

Definition k2 : number := Qmin 0.99 (curTTL / maxTTL).

Definition candidateB : number := Qmin (k2 * avePrice) (currentPrice tm).

(** The [else] branch: two successive [Math.max] assignments. *)
Definition ratchet : number :=
  Qmax (Qmax (stopLimitPrice tm) candidateA) candidateB.

End StopLimit.

Section Methods.

Variable E : Env.

Definition getPrices (sym : ExchangeSymbol) : option PricesHolder :=
  priceProvider_get E (priceAsset sym) (quantityAsset sym).

Definition updateStopLimit : M TM unit :=
  s <- get ;;
  if Qeq_bool (stopLimitPrice (memo s)) 0 then
    chMin <- lift (channelsDao_get E (getCoinName (memo s))) ;;
    modify (fun s => set_memo s (set_stopLimitPrice (memo s) chMin))
  else
    modify (fun s =>
      set_memo s (set_stopLimitPrice (memo s) (ratchet E (config s) (memo s)))).

Definition forceUpdateStopLimit : M TM unit :=
  modify (fun s => set_memo s (set_ttl (memo s) 0)) ;;
  modify (fun s => set_memo s (set_stopLimitPrice (memo s) 0)) ;;
  updateStopLimit.

(** *** The ledger

    Modelled from the spec: [TradesDao] is not among the sources.  Section 6
    gives the ledger store an [update(key, mutatorFn, onAbsentFactory)] scoped
    to one asset key: the mutator runs on the stored record and what it leaves
    is stored back; for an absent key the factory's record, if any, is stored;
    a mutator that throws stores nothing. *)

Definition hasCoin (name : CoinName) (t : TradeMemo) : bool :=
  String.eqb (getCoinName t) name.

Fixpoint storeReplace (name : CoinName) (tm : TradeMemo) (l : list TradeMemo)
    : list TradeMemo :=
  match l with
  | [] => []
  | t :: l' => if hasCoin name t then tm :: l' else t :: storeReplace name tm l'
  end.

Definition tradesDao_update (name : CoinName) (mutate : M TM unit)
    (notFound : option TradeMemo) : M TM unit :=
  s <- get ;;
  match find (hasCoin name) (trades s) with
  | Some t =>
      setMemo t ;;
      mutate ;;
      modify (fun s => set_trades s (storeReplace name (memo s) (trades s)))
  | None =>
      match notFound with
      | Some t => modify (fun s => set_trades s (trades s ++ [t]))
      | None => ret tt
      end
  end.

(** Modelled from the spec: [TradeResult.addQuantity(quantity, cost)] is not
    among the sources; section 4.4 has the fee asset's quantity reduced by the
    commission with its cost basis unchanged. *)
Definition addQuantity (r : TradeResult) (q cost : number) : TradeResult :=
  mkTradeResult (symbol r) (quantity r + q) (paid r + cost) (price r)
    (gained r) (profit r) (commission r) (fromExchange r).

Definition set_symbol (r : TradeResult) (sym : ExchangeSymbol) : TradeResult :=
  mkTradeResult sym (quantity r) (paid r) (price r) (gained r) (profit r)
    (commission r) (fromExchange r).

(** *** Fee netting *)

Definition updateBNBBalance (q : number) : M TM bool :=
  s <- get ;;
  if existsb (hasCoin "BNB") (trades s) then
    modify (fun s => set_trades s
      (map (fun t => if hasCoin "BNB" t
                     then set_tradeResult t (addQuantity (tradeResult t) q 0)
                     else t) (trades s))) ;;
    logEvent (BnbUpdate q) ;;
    ret true
  else ret false.

Definition getBNBCommissionCost (s : TM) (c : number) : number :=
  match getPrices (mkSymbol "BNB" (StableCoin (config s))) with
  | Some bnbPriceHolder => c * holderCurrentPrice bnbPriceHolder
  | None => 0
  end.

Definition processBuyFee : M TM unit :=
  s <- get ;;
  updated <- updateBNBBalance (- commission (result s)) ;;
  if (updated : bool)
  then modify (fun s => set_result s (set_commission (result s) 0))
  else ret tt.

Definition processSellFee : M TM number :=
  s <- get ;;
  updated <- updateBNBBalance (- commission (result s)) ;;
  (if (updated : bool)
   then modify (fun s => set_result s (set_commission (result s) 0))
   else ret tt) ;;
  s <- get ;;
  let buyFee := getBNBCommissionCost s (commission (tradeResult (memo s))) in
  let sellFee := getBNBCommissionCost s (commission (result s)) in
  ret (buyFee + sellFee).

Definition updatePLStatistics (gainedCoin : string) (p : number) : M TM unit :=
  if isStableUSDCoin E gainedCoin then
    lift (stats_addProfit E p) ;;
    logEvent (AddProfit p) ;;
    logEvent (LogInfo "P/L added to statistics")
  else ret tt.

(** *** Sell and buy *)

(** The [try] block of [#sell]: what follows a sale the exchange confirmed. *)
Definition sellPostTrade (sym : ExchangeSymbol) : M TM unit :=
  modify (fun s =>
    set_canInvest s (Z.min (optimalInvestRatio s) (canInvest s + 1))) ;;
  modify (fun s => set_balance s (balance s + gained (result s))) ;;
  fee <- processSellFee ;;
  s <- get ;;
  let profit_ :=
    f2 E (gained (result s) - paid (tradeResult (memo s)) - fee) in
  let profitPercentage :=
    f2 E (100 * (profit_ / paid (tradeResult (memo s)))) in
  logEvent (LogAlert (if Qle_bool 0 profit_ then "Profit" else "Loss")) ;;
  modify (fun s => set_result s (set_profit (result s) profit_)) ;;
  updatePLStatistics (priceAsset sym) profit_.

Definition sell : M TM unit :=
  s <- get ;;
  let sym := mkSymbol (quantityAsset (symbol (tradeResult (memo s))))
                      (StableCoin (config s)) in
  let qty := quantity (tradeResult (memo s)) in
  logEvent (MarketSell sym qty) ;;
  modify (fun s => set_result s (exchange_marketSell E sym qty)) ;;
  s <- get ;;
  (if fromExchange (result s) then
     tryCatchFinally
       (sellPostTrade sym)
       (fun e => logEvent (LogError e))
       (modify (fun s => set_memo s (set_tradeResult (memo s) (result s))) ;;
        modify (fun s => set_memo s (setState (memo s) SOLD)) ;;
        modify (fun s => set_memo s (set_ttl (memo s) 0)))
   else
     modify (fun s => set_memo s (setState (memo s) BOUGHT)) ;;
     logEvent (LogAlert "An issue happened while selling. The asset is marked HODL. Please, resolve it manually.") ;;
     logEvent (LogAlert "sell result")) ;;
  modify (fun s => set_memo s (set_deleted (memo s) (stateIs (memo s) SOLD))).

(** The [try] block of [#buy]: the allocator update, the merge of the trade
    result, the reset of the stop limit and the netting of the buy fee. *)
Definition buyPostTrade : M TM unit :=
  modify (fun s => set_canInvest s (Z.max 0 (canInvest s - 1))) ;;
  modify (fun s => set_balance s (balance s - paid (result s))) ;;
  modify (fun s => set_memo s (set_prices (memo s) [price (result s)])) ;;
  s <- get ;;
  joined <- lift (joinWithNewTrade E (memo s) (result s)) ;;
  setMemo joined ;;
  forceUpdateStopLimit ;;
  processBuyFee ;;
  logEvent (LogAlert "asset average price").

Definition buy (cost : number) : M TM unit :=
  s <- get ;;
  let sym := symbol (tradeResult (memo s)) in
  logEvent (MarketBuy sym cost) ;;
  modify (fun s => set_result s (exchange_marketBuy E sym cost)) ;;
  s <- get ;;
  if fromExchange (result s) then
    tryCatchFinally
      buyPostTrade
      (fun e => logEvent (LogError e))
      (modify (fun s => set_memo s (setState (memo s) BOUGHT)))
  else
    logEvent (LogAlert "could not be bought") ;;
    modify (fun s => set_memo s (resetState (memo s))).

(** *** The per-asset decision step *)

Definition pushNewPrice : M TM unit :=
  s <- get ;;
  match getPrices (symbol (tradeResult (memo s))) with
  | Some priceHolder =>
      setMemo (pushPrice E (memo s) (holderCurrentPrice priceHolder))
  | None =>
      if truthy (quantity (tradeResult (memo s))) then
        logEvent (LogAlert "Exchange does not have price for the held symbol.") ;;
        if isNode E then sell else ret tt
      else
        logEvent (LogInfo "Exchange does not have price for the symbol")
  end.

Definition processBoughtState : M TM unit :=
  modify (fun s =>
    set_memo s (if isFinite (ttl (memo s))
                then set_ttl (memo s) (ttl (memo s) + 1)
                else set_ttl (memo s) 0)) ;;
  updateStopLimit ;;
  s <- get ;;
  if stopLimitCrossedDown E (memo s) then
    logEvent (LogAlert "stop limit crossed down") ;;
    if SellAtStopLimit (config s)
    then modify (fun s => set_memo s (setState (memo s) SELL))
    else ret tt
  else ret tt.

Definition calculateQuantity (s : TM) : number :=
  if (canInvest s <=? 0)%Z || Qgtb0 (quantity (tradeResult (memo s))) then 0
  else inject_Z (Z.max MIN_BUSD_BUY
                       (Qfloor (balance s / inject_Z (canInvest s)))).

(** [#checkTrade] in two halves: the price update with the processing of a
    held position, then the action. *)
Definition checkTradePrepare : M TM unit :=
  pushNewPrice ;;
  s <- get ;;
  if Qgtb0 (quantity (tradeResult (memo s)))
  then processBoughtState else ret tt.

Definition checkTradeAct : M TM unit :=
  s <- get ;;
  let priceMove := getPriceMove E (memo s) in
  if stateIs (memo s) SELL
     && (stopLimitCrossedDown E (memo s) || PriceMove_ltb priceMove UP)
  then sell
  else if stateIs (memo s) BUY && PriceMove_ltb DOWN priceMove then
    let howMuch := calculateQuantity s in
    if Qgtb0 howMuch && Qle_bool howMuch (balance s) then buy howMuch
    else
      logEvent (LogInfo "not enough balance or invest ratio would be exceeded") ;;
      modify (fun s => set_memo s (resetState (memo s)))
  else ret tt.

Definition checkTrade : M TM unit :=
  checkTradePrepare ;;
  checkTradeAct.

(** *** One cycle *)

Definition initBalance : M TM unit :=
  modify (fun s => set_balance s (StableBalance (config s))) ;;
  s <- get ;;
  if Qeq_bool (balance s) (-1)
  then modify (fun s =>
         set_balance s (exchange_getBalance E (StableCoin (config s))))
  else ret tt.

Definition persistBalance : M TM unit :=
  s <- get ;;
  let diff := balance s - StableBalance (config s) in
  if negb (Qeq_bool diff 0) then
    modify (fun s => set_config s (configStore s)) ;;
    modify (fun s =>
      set_config s (set_StableBalance (config s)
                      (StableBalance (config s) + diff))) ;;
    modify (fun s => set_balance s (StableBalance (config s))) ;;
    modify (fun s => set_configStore s (config s))
  else ret tt.

Definition setBuyState (coinName : CoinName) : M TM unit :=
  s <- get ;;
  let sym := mkSymbol coinName (StableCoin (config s)) in
  tradesDao_update coinName
    (modify (fun s => set_memo s (setState (memo s) BUY)) ;;
     modify (fun s =>
       set_memo s (set_tradeResult (memo s)
                     (set_symbol (tradeResult (memo s)) sym))))
    (Some (setState
             (set_prices (newMemo sym)
                (match priceProvider_get E (StableCoin (config s)) coinName with
                 | Some h => holderPrices h
                 | None => []
                 end))
             BUY)).

Definition setSellState (coinName : CoinName) : M TM unit :=
  tradesDao_update coinName
    (s <- get ;;
     if Qgtb0 (quantity (tradeResult (memo s)))
     then modify (fun s => set_memo s (setState (memo s) SELL))
     else ret tt)
    None.

(** The first lines of [trade()], up to the point where the records are
    processed: configuration, balance, invest ratio, allocator reset and the
    signals of the plugin.  These lines are outside the [try] of the loop; the
    configuration store, the channel store and the plugin are read as
    functions, so what is proved of [trade] is proved of the cycles in which
    they answer. *)
Definition tradePrologue : M TM unit :=
  modify (fun s => set_config s (configStore s)) ;;
  initBalance ;;
  s <- get ;;
  let cs := channelsDao_getCandidates E (ChannelWindowMins (config s)) in
  modify (fun s =>
    set_optimalInvestRatio s
      (Z.max 2 (Z.min 4 (Z.of_nat (List.length cs))))) ;;
  s <- get ;;
  (if tradesDao_noInvestments E (trades s)
   then modify (fun s => set_canInvest s (optimalInvestRatio s))
   else ret tt) ;;
  s <- get ;;
  forEach (fun ca : CoinName * TradeAction =>
             match snd ca with
             | Buy => setBuyState (fst ca)
             | Sell => setSellState (fst ca)
             end)
          (plugin_trade E (config s)).

(** The processing order: existing trades first, then those requested to buy. *)
Definition tradeOrder (s : TM) : list TradeMemo :=
  let ts := if isNode E then sortByCoinName E (trades s)
            else shuffle E (trades s) in
  filter (fun tm => negb (stateIs tm BUY)) ts
  ++ filter (fun tm => stateIs tm BUY) ts.

(** The body of [tms.forEach]: one record, with its failure contained.  The
    text of the alert reads [e.message] before anything is logged. *)
Definition tradeOne (tm : TradeMemo) : M TM unit :=
  tryCatch
    (tradesDao_update (getCoinName tm) checkTrade None)
    (fun e =>
       if isNullish e
       then throw "TypeError: cannot read properties of null or undefined"
       else logEvent (LogAlert "Failed to trade") ;; logEvent (LogError e)).

Definition trade : M TM unit :=
  tradePrologue ;;
  s <- get ;;
  forEach tradeOne (tradeOrder s) ;;
  persistBalance.

Definition sellAll (sellNow : bool) : M TM unit :=
  modify (fun s => set_config s (configStore s)) ;;
  initBalance ;;
  s <- get ;;
  forEach (fun tm : TradeMemo =>
             tradesDao_update (getCoinName tm)
               (modify (fun s => set_memo s (resetState (memo s))) ;;
                s <- get ;;
                if Qgtb0 (quantity (tradeResult (memo s))) then
                  modify (fun s => set_memo s (setState (memo s) SELL)) ;;
                  if sellNow then sell else ret tt
                else ret tt)
               None)
          (trades s) ;;
  persistBalance.

(** The states a cycle passes through between records: after the prologue and
    after each record of the processing order. *)
Definition cycleStates (s0 : TM) : list TM :=
  let s1 := snd (tradePrologue s0) in
  map (fun k => snd (forEach tradeOne (firstn k (tradeOrder s1)) s1))
      (seq 0 (Datatypes.S (List.length (tradeOrder s1)))).

End Methods.

End TradeManager.

(** ** Array.prototype.sort

    [xs.sort(cmp)] is modelled as the stable insertion sort engines run on
    short arrays: each element in turn is placed in the sorted prefix before
    the first element it compares below ([cmp x y < 0]), so an element never
    overtakes one it does not compare below. *)

Fixpoint insertBy {A} (cmp : A -> A -> Z) (x : A) (l : list A) : list A :=
  match l with
  | [] => [x]
  | y :: l' => if (cmp x y <? 0)%Z then x :: y :: l' else y :: insertBy cmp x l'
  end.

Definition jsSort {A} (cmp : A -> A -> Z) (l : list A) : list A :=
  fold_left (fun acc x => insertBy cmp x acc) l [].

(** [x < y] on numbers, as a boolean. *)
Definition Qltb (x y : number) : bool := negb (Qle_bool y x).

(** ** V2Trader (apps-script/Trader.ts) *)

Module V2Trader.

Record Config := mkConfig {
  StableCoin : string;
  BuyQuantity : number;
  ProfitLimit : number;
  StopLimit : number;
  SellAtStopLimit : bool;
  SellAtProfitLimit : bool;
  SwingTradeEnabled : bool;
  AveragingDown : bool
}.

(** The exchange, [Coin.isStable] and the methods of [TradeMemo] this class
    calls, none of them among the sources. *)
Record Env := mkEnv {
  exchange_marketBuy : ExchangeSymbol -> number -> TradeResult;
  exchange_marketSell : ExchangeSymbol -> number -> TradeResult;
  (* exchange.getPrices()[symbol], read once by the constructor *)
  prices_get : string -> option number;
  isStable : string -> bool;
  priceGoesUp : TradeMemo -> bool;
  profitLimitCrossedUp : TradeMemo -> number -> bool;
  lossLimitCrossedDown : TradeMemo -> bool;
  profitPercent : TradeMemo -> number;
  joinWithNewTrade : TradeMemo -> TradeResult -> TradeMemo;
  (* +x.toFixed(2) *)
  toFixed2 : number -> number;
  (* the machine's sum, difference and product of two numbers: the exact
     result rounded to a double.  They are used where a computed threshold
     is compared with a price and decides a branch, since rounding can move
     the threshold across the price. *)
  fadd : number -> number -> number;
  fsub : number -> number -> number;
  fmul : number -> number -> number
}.

(** The store behind [IStore] (its trades in iteration order and the stored
    configuration) and the events emitted so far (latest first). *)
Record World := mkWorld {
  store : list TradeMemo;
  storeConfig : Config;
  log : list Event
}.

Definition emit (w : World) (e : Event) : World :=
  mkWorld (store w) (storeConfig w) (e :: log w).

Definition set_store (w : World) (l : list TradeMemo) : World :=
  mkWorld l (storeConfig w) (log w).

Definition hasCoin (name : CoinName) (t : TradeMemo) : bool :=
  String.eqb (getCoinName t) name.

(** Modelled from the spec: [IStore] is not among the sources; section 6
    gives the ledger store [get(key)], [put(key, record)] and [iterateAll()],
    keyed by asset.  [put] overwrites the record of the key where it stands
    and appends a new key. *)
Fixpoint putTrade (tm : TradeMemo) (l : list TradeMemo) : list TradeMemo :=
  match l with
  | [] => [tm]
  | t :: l' => if hasCoin (getCoinName tm) t then tm :: l'
               else t :: putTrade tm l'
  end.

Definition getTrade (w : World) (sym : ExchangeSymbol) : option TradeMemo :=
  find (hasCoin (quantityAsset sym)) (store w).

Definition getTradesList (w : World) : list TradeMemo := store w.

(** Modelled from the spec: [TradeResult.addQuantity(quantity, cost)]. *)
Definition addQuantity (r : TradeResult) (q cost : number) : TradeResult :=
  mkTradeResult (symbol r) (quantity r + q) (paid r + cost) (price r)
    (gained r) (profit r) (commission r) (fromExchange r).

Local Open Scope monad_scope.

Definition logEvent (e : Event) : M World unit := modify (fun w => emit w e).

Definition setTrade (tm : TradeMemo) : M World unit :=
  modify (fun w => set_store w (putTrade tm (store w))).

(** The comparator of [sell] and the record it picks:
    [getTradesList().filter(BOUGHT).sort(byProfitPercentDesc)[0]]. *)
Definition byProfitPercentDesc (pp : TradeMemo -> number) (t1 t2 : TradeMemo)
    : Z :=
  if Qltb (pp t1) (pp t2) then (-1)%Z else 1%Z.

Definition lowestProfitTrade (pp : TradeMemo -> number) (l : list TradeMemo)
    : option TradeMemo :=
  hd_error (jsSort (byProfitPercentDesc pp)
              (filter (fun t => stateIs t BOUGHT) l)).

Section Methods.

Variable E : Env.
(* this.config, read from the store by the constructor *)
Variable config : Config.

Definition updateBNBBalance (q : number) : M World bool :=
  w <- get ;;
  match getTrade w (mkSymbol "BNB" (StableCoin config)) with
  | Some tm =>
      setTrade (set_tradeResult tm (addQuantity (tradeResult tm) q 0)) ;;
      logEvent (BnbUpdate q) ;;
      ret true
  | None => ret false
  end.

Definition getBNBCommissionCost (c : number) : number :=
  match prices_get E ("BNB" ++ StableCoin config) with
  | Some bnbPrice => if truthy bnbPrice then c * bnbPrice else 0
  | None => 0
  end.

Definition processBuyFee (buyResult : TradeResult) : M World TradeResult :=
  updated <- updateBNBBalance (- commission buyResult) ;;
  ret (if (updated : bool) then set_commission buyResult 0 else buyResult).

Definition processSellFee (tm : TradeMemo) (sellResult : TradeResult)
    : M World (number * TradeResult) :=
  updated <- updateBNBBalance (- commission sellResult) ;;
  let sellResult' :=
    if (updated : bool) then set_commission sellResult 0 else sellResult in
  let buyFee := getBNBCommissionCost (commission (tradeResult tm)) in
  let sellFee := getBNBCommissionCost (commission sellResult') in
  let fee := buyFee + sellFee in
  (if truthy fee then logEvent (LogInfo "Fee") else ret tt) ;;
  ret (fee, sellResult').

Definition updatePLStatistics (gainedCoin : string) (p : number)
    : M World unit :=
  if isStable E gainedCoin then
    logEvent (AddProfit p) ;;
    logEvent (LogInfo "P/L added to statistics")
  else ret tt.

(** [tm.prices[tm.prices.length - 3]]; absent when fewer than three prices
    are held. *)
Definition thirdLast (ps : list number) : option number :=
  if (3 <=? List.length ps)%nat then nth_error ps (List.length ps - 3)
  else None.

Definition processBoughtState (tm : TradeMemo) : M World TradeMemo :=
  let goesUp := priceGoesUp E tm in
  (if profitLimitCrossedUp E tm (ProfitLimit config)
   then logEvent (LogAlert "crossed profit limit")
   else if lossLimitCrossedDown E tm
        then logEvent (LogAlert "crossed stop limit")
        else ret tt) ;;
  w <- get ;;
  let tm1 :=
    if Qltb (currentPrice tm) (stopLimitPrice tm) then
      let canSell := negb (hodl tm) && SellAtStopLimit (storeConfig w) in
      if canSell then setState tm SELL else tm
    else tm in
  let profitLimitPrice :=
    fmul E (price (tradeResult tm1)) (fadd E 1 (ProfitLimit config)) in
  let tm2 :=
    if Qltb profitLimitPrice (currentPrice tm1) then
      let canSell := negb (hodl tm1) && SellAtProfitLimit (storeConfig w) in
      if canSell then setState tm1 SELL else tm1
    else tm1 in
  ret (if goesUp then
         match thirdLast (prices tm2) with
         | Some p =>
             let newStopLimit := p * (1 - StopLimit config) in
             set_stopLimitPrice tm2 (Qmax (stopLimitPrice tm2) newStopLimit)
         | None => tm2 (* the product is NaN, which the model has no number for *)
         end
       else tm2).

Definition buy (memo : TradeMemo) (cost : number) : M World TradeMemo :=
  let sym := symbol (tradeResult memo) in
  logEvent (MarketBuy sym cost) ;;
  let tradeResult0 := exchange_marketBuy E sym cost in
  if fromExchange tradeResult0 then
    tradeResult1 <- processBuyFee tradeResult0 ;;
    let memo1 := joinWithNewTrade E memo tradeResult1 in
    let memo2 :=
      set_stopLimitPrice memo1 (price tradeResult1 * (1 - StopLimit config)) in
    let memo3 := set_hodl memo2 (hodl memo2 || isStable E (quantityAsset sym)) in
    setTrade memo3 ;;
    logEvent (LogAlert "bought") ;;
    ret memo3
  else
    logEvent (LogAlert "not bought") ;;
    logEvent (CancelAction (quantityAsset sym)) ;;
    ret memo.

(** The first half of [sell]: the exchange call and the two outcomes, up to
    [store.setTrade(memo)].  Returns the record and the exchange's result. *)
Definition sellSettle (memo : TradeMemo) : M World (TradeMemo * TradeResult) :=
  let sym := mkSymbol (quantityAsset (symbol (tradeResult memo)))
                      (StableCoin config) in
  let qty := quantity (tradeResult memo) in
  logEvent (MarketSell sym qty) ;;
  let tradeResult0 := exchange_marketSell E sym qty in
  mr <- (if fromExchange tradeResult0 then
           fr <- processSellFee memo tradeResult0 ;;
           let profit_ := gained (snd fr) - paid (tradeResult memo) - fst fr in
           let tradeResult1 := set_profit (snd fr) (toFixed2 E profit_) in
           let memo1 := setState (set_tradeResult memo tradeResult1) SOLD in
           updatePLStatistics (priceAsset sym) (profit tradeResult1) ;;
           ret (memo1, tradeResult1)
         else
           logEvent (LogAlert "An issue happened while selling. The asset is marked HODL. Please, resolve it manually.") ;;
           ret (setState (set_hodl memo true) BOUGHT, tradeResult0)) ;;
  setTrade (fst mr) ;;
  logEvent (LogAlert "sell result") ;;
  ret mr.

(** The second half: averaging down. *)
Definition sellReinvest (memo : TradeMemo) (tradeResult0 : TradeResult)
    : M World unit :=
  if stateIs memo SOLD && AveragingDown config then
    w <- get ;;
    match lowestProfitTrade (profitPercent E) (getTradesList w) with
    | Some lowest =>
        logEvent (LogAlert "Averaging down is enabled") ;;
        logEvent (LogAlert "All gains are being invested") ;;
        buy lowest (gained tradeResult0) ;;
        ret tt
    | None => ret tt
    end
  else ret tt.

Definition sell (memo : TradeMemo) : M World TradeMemo :=
  mr <- sellSettle memo ;;
  sellReinvest (fst mr) (snd mr) ;;
  ret (fst mr).

End Methods.

End V2Trader.

(** ** V2Trader, the later copy (the class that follows src/gas/dao/Config.ts)

    Only its sell path is embedded: it differs from the one above in how the
    record chosen for averaging down is bought (through the store's
    [changeTrade]) and in what a buy does to the record. *)

Module V2TraderGas.

Import V2Trader.

Local Open Scope monad_scope.

(** Modelled from the spec: [DefaultStore.changeTrade(coin, mutateFn)] is the
    ledger's update scoped to one key (section 6): the mutator runs on the
    stored record and the record it returns, if any, is stored back. *)
Definition changeTrade (name : CoinName)
    (mutate : TradeMemo -> M World (option TradeMemo)) : M World unit :=
  w <- get ;;
  match find (hasCoin name) (store w) with
  | Some tm =>
      r <- mutate tm ;;
      match r with
      | Some tm' => setTrade tm'
      | None => ret tt
      end
  | None => ret tt
  end.

Section Methods.

Variable E : Env.
Variable config : Config.

Definition updateBNBBalance (q : number) : M World bool :=
  w <- get ;;
  match find (hasCoin "BNB") (store w) with
  | Some tm =>
      if fromExchange (tradeResult tm) then
        setTrade (set_tradeResult tm (addQuantity (tradeResult tm) q 0)) ;;
        logEvent (BnbUpdate q) ;;
        ret true
      else ret false
  | None => ret false
  end.

Definition processBuyFee (buyResult : TradeResult) : M World TradeResult :=
  updated <- updateBNBBalance (- commission buyResult) ;;
  ret (if (updated : bool) then set_commission buyResult 0 else buyResult).

Definition processSellFee (tm : TradeMemo) (sellResult : TradeResult)
    : M World (number * TradeResult) :=
  updated <- updateBNBBalance (- commission sellResult) ;;
  let sellResult' :=
    if (updated : bool) then set_commission sellResult 0 else sellResult in
  let buyFee := getBNBCommissionCost E config (commission (tradeResult tm)) in
  let sellFee := getBNBCommissionCost E config (commission sellResult') in
  ret (buyFee + sellFee, sellResult').

Definition buy (tm : TradeMemo) (cost : number) : M World TradeMemo :=
  let sym := symbol (tradeResult tm) in
  logEvent (MarketBuy sym cost) ;;
  let tradeResult0 := exchange_marketBuy E sym cost in
  if fromExchange tradeResult0 then
    tradeResult1 <- processBuyFee tradeResult0 ;;
    logEvent (LogAlert "asset average price") ;;
    ret (joinWithNewTrade E tm tradeResult1)
  else
    logEvent (LogAlert "could not be bought") ;;
    ret (resetState tm).

Definition sellSettle (memo : TradeMemo) : M World (TradeMemo * TradeResult) :=
  let sym := mkSymbol (quantityAsset (symbol (tradeResult memo)))
                      (StableCoin config) in
  let qty := quantity (tradeResult memo) in
  logEvent (MarketSell sym qty) ;;
  let tradeResult0 := exchange_marketSell E sym qty in
  if fromExchange tradeResult0 then
    fr <- processSellFee memo tradeResult0 ;;
    let profit_ :=
      toFixed2 E (gained (snd fr) - paid (tradeResult memo) - fst fr) in
    let profitPercentage :=
      toFixed2 E (100 * (profit_ / paid (tradeResult memo))) in
    logEvent (LogAlert (if Qle_bool 0 profit_ then "Profit" else "Loss")) ;;
    let tradeResult1 := set_profit (snd fr) profit_ in
    let memo1 := setState (set_tradeResult memo tradeResult1) SOLD in
    updatePLStatistics E (priceAsset sym) profit_ ;;
    ret (memo1, tradeResult1)
  else
    logEvent (LogAlert "An issue happened while selling. The asset is marked HODL. Please, resolve it manually.") ;;
    logEvent (LogAlert "sell result") ;;
    ret (setState (set_hodl memo true) BOUGHT, tradeResult0).

Definition sellReinvest (memo : TradeMemo) (tradeResult0 : TradeResult)
    : M World unit :=
  if stateIs memo SOLD && AveragingDown config then
    w <- get ;;
    match lowestProfitTrade (profitPercent E) (getTradesList w) with
    | Some lowest =>
        logEvent (LogAlert "Averaging down is enabled") ;;
        logEvent (LogAlert "All gains are being invested") ;;
        changeTrade (getCoinName lowest)
          (fun tm => tm' <- buy tm (gained tradeResult0) ;; ret (Some tm'))
    | None => ret tt
    end
  else ret tt.

Definition sell (memo : TradeMemo) : M World TradeMemo :=
  mr <- sellSettle memo ;;
  sellReinvest (fst mr) (snd mr) ;;
  ret (fst mr).

End Methods.

End V2TraderGas.

(** ** Concrete collaborators for the scenarios

    The methods of [TradeMemo] are not among the sources; the scenarios below
    run the engine with these. *)

Module Scenario.

(** Modelled from the spec: [TradeMemo.profit()] is missing; section 4.2 calls
    it the unrealized profit, and the scenario of section 8 (paid 100,
    quantity 10, price 10) gives it the value 0: the holding at the current
    price less what was paid. *)
Definition profitOf (tm : TradeMemo) : number :=
  currentPrice tm * quantity (tradeResult tm) - paid (tradeResult tm).

(** Modelled from the spec: [TradeMemo.pushPrice] is missing; section 4.1 has
    it append to the history and update [currentPrice] and
    [maxObservedPrice], section 3 bounds the history (here to ten samples). *)
Definition pushPrice (tm : TradeMemo) (p : number) : TradeMemo :=
  mkTradeMemo (tradeResult tm) (state tm) (slice_last 10 (prices tm ++ [p])) p
    (Qmax (maxObservedPrice tm) p) (stopLimitPrice tm) (ttl tm) (hodl tm)
    (deleted tm).

(** Modelled from the spec: [TradeMemo.getPriceMove] is missing; section 4.1
    classifies the trend from the last samples (here the last two). *)
Definition getPriceMove (tm : TradeMemo) : PriceMove :=
  match rev (prices tm) with
  | p1 :: p0 :: _ =>
      if Qltb p1 p0 then DOWN else if Qltb p0 p1 then UP else FLAT
  | _ => FLAT
  end.

(** Modelled from the spec: [TradeMemo.stopLimitCrossedDown] is missing;
    section 4.1 makes it true only on the tick where the previous sample was
    at or above the stop limit and the current one is below it. *)
Definition stopLimitCrossedDown (tm : TradeMemo) : bool :=
  match rev (prices tm) with
  | _ :: p0 :: _ =>
      Qltb (currentPrice tm) (stopLimitPrice tm)
      && Qle_bool (stopLimitPrice tm) p0
  | _ => false
  end.

(** Modelled from the spec: [TradeMemo.joinWithNewTrade] is missing; section
    4.6 merges the new trade into the record: quantities and costs add up and
    the price is their weighted average. *)
Definition joinWithNewTrade (tm : TradeMemo) (r : TradeResult) : TradeMemo :=
  let q := quantity (tradeResult tm) + quantity r in
  let c := paid (tradeResult tm) + paid r in
  set_tradeResult tm
    (mkTradeResult (symbol r) q c (c / q) 0 0
       (commission (tradeResult tm) + commission r) true).

Definition XYZ : ExchangeSymbol := mkSymbol "XYZ" "BUSD".

(** An exchange that fills every order at price 10 without commission, or
    refuses every order. *)
Definition fillBuy (sym : ExchangeSymbol) (cost : number) : TradeResult :=
  mkTradeResult sym (cost / 10) cost 10 0 0 0 true.

Definition fillSell (sym : ExchangeSymbol) (qty : number) : TradeResult :=
  mkTradeResult sym 0 0 10 (qty * 10) 0 0 true.

Definition refuse (sym : ExchangeSymbol) (q : number) : TradeResult :=
  mkTradeResult sym 0 0 0 0 0 0 false.

(** [priced]: whether the price feed lists the pair (at 10); [fills]: whether
    the exchange fills orders; [seed]: the channel low of every coin. *)
Definition env (node priced fills : bool) (seed : number) : TradeManager.Env :=
  TradeManager.mkEnv node
    (fun _ _ => if priced then Some (TradeManager.mkPricesHolder [10] 10)
                else None)
    (fun _ => Val seed)
    (fun _ => ["XYZ"%string])
    (if fills then fillBuy else refuse)
    (if fills then fillSell else refuse)
    (fun _ => 1000)
    (fun c => String.eqb c "BUSD")
    (fun _ => [])
    (fun l => forallb (fun t => Qle_bool (quantity (tradeResult t)) 0) l)
    (fun l => l)
    (fun l => l)
    pushPrice getPriceMove stopLimitCrossedDown profitOf
    (fun tm r => Val (joinWithNewTrade tm r))
    (fun x => x)
    (fun _ => Val tt).

(** The held record of the scenario of section 8, with a given previous stop
    limit: paid 100 for 10 units, history [9, 9.5, 10], ttl 5. *)
Definition heldMemo (prev : number) : TradeMemo :=
  mkTradeMemo (mkTradeResult XYZ 10 100 10 0 0 0 true) BOUGHT [9; 9.5; 10] 10
    10 prev 5 false false.

(** A manager holding [tm], with the default configuration (ChannelSize 0.25,
    ChannelWindowMins 4500, FearGreedIndex 2). *)
Definition managerOn (tm : TradeMemo) : TradeManager.TM :=
  TradeManager.set_memo (TradeManager.newTradeManager [tm] DefaultConfig) tm.

(** A held record whose price has fallen through its stop limit of 12. *)
Definition fallenMemo : TradeMemo :=
  mkTradeMemo (mkTradeResult XYZ 10 100 10 0 0 0 true) BOUGHT
    [13; 11; 10] 10 13 12 5 false false.


(** The same collaborators, except that merging a trade result throws. *)
Definition throwingEnv : TradeManager.Env :=
  let E := env false true true 5 in
  TradeManager.mkEnv (TradeManager.isNode E) (TradeManager.priceProvider_get E)
    (TradeManager.channelsDao_get E) (TradeManager.channelsDao_getCandidates E)
    (TradeManager.exchange_marketBuy E) (TradeManager.exchange_marketSell E)
    (TradeManager.exchange_getBalance E) (TradeManager.isStableUSDCoin E)
    (TradeManager.plugin_trade E) (TradeManager.tradesDao_noInvestments E)
    (TradeManager.sortByCoinName E) (TradeManager.shuffle E)
    (TradeManager.pushPrice E) (TradeManager.getPriceMove E)
    (TradeManager.stopLimitCrossedDown E) (TradeManager.memoProfit E)
    (fun _ _ => Throw "join failed")
    (TradeManager.f2 E) (TradeManager.stats_addProfit E).

(** A record requested to buy, not yet held, whose price is falling. *)
Definition wantedMemo : TradeMemo :=
  mkTradeMemo (mkTradeResult XYZ 0 0 0 0 0 0 false) BUY [12; 11] 11 12 0 0
    false false.

(** A manager with two free slots and a balance of 10 on [wantedMemo]. *)
Definition shortManager : TradeManager.TM :=
  TradeManager.set_balance
    (TradeManager.set_canInvest (managerOn wantedMemo) 2) 10.

(** A held record whose last sample fell from its stop limit of 12 to 10. *)
Definition crossingMemo : TradeMemo :=
  mkTradeMemo (mkTradeResult XYZ 10 100 10 0 0 0 true) BOUGHT
    [13; 12; 10] 10 13 12 5 false false.

(** A held record that was asked to be sold. *)
Definition sellingMemo : TradeMemo := setState (heldMemo 7) SELL.


(** *** V2Trader *)

(** Modelled from the spec: [TradeMemo.profitPercent()] is missing; section
    4.5 gives the profit percentage as profit over paid cost. *)
Definition profitPercentOf (tm : TradeMemo) : number :=
  profitOf tm / paid (tradeResult tm) * 100.

Definition v2env : V2Trader.Env :=
  V2Trader.mkEnv fillBuy fillSell (fun _ => None)
    (fun c => String.eqb c "BUSD") (fun _ => false) (fun _ _ => false)
    (fun _ => false) profitPercentOf joinWithNewTrade (fun x => x)
    Qplus Qminus Qmult.

(** ProfitLimit 5%, StopLimit 3%, both sells and averaging down enabled. *)
Definition v2config : V2Trader.Config :=
  V2Trader.mkConfig "BUSD" 50 0.05 0.03 true true false true.

(** The open positions of section 8: A at -5% (paid 100 for 10 units, now at
    9.5) and B at +10% (now at 11); C is the one being sold. *)
Definition positionA : TradeMemo :=
  mkTradeMemo (mkTradeResult (mkSymbol "AAA" "BUSD") 10 100 10 0 0 0 true)
    BOUGHT [10; 9.5] 9.5 10 9 3 false false.

Definition positionB : TradeMemo :=
  mkTradeMemo (mkTradeResult (mkSymbol "BBB" "BUSD") 10 100 10 0 0 0 true)
    BOUGHT [10; 11] 11 11 9 3 false false.

Definition positionC : TradeMemo :=
  mkTradeMemo (mkTradeResult (mkSymbol "CCC" "BUSD") 10 100 10 0 0 0 true)
    SELL [10; 10] 10 10 9 3 false false.

Definition v2world : V2Trader.World :=
  V2Trader.mkWorld [positionB; positionA; positionC] v2config [].

End Scenario.

(** * The rest of the code *)

From Stdlib Require Import Permutation Sorted.

(** ** The stop-limit formula on JavaScript numbers

    The formula of [updateStopLimit] divides.  On the rationals a quotient by
    zero is 0; in JavaScript it is an infinity or NaN, and [Math.min] and
    [Math.max] return NaN as soon as an argument is NaN.  This second
    embedding of the [else] branch of [updateStopLimit] keeps those values,
    so that the conditions under which the two embeddings agree can be
    stated and proved.  Zero is unsigned here: a quotient [x / 0] has the
    sign of [x]. *)

Module JS.

Inductive num := Fin (q : Q) | PosInf | NegInf | NaN.

Definition inf (positive : bool) : num :=
  if positive then PosInf else NegInf.

Definition neg (a : num) : num :=
  match a with
  | Fin x => Fin (- x)
  | PosInf => NegInf
  | NegInf => PosInf
  | NaN => NaN
  end.

Definition add (a b : num) : num :=
  match a, b with
  | NaN, _ | _, NaN => NaN
  | Fin x, Fin y => Fin (x + y)
  | PosInf, NegInf | NegInf, PosInf => NaN
  | PosInf, _ | _, PosInf => PosInf
  | NegInf, _ | _, NegInf => NegInf
  end.

Definition sub (a b : num) : num := add a (neg b).

Definition mul (a b : num) : num :=
  match a, b with
  | NaN, _ | _, NaN => NaN
  | Fin x, Fin y => Fin (x * y)
  | Fin x, PosInf | PosInf, Fin x =>
      if Qeq_bool x 0 then NaN else inf (Qltb 0 x)
  | Fin x, NegInf | NegInf, Fin x =>
      if Qeq_bool x 0 then NaN else inf (Qltb x 0)
  | PosInf, PosInf | NegInf, NegInf => PosInf
  | PosInf, NegInf | NegInf, PosInf => NegInf
  end.

Definition div (a b : num) : num :=
  match a, b with
  | NaN, _ | _, NaN => NaN
  | Fin x, Fin y =>
      if Qeq_bool y 0
      then if Qeq_bool x 0 then NaN else inf (Qltb 0 x)
      else Fin (x / y)
  | Fin _, _ => Fin 0
  | PosInf, Fin y => inf (negb (Qltb y 0))
  | NegInf, Fin y => inf (Qltb y 0)
  | _, _ => NaN
  end.

(** [Math.min] and [Math.max]. *)
Definition min (a b : num) : num :=
  match a, b with
  | NaN, _ | _, NaN => NaN
  | NegInf, _ | _, NegInf => NegInf
  | PosInf, x | x, PosInf => x
  | Fin x, Fin y => Fin (Qmin x y)
  end.

Definition max (a b : num) : num :=
  match a, b with
  | NaN, _ | _, NaN => NaN
  | PosInf, _ | _, PosInf => PosInf
  | NegInf, x | x, NegInf => x
  | Fin x, Fin y => Fin (Qmax x y)
  end.

Section Formula.

(* tm.profit() *)
Variable profit_ : number.
Variable cfg : Config.
Variable tm : TradeMemo.

Definition PG : num :=
  mul (Fin (ChannelSize cfg)) (div (Fin 0.9) (Fin (FearGreedIndex cfg))).

Definition P : num := div (Fin profit_) (Fin (paid (tradeResult tm))).

Definition K : num :=
  min (Fin 0.99)
    (add (sub (Fin 1) (Fin (ChannelSize cfg)))
       (max (Fin 0) (div (mul P (Fin (ChannelSize cfg))) PG))).

Definition avePrice : num :=
  div (Fin (fold_left (fun a b => a + b)
              (slice_last TradeManager.lastN (prices tm)) 0))
      (Fin (inject_Z (Z.of_nat TradeManager.lastN))).

Definition maxTTL : num :=
  div (Fin (ChannelWindowMins cfg)) (Fin (FearGreedIndex cfg)).

Definition k2 : num :=
  min (Fin 0.99) (div (min (Fin (inject_Z (ttl tm))) maxTTL) maxTTL).

(** The value the [else] branch leaves in [tm.stopLimitPrice]. *)
Definition stopLimit : num :=
  let newStopLimit := min (mul K avePrice) (Fin (currentPrice tm)) in
  let stopLimitPrice1 := max (Fin (stopLimitPrice tm)) newStopLimit in
  let newStopLimit2 := min (mul k2 avePrice) (Fin (currentPrice tm)) in
  max stopLimitPrice1 newStopLimit2.

End Formula.

End JS.

(** ** V2Trader: the ticker check (apps-script/Trader.ts) *)

Module V2Ticker.

Import V2Trader.

Local Open Scope monad_scope.

(** [ExchangeSymbol.toString] is not among the sources; the price map is
    keyed as [getBNBCommissionCost] keys it, the quantity asset followed by
    the price asset. *)
Definition symbolString (sym : ExchangeSymbol) : string :=
  quantityAsset sym ++ priceAsset sym.

Definition isOrder (e : Event) : bool :=
  match e with
  | MarketBuy _ _ | MarketSell _ _ => true
  | _ => false
  end.

Section Methods.

Variable E : Env.
Variable config : Config.
(* TradeMemo.pushPrice, not among the sources *)
Variable pushPrice : TradeMemo -> number -> TradeMemo.

Definition processSoldState (tm : TradeMemo) : M World TradeMemo :=
  if negb (SwingTradeEnabled config) then ret tm
  else
    let priceDropped :=
      Qltb (currentPrice tm)
        (fmul E (maxObservedPrice tm) (fsub E 1 (ProfitLimit config))) in
    if priceDropped then
      logEvent (LogAlert "will be bought again as price dropped sufficiently") ;;
      ret (setState tm BUY)
    else
      logEvent (LogInfo "price has not dropped sufficiently, skipping swing trade") ;;
      ret tm.

(** The two branches of [pushNewPrice] without a price. *)
Definition noPrice (tm : TradeMemo) : M World TradeMemo :=
  if truthy (quantity (tradeResult tm))
  then throw "Exchange does not have price"
  else logEvent (LogInfo "Exchange does not have price") ;; ret tm.

Definition pushNewPrice (tm : TradeMemo) : M World TradeMemo :=
  match prices_get E (symbolString (symbol (tradeResult tm))) with
  | Some p => if truthy p then ret (pushPrice tm p) else noPrice tm
  | None => noPrice tm
  end.

Definition tickerCheck (tm : TradeMemo) : M World TradeMemo :=
  tm1 <- (if negb (isStable E (getCoinName tm)) then pushNewPrice tm
          else ret tm) ;;
  tm2 <- (if stateIs tm1 BOUGHT then processBoughtState E config tm1
          else if stateIs tm1 SOLD then processSoldState tm1
               else ret tm1) ;;
  setTrade tm2 ;;
  let goesUp := priceGoesUp E tm2 in
  (if goesUp then logEvent (LogInfo "price goes up") else ret tt) ;;
  if stateIs tm2 SELL && negb goesUp then sell E config tm2
  else if stateIs tm2 BUY then
         if goesUp || isStable E (getCoinName tm2)
         then buy E config tm2 (BuyQuantity config)
         else ret tm2
       else ret tm2.

End Methods.

(** Whether the price map lists a price for the record's symbol. *)
Definition priceListed (E : Env) (tm : TradeMemo) : bool :=
  match prices_get E (symbolString (symbol (tradeResult tm))) with
  | Some p => truthy p
  | None => false
  end.

End V2Ticker.

(** ** The ticker (src/gas/Watcher.ts): the loop over the records *)

Module Watcher.

Import V2Trader.

Local Open Scope monad_scope.

Section Ticker.

(* trader.tickerCheck *)
Variable tickerCheck : TradeMemo -> M World TradeMemo.

Definition tickerStep (tm : TradeMemo) : M World unit :=
  tryCatch
    (V2TraderGas.changeTrade (getCoinName tm)
       (fun tm => r <- tickerCheck tm ;; ret (Some r)))
    (fun e => logEvent (LogError e)).

Definition tickerLoop : M World unit :=
  w <- get ;;
  forEach tickerStep (getTradesList w).

End Ticker.

End Watcher.

(** ** V2Trader, the later copy: the balances of the stable coins *)

Module StableCoins.

Import V2Trader.

Local Open Scope monad_scope.

Section Methods.

(* Object.keys(StableUSDCoin) *)
Variable stableCoins : list CoinName.
(* exchange.getFreeAsset, which asks the exchange and may throw *)
Variable exchange_getFreeAsset : CoinName -> res number.
(* TradeMemo.getState, not among the sources: the state of the record, or
   none for a record that has no state yet *)
Variable getState : TradeMemo -> option TradeState.

(** [new TradeResult(symbol, "Stable coin")] with [quantity] and
    [fromExchange] assigned; the constructor is not among the sources, and the
    numbers it leaves are taken to be 0. *)
Definition stableCoinResult (sym : ExchangeSymbol) (balance : number)
    : TradeResult :=
  mkTradeResult sym balance 0 0 0 0 0 true.

(** The mutator handed to [changeTrade]. *)
Definition refresh (tm : TradeMemo) : M World TradeMemo :=
  balance <- lift (exchange_getFreeAsset (getCoinName tm)) ;;
  if truthy balance then
    let tm1 :=
      setState tm
        (match getState tm with Some st => st | None => BOUGHT end) in
    let tm2 :=
      set_tradeResult tm1
        (stableCoinResult (symbol (tradeResult tm1)) balance) in
    ret (set_hodl tm2 true)
  else ret (set_deleted tm true).

Definition updateStableCoinsBalance : M World unit :=
  forEach
    (fun coin =>
       V2TraderGas.changeTrade coin
         (fun tm => tm' <- refresh tm ;; ret (Some tm')))
    stableCoins.

End Methods.

End StableCoins.

(** ** ConfigDao (src/gas/dao/Config.ts) *)

Module ConfigDao.

Local Open Scope monad_scope.

(** The object stored under the key [Config]: a configuration some of whose
    keys may be missing (one written before a setting was introduced). *)
Record Stored := mkStored {
  sStableCoin : option string;
  sStableBalance : option number;
  sSellAtStopLimit : option bool;
  sChannelSize : option number;
  sChannelWindowMins : option number;
  sFearGreedIndex : option number
}.

(** A complete configuration as a stored object. *)
Definition ofConfig (c : Config) : Stored :=
  mkStored (Some (StableCoin c)) (Some (StableBalance c))
    (Some (SellAtStopLimit c)) (Some (ChannelSize c))
    (Some (ChannelWindowMins c)) (Some (FearGreedIndex c)).

Definition orElse {A} (o : option A) (d : A) : A :=
  match o with Some a => a | None => d end.

(** [Object.assign(defaultConfig, config)]: the keys [config] has overwrite
    those of [defaultConfig]. *)
Definition assign (d : Config) (s : Stored) : Config :=
  mkConfig (orElse (sStableCoin s) (StableCoin d))
    (orElse (sStableBalance s) (StableBalance d))
    (orElse (sSellAtStopLimit s) (SellAtStopLimit d))
    (orElse (sChannelSize s) (ChannelSize d))
    (orElse (sChannelWindowMins s) (ChannelWindowMins d))
    (orElse (sFearGreedIndex s) (FearGreedIndex d)).

(** The value the store holds under [Config], if any. *)
Definition Store := option Stored.

(** [IStore] is not among the sources; [getOrSet(key, value)] is read as its
    name says: the stored value, or [value] once it has been stored. *)
Definition getOrSet (d : Stored) : M Store Stored :=
  s <- get ;;
  match s with
  | Some c => ret c
  | None => modify (fun _ => Some d) ;; ret d
  end.

Definition isInitialized : M Store bool :=
  s <- get ;;
  ret (match s with Some _ => true | None => false end).

Definition get_ : M Store Config :=
  let defaultConfig := DefaultConfig in
  config <- getOrSet (ofConfig defaultConfig) ;;
  ret (assign defaultConfig config).

Definition set_ (config : Config) : M Store unit :=
  modify (fun _ => Some (ofConfig config)).

End ConfigDao.

(** ** WithdrawalsManager (src/gas/WithdrawalsManager.ts) *)

Module WithdrawalsManager.

Local Open Scope monad_scope.

(** The configuration store and the withdrawals the statistics have recorded
    (latest first). *)
Record W := mkW {
  configStore : ConfigDao.Store;
  withdrawals : list number
}.

(** A [ConfigDao] call on the manager's state. *)
Definition onConfig {A} (m : M ConfigDao.Store A) : M W A :=
  fun w =>
    match m (configStore w) with
    | (r, c) => (r, mkW c (withdrawals w))
    end.

Definition statistics_addWithdrawal (amount : number) : M W unit :=
  modify (fun w => mkW (configStore w) (amount :: withdrawals w)).

Section Methods.

(* exchange.getBalance *)
Variable exchange_getBalance : string -> number.

(** Returns [{ amount, balance }]. *)
Definition addWithdrawal (amount : number) : M W (number * number) :=
  config <- onConfig ConfigDao.get_ ;;
  if Qltb (StableBalance config) amount then
    throw "Withdrawal amount is greater than the current balance."
  else
    let balance := exchange_getBalance (StableCoin config) in
    if Qltb balance amount then
      throw "Withdrawal amount is greater than the factual balance on the exchange"
    else
      latestConfig <- onConfig ConfigDao.get_ ;;
      let latestConfig' :=
        set_StableBalance latestConfig (StableBalance latestConfig - amount) in
      statistics_addWithdrawal amount ;;
      onConfig (ConfigDao.set_ latestConfig') ;;
      ret (amount, StableBalance latestConfig').

End Methods.

End WithdrawalsManager.

(** ** The stop-loss trader of v2/Trader.ts *)

Module StopLossTrader.

Local Open Scope monad_scope.

(** The trade result of this version carries a message. *)
Record Result := mkResult {
  res : TradeResult;
  msg : string
}.

(** [TradeResult.fromMsg] is not among the sources; by its use it is a
    result that does not come from the exchange and carries the message. *)
Definition fromMsg (sym : ExchangeSymbol) (m : string) : Result :=
  mkResult (mkTradeResult sym 0 0 0 0 0 0 false) m.

Record Memo := mkMemo {
  memoResult : Result;
  stopLossPrice : number
}.

Inductive Ev :=
| OrderBuy (s : ExchangeSymbol) (quantity : number)
| OrderSell (s : ExchangeSymbol)
| WatcherRestart
| WatcherStop
| StoreDump
| Info (m : string).

Definition isExchangeOrder (e : Ev) : bool :=
  match e with
  | OrderBuy _ _ | OrderSell _ => true
  | _ => false
  end.

(** The key-value store ([IStore], not among the sources), each JSON text
    under a key read as the memo it encodes, and the events so far (latest
    first). *)
Record S := mkS {
  entries : list (string * Memo);
  events : list Ev
}.

Definition store_get (key : string) (l : list (string * Memo)) : option Memo :=
  match find (fun kv => String.eqb (fst kv) key) l with
  | Some kv => Some (snd kv)
  | None => None
  end.

Fixpoint store_set (key : string) (m : Memo) (l : list (string * Memo))
    : list (string * Memo) :=
  match l with
  | [] => [(key, m)]
  | kv :: l' => if String.eqb (fst kv) key then (key, m) :: l'
                else kv :: store_set key m l'
  end.

Definition store_delete (key : string) (l : list (string * Memo))
    : list (string * Memo) :=
  filter (fun kv => negb (String.eqb (fst kv) key)) l.

Definition logEv (e : Ev) : M S unit :=
  modify (fun s => mkS (entries s) (e :: events s)).

Definition MAX_SAFE_INTEGER : number := 9007199254740991.

Definition tradeKey (sym : ExchangeSymbol) : string :=
  "trade/" ++ quantityAsset sym.

Section Methods.

(* exchange.marketBuy, exchange.marketSell, exchange.getPrice *)
Variable exchange_marketBuy : ExchangeSymbol -> number -> Result.
Variable exchange_marketSell : ExchangeSymbol -> Result.
Variable exchange_getPrice : ExchangeSymbol -> number.
(* this.lossLimit, read from the store by the constructor *)
Variable lossLimit : number.
(* the machine's product of two numbers: the exact product rounded to a
   double; used where the product is a threshold a price is compared with *)
Variable fmul : number -> number -> number.

Definition readTradeMemo (key : string) : M S (option Memo) :=
  s <- get ;;
  ret (if String.prefix "trade/" key then store_get key (entries s) else None).

Definition saveTradeMemo (sym : ExchangeSymbol) (tradeMemo : Memo)
    : M S unit :=
  modify (fun s => mkS (store_set (tradeKey sym) tradeMemo (entries s))
                       (events s)).

Definition deleteTradeMemo (sym : ExchangeSymbol) : M S unit :=
  modify (fun s => mkS (store_delete (tradeKey sym) (entries s)) (events s)).

Definition set_fromExchange (r : TradeResult) (b : bool) : TradeResult :=
  mkTradeResult (symbol r) (quantity r) (paid r) (price r) (gained r)
    (profit r) (commission r) b.

Definition buy (sym : ExchangeSymbol) (quantity : number) : M S Result :=
  tradeMemo <- readTradeMemo (tradeKey sym) ;;
  match tradeMemo with
  | Some tm =>
      ret (mkResult (set_fromExchange (res (memoResult tm)) false)
             "Not buying. Asset is already tracked.")
  | None =>
      logEv (OrderBuy sym quantity) ;;
      let tradeResult := exchange_marketBuy sym quantity in
      (if fromExchange (res tradeResult) then
         let stopLossPrice := price (res tradeResult) * (1 - lossLimit) in
         saveTradeMemo sym (mkMemo tradeResult stopLossPrice) ;;
         logEv (Info "stopLossPrice saved") ;;
         (* the assignment to _runtimeCtx touches nothing modelled here *)
         logEv WatcherRestart ;;
         logEv (Info "StopLossWatcher restarted")
       else ret tt) ;;
      ret tradeResult
  end.

Definition sell (sym : ExchangeSymbol) : M S Result :=
  tradeMemo <- readTradeMemo (tradeKey sym) ;;
  match tradeMemo with
  | None => ret (fromMsg sym "Asset is not present")
  | Some tm =>
      let currentPrice := exchange_getPrice sym in
      let noLossPrice := fmul (price (res (memoResult tm))) 1.01 in
      if Qltb noLossPrice currentPrice then
        ret (fromMsg sym "Not selling the asset as the current price > paid price+1%")
      else
        logEv (Info "Selling as current price <= paid price+1%") ;;
        let tm' := mkMemo (memoResult tm) MAX_SAFE_INTEGER in
        saveTradeMemo sym tm' ;;
        logEv StoreDump ;;
        logEv (OrderSell sym) ;;
        let tradeResult := exchange_marketSell sym in
        if fromExchange (res tradeResult) then
          deleteTradeMemo sym ;;
          ret (mkResult
                 (set_profit (res tradeResult)
                    (gained (res tradeResult) - paid (res (memoResult tm'))))
                 "Asset sold.")
        else ret tradeResult
  end.

Definition stopLossSell (sym : ExchangeSymbol) : M S Result :=
  tradeMemo <- readTradeMemo (tradeKey sym) ;;
  match tradeMemo with
  | None => ret (fromMsg sym "Asset is not present")
  | Some tm =>
      let currentPrice := exchange_getPrice sym in
      if Qle_bool currentPrice (stopLossPrice tm) then
        logEv (Info "Selling as current price <= stop loss price") ;;
        logEv (OrderSell sym) ;;
        let tradeResult := exchange_marketSell sym in
        if fromExchange (res tradeResult) then
          deleteTradeMemo sym ;;
          ret (mkResult
                 (set_profit (res tradeResult)
                    (gained (res tradeResult) - paid (res (memoResult tm))))
                 "Asset sold.")
        else ret tradeResult
      else
        let newStopLossPrice := currentPrice * (1 - lossLimit) in
        let tm' :=
          mkMemo (memoResult tm)
            (if Qltb (stopLossPrice tm) newStopLossPrice
             then newStopLossPrice else stopLossPrice tm) in
        saveTradeMemo sym tm' ;;
        logEv (Info "asset kept") ;;
        ret (fromMsg sym "Asset kept.")
  end.

End Methods.

End StopLossTrader.

(** ** The assets view (src/unnamed/part_000) *)

Module Assets.

(** A JavaScript [Map<TradeState, TradeMemo[]>]: its entries in insertion
    order. *)
Definition TradesMap := list (TradeState * list TradeMemo).

Definition map_get (s : TradeState) (m : TradesMap) : option (list TradeMemo) :=
  match find (fun kv => TradeState_eqb (fst kv) s) m with
  | Some kv => Some (snd kv)
  | None => None
  end.

Definition map_has (s : TradeState) (m : TradesMap) : bool :=
  existsb (fun kv => TradeState_eqb (fst kv) s) m.

(** [map.get(s).push(tm)] *)
Fixpoint map_push (s : TradeState) (tm : TradeMemo) (m : TradesMap)
    : TradesMap :=
  match m with
  | [] => []
  | kv :: m' => if TradeState_eqb (fst kv) s
                then (fst kv, snd kv ++ [tm]) :: m'
                else kv :: map_push s tm m'
  end.

(** The reducer of [tradesMap]. *)
Definition groupStep (map : TradesMap) (tm : TradeMemo) : TradesMap :=
  if map_has (state tm) map
  then map_push (state tm) tm map
  else map ++ [(state tm, [tm])].

Definition tradesMap (trades : list TradeMemo) : TradesMap :=
  fold_left groupStep trades [].

Section Cards.

(* TradeMemo.profit, not among the sources *)
Variable profit_ : TradeMemo -> number.

Definition byProfitDesc (t1 t2 : TradeMemo) : Z :=
  if Qltb (profit_ t1) (profit_ t2) then 1%Z else (-1)%Z.

(** The records [getTradeCards] shows for a state: [elems?.sort(...)]. *)
Definition cardsOf (s : TradeState) (trades : list TradeMemo)
    : option (list TradeMemo) :=
  option_map (jsSort byProfitDesc) (map_get s (tradesMap trades)).

End Cards.

End Assets.

(** ** The home view (src/web/components/Home.tsx) *)

Module Home.

Section View.

(* TradeMemo.currentValue, not among the sources *)
Variable currentValue : TradeMemo -> number.

Definition assetsValue (assets : list TradeMemo) : number :=
  fold_left (fun sum tm => sum + currentValue tm) assets 0.

Definition byTtl (t1 t2 : TradeMemo) : Z :=
  if (ttl t2 <? ttl t1)%Z then 1%Z else (-1)%Z.

Definition sorted (assets : list TradeMemo) : list TradeMemo :=
  jsSort byTtl assets.

Definition current (assets : list TradeMemo) : list TradeMemo :=
  filter (fun t => truthy (currentValue t) || stateIs t BUY) (sorted assets).

Definition sold (assets : list TradeMemo) : list TradeMemo :=
  filter (fun t => stateIs t SOLD) (sorted assets).

End View.

End Home.

(** ** More collaborators and records for the scenarios *)

(** A manager that fails on the coin BAD: its channel lookup throws. *)
Definition badChannelEnv : TradeManager.Env :=
  let E := Scenario.env true true true 5 in
  TradeManager.mkEnv (TradeManager.isNode E) (TradeManager.priceProvider_get E)
    (fun c => if String.eqb c "BAD" then Throw "no channel" else Val 5)
    (TradeManager.channelsDao_getCandidates E)
    (TradeManager.exchange_marketBuy E) (TradeManager.exchange_marketSell E)
    (TradeManager.exchange_getBalance E) (TradeManager.isStableUSDCoin E)
    (TradeManager.plugin_trade E) (TradeManager.tradesDao_noInvestments E)
    (TradeManager.sortByCoinName E) (TradeManager.shuffle E)
    (TradeManager.pushPrice E) (TradeManager.getPriceMove E)
    (TradeManager.stopLimitCrossedDown E) (TradeManager.memoProfit E)
    (TradeManager.joinWithNewTrade E) (TradeManager.f2 E)
    (TradeManager.stats_addProfit E).

(** A held record of BAD with no stop limit yet, and one of XYZ. *)
Definition badMemo : TradeMemo :=
  mkTradeMemo (mkTradeResult (mkSymbol "BAD" "BUSD") 10 100 10 0 0 0 true)
    BOUGHT [10; 10] 10 10 0 5 false false.

(** An exchange that fills buys at the asked cost and refuses every sale. *)
Definition buyOnlyEnv : TradeManager.Env :=
  let E := Scenario.env false true true 5 in
  TradeManager.mkEnv (TradeManager.isNode E) (TradeManager.priceProvider_get E)
    (TradeManager.channelsDao_get E) (TradeManager.channelsDao_getCandidates E)
    Scenario.fillBuy Scenario.refuse
    (TradeManager.exchange_getBalance E) (TradeManager.isStableUSDCoin E)
    (TradeManager.plugin_trade E) (TradeManager.tradesDao_noInvestments E)
    (TradeManager.sortByCoinName E) (TradeManager.shuffle E)
    (TradeManager.pushPrice E) (TradeManager.getPriceMove E)
    (TradeManager.stopLimitCrossedDown E) (TradeManager.memoProfit E)
    (TradeManager.joinWithNewTrade E) (TradeManager.f2 E)
    (TradeManager.stats_addProfit E).

(** A price feed that lists every pair at 8 and a trend that always rises. *)
Definition risingEnv : V2Trader.Env :=
  V2Trader.mkEnv Scenario.fillBuy Scenario.fillSell (fun _ => Some 8)
    (fun c => String.eqb c "BUSD") (fun _ => true) (fun _ _ => false)
    (fun _ => false) Scenario.profitPercentOf Scenario.joinWithNewTrade
    (fun x => x) Qplus Qminus Qmult.

(** The configuration of [Scenario.v2config] with swing trading enabled. *)
Definition swingConfig : V2Trader.Config :=
  V2Trader.mkConfig "BUSD" 50 0.05 0.03 true true true true.

(** A position sold at 10, the highest price seen. *)
Definition soldMemo : TradeMemo :=
  mkTradeMemo (mkTradeResult (mkSymbol "CCC" "BUSD") 0 0 10 100 0 0 true)
    SOLD [10; 10] 10 10 9 3 false false.

(** A balance of 100 on both sides: withdrawing 30 leaves 70; withdrawing
    130 is refused. *)
Definition fundedStore : WithdrawalsManager.W :=
  WithdrawalsManager.mkW
    (Some (ConfigDao.ofConfig (set_StableBalance DefaultConfig 100))) [].

(** One unit of ABC bought at 100 and tracked with a stop loss of 97. *)
Definition ABC : ExchangeSymbol := mkSymbol "ABC" "USDT".

Definition boughtAt100 : StopLossTrader.Result :=
  StopLossTrader.mkResult (mkTradeResult ABC 1 100 100 0 0 0 true) "bought".

Definition trackedStore : StopLossTrader.S :=
  StopLossTrader.mkS
    [("trade/ABC"%string, StopLossTrader.mkMemo boughtAt100 97)] [].

(** An exchange that refuses every sale. *)
Definition refusedSale (sym : ExchangeSymbol) : StopLossTrader.Result :=
  StopLossTrader.fromMsg sym "refused".

(** A wallet with 25 BUSD free on the exchange and no USDT; and an exchange
    that answers with it. *)
Definition freeAssets (c : CoinName) : number :=
  if String.eqb c "BUSD" then 25 else 0.

Definition askFreeAssets (c : CoinName) : res number := Val (freeAssets c).

Definition busdMemo : TradeMemo :=
  mkTradeMemo (mkTradeResult (mkSymbol "BUSD" "BUSD") 10 10 1 0 0 0 true)
    BOUGHT [] 1 1 0 0 false false.

Definition walletWorld : V2Trader.World :=
  V2Trader.mkWorld [busdMemo; Scenario.positionA] Scenario.v2config [].

(** ** Properties stated below *)

(** A computation preserves [I] when the state it leaves behind, whether it
    returns or throws, satisfies [I] whenever the state it started in does. *)
Definition preserves {St A} (I : St -> Prop) (m : M St A) : Prop :=
  forall s, I s -> I (snd (m s)).

(** A computation returns when it never throws. *)
Definition returns {St A} (m : M St A) : Prop :=
  forall s, exists a, fst (m s) = Val a.

(** The allocator invariant: [#canInvest] within [0, #optimalInvestRatio]. *)
Definition allocatorOk (s : TradeManager.TM) : Prop :=
  (0 <= TradeManager.canInvest s <= TradeManager.optimalInvestRatio s)%Z.

(** The allocator's two counters are related by [R]. *)
Definition allocatorSat (R : Z -> Z -> Prop) (s : TradeManager.TM) : Prop :=
  R (TradeManager.canInvest s) (TradeManager.optimalInvestRatio s).

(** [R] survives the decrement of a buy, and the increment of a sell. *)
Definition buyClosed (R : Z -> Z -> Prop) : Prop :=
  forall c o, R c o -> R (Z.max 0 (c - 1)) o.

Definition sellClosed (R : Z -> Z -> Prop) : Prop :=
  forall c o, R c o -> R (Z.min o (c + 1)) o.

(** The event [e] is in the log of [s]. *)
Definition logged (e : Event) (s : TradeManager.TM) : Prop :=
  In e (TradeManager.log s).

(** Every [marketBuy] in the log of [s] satisfies [P]. *)
Definition buysSatisfy (P : Event -> Prop) (s : TradeManager.TM) : Prop :=
  forall e, In e (TradeManager.log s) -> isMarketBuy e = true -> P e.

(** [h] is a first minimum of [p] for [pp]: nothing before it is as low,
    nothing after it is lower. *)
Definition firstMin (pp : TradeMemo -> number) (p : list TradeMemo)
    (h : TradeMemo) : Prop :=
  exists l1 l2,
    p = l1 ++ h :: l2
    /\ (forall u, In u l1 -> pp h < pp u)
    /\ (forall u, In u l2 -> pp h <= pp u).

(** The spec's words for the record averaging down picks (section 4.5): the
    BOUGHT record of lowest profit percentage, the first of them in the
    store's order in case of a tie. *)
Definition firstLowest (pp : TradeMemo -> number) (l : list TradeMemo)
    (t : TradeMemo) : Prop :=
  firstMin pp (filter (fun u => stateIs u BOUGHT) l) t.

(** *** Further notions *)

(** No division of the stop-limit formula has a zero denominator: the
    formula divides by [FearGreedIndex], by the paid cost, by the profit goal
    [ChannelSize * (0.9 / FearGreedIndex)] and by
    [ChannelWindowMins / FearGreedIndex]. *)
Definition wellConditioned (cfg : Config) (tm : TradeMemo) : Prop :=
  ~ ChannelSize cfg == 0 /\ ~ FearGreedIndex cfg == 0
  /\ ~ ChannelWindowMins cfg == 0 /\ ~ paid (tradeResult tm) == 0.

(** No ledger update of a cycle throws [null] or [undefined]. *)
Definition messagesOnly (E : TradeManager.Env) : Prop :=
  forall tm s e s',
    TradeManager.tradesDao_update (getCoinName tm) (TradeManager.checkTrade E)
      None s = (Throw e, s') ->
    isNullish e = false.


(** The balance of [s] satisfies [P]. *)
Definition balanceSat (P : number -> Prop) (s : TradeManager.TM) : Prop :=
  P (TradeManager.balance s).

(** What [sellAll] makes of a record: its state is reset, and a held record
    is put in SELL state. *)
Definition liquidated (t : TradeMemo) : TradeMemo :=
  if Qgtb0 (quantity (tradeResult t)) then setState (resetState t) SELL
  else resetState t.

(** The mutator [sellAll] hands to the ledger, without immediate sale. *)
Definition markForSale : M TradeManager.TM unit :=
  (modify (fun s => TradeManager.set_memo s (resetState (TradeManager.memo s))) ;;
   s <- get ;;
   if Qgtb0 (quantity (tradeResult (TradeManager.memo s))) then
     modify (fun s => TradeManager.set_memo s (setState (TradeManager.memo s) SELL)) ;;
     ret tt
   else ret tt)%monad.

(** The configuration a manager in state [w] reads. *)
Definition configOf (w : WithdrawalsManager.W) : Config :=
  match WithdrawalsManager.configStore w with
  | Some o => ConfigDao.assign DefaultConfig o
  | None => DefaultConfig
  end.

(** What the map holds for [s] when the records in state [s] are [l]. *)
Definition groupOf (l : list TradeMemo) : option (list TradeMemo) :=
  match l with [] => None | _ => Some l end.

(** What the mutator of [updateStableCoinsBalance] makes of a record when the
    exchange reports [balance] free. *)
Definition refreshedWith (getState : TradeMemo -> option TradeState)
    (balance : number) (tm : TradeMemo) : TradeMemo :=
  if truthy balance then
    set_hodl
      (set_tradeResult
         (setState tm
            (match getState tm with Some st => st | None => BOUGHT end))
         (StableCoins.stableCoinResult (symbol (tradeResult tm)) balance))
      true
  else set_deleted tm true.

(** What the update makes of a record when [coins] are the stable coins and
    [free] the balances the exchange reports. *)
Definition refreshed (free : CoinName -> number)
    (getState : TradeMemo -> option TradeState)
    (coins : list CoinName) (tm : TradeMemo) : TradeMemo :=
  if existsb (String.eqb (getCoinName tm)) coins
  then refreshedWith getState (free (getCoinName tm)) tm else tm.

(** * Results *)

(** ** Numbers *)

Lemma Qeq_bool_false_neq (x y : Q) : Qeq_bool x y = false <-> ~ x == y.
Proof.
  split.
  - intros H Heq. apply Qeq_bool_iff in Heq. congruence.
  - intros H. destruct (Qeq_bool x y) eqn:Hb; [|reflexivity].
    apply Qeq_bool_iff in Hb. contradiction.
Qed.

Lemma Qgtb0_true (x : Q) : Qgtb0 x = true <-> 0 < x.
Proof.
  unfold Qgtb0. rewrite negb_true_iff. split.
  - intros H. apply Qnot_le_lt. intros Hle.
    apply Qle_bool_iff in Hle. congruence.
  - intros H. destruct (Qle_bool x 0) eqn:Hb; [|reflexivity].
    apply Qle_bool_iff in Hb. exfalso. exact (Qlt_not_le _ _ H Hb).
Qed.

Lemma Qltb_true (x y : Q) : Qltb x y = true <-> x < y.
Proof.
  unfold Qltb. rewrite negb_true_iff. split.
  - intros H. apply Qnot_le_lt. intros Hle.
    apply Qle_bool_iff in Hle. congruence.
  - intros H. destruct (Qle_bool y x) eqn:Hb; [|reflexivity].
    apply Qle_bool_iff in Hb. exfalso. exact (Qlt_not_le _ _ H Hb).
Qed.

Lemma Qltb_false (x y : Q) : Qltb x y = false <-> y <= x.
Proof.
  unfold Qltb. rewrite negb_false_iff. apply Qle_bool_iff.
Qed.

(** ** The stop-limit calculator *)

Section StopLimitResults.

Import TradeManager.

Variable E : Env.

Lemma updateStopLimit_ratchets (s : TM) :
  ~ stopLimitPrice (memo s) == 0 ->
  updateStopLimit E s
  = (Val tt, set_memo s (set_stopLimitPrice (memo s)
                           (ratchet E (config s) (memo s)))).
Proof.
  intros H. apply Qeq_bool_false_neq in H.
  unfold updateStopLimit, bind, get. rewrite H. reflexivity.
Qed.

Lemma updateStopLimit_seeds (s : TM) (chMin : number) :
  stopLimitPrice (memo s) == 0 ->
  channelsDao_get E (getCoinName (memo s)) = Val chMin ->
  updateStopLimit E s
  = (Val tt, set_memo s (set_stopLimitPrice (memo s) chMin)).
Proof.
  intros H Hch. apply Qeq_bool_iff in H.
  unfold updateStopLimit, bind, get, lift. rewrite H, Hch. reflexivity.
Qed.

Lemma forceUpdateStopLimit_seeds (s : TM) (chMin : number) :
  channelsDao_get E (getCoinName (memo s)) = Val chMin ->
  forceUpdateStopLimit E s
  = (Val tt, set_memo s (set_stopLimitPrice (set_ttl (memo s) 0) chMin)).
Proof.
  intros Hch.
  unfold forceUpdateStopLimit, bind, modify.
  rewrite (updateStopLimit_seeds _ chMin);
    [reflexivity | reflexivity | exact Hch].
Qed.

Lemma ratchet_ge_old (cfg : Config) (tm : TradeMemo) :
  stopLimitPrice tm <= ratchet E cfg tm.
Proof.
  unfold ratchet.
  eapply Qle_trans; [apply Q.le_max_l|]. apply Q.le_max_l.
Qed.

Lemma candidateA_le_currentPrice (cfg : Config) (tm : TradeMemo) :
  candidateA E cfg tm <= currentPrice tm.
Proof. unfold candidateA. apply Q.le_min_r. Qed.

Lemma candidateB_le_currentPrice (cfg : Config) (tm : TradeMemo) :
  candidateB cfg tm <= currentPrice tm.
Proof. unfold candidateB. apply Q.le_min_r. Qed.

Lemma ratchet_le_max (cfg : Config) (tm : TradeMemo) :
  ratchet E cfg tm <= Qmax (stopLimitPrice tm) (currentPrice tm).
Proof.
  unfold ratchet.
  apply Q.max_lub; [apply Q.max_lub|].
  - apply Q.le_max_l.
  - eapply Qle_trans; [apply candidateA_le_currentPrice|apply Q.le_max_r].
  - eapply Qle_trans; [apply candidateB_le_currentPrice|apply Q.le_max_r].
Qed.

Lemma Qeq_bool_neq (x : Q) : ~ x == 0 -> Qeq_bool x 0 = false.
Proof. intros H. apply Qeq_bool_false_neq, H. Qed.

Lemma PG_nonzero (cfg : Config) :
  ~ ChannelSize cfg == 0 -> ~ FearGreedIndex cfg == 0 -> ~ PG cfg == 0.
Proof.
  intros Hc Hf H. unfold PG in H.
  apply Qmult_integral in H as [H|H]; [exact (Hc H)|].
  unfold Qdiv in H. apply Qmult_integral in H as [H|H].
  - revert H. vm_compute. discriminate.
  - apply Hf. rewrite <- (Qinv_involutive (FearGreedIndex cfg)), H.
    reflexivity.
Qed.

Lemma maxTTL_nonzero (cfg : Config) :
  ~ ChannelWindowMins cfg == 0 -> ~ FearGreedIndex cfg == 0 ->
  ~ maxTTL cfg == 0.
Proof.
  intros Hc Hf H. unfold maxTTL, Qdiv in H.
  apply Qmult_integral in H as [H|H]; [exact (Hc H)|].
  apply Hf. rewrite <- (Qinv_involutive (FearGreedIndex cfg)), H.
  reflexivity.
Qed.

Lemma div_fin (x y : Q) :
  Qeq_bool y 0 = false -> JS.div (JS.Fin x) (JS.Fin y) = JS.Fin (x / y).
Proof. intros H. unfold JS.div. rewrite H. reflexivity. Qed.

(** Where no denominator is zero the formula on JavaScript numbers yields the
    finite number the formula on the rationals yields. *)
Lemma stopLimit_agrees (cfg : Config) (tm : TradeMemo) :
  wellConditioned cfg tm ->
  JS.stopLimit (memoProfit E tm) cfg tm = JS.Fin (ratchet E cfg tm).
Proof.
  intros (Hcs & Hfgi & Hcw & Hp).
  pose proof (PG_nonzero cfg Hcs Hfgi) as HPG.
  pose proof (maxTTL_nonzero cfg Hcw Hfgi) as HT.
  apply Qeq_bool_neq in Hfgi, Hp, HPG, HT.
  unfold PG in HPG. unfold maxTTL in HT.
  assert (H3 : Qeq_bool (inject_Z (Z.of_nat lastN)) 0 = false)
    by reflexivity.
  unfold JS.stopLimit, JS.K, JS.k2, JS.avePrice, JS.P, JS.PG, JS.maxTTL.
  repeat first
    [ rewrite div_fin by assumption
    | progress cbn [JS.mul JS.add JS.sub JS.neg JS.min JS.max] ].
  reflexivity.
Qed.

(** What [processBoughtState] leaves in the record when the stop limit is
    non-zero: the counter advanced, the stop limit ratcheted, and the state
    possibly set to SELL. *)
Lemma processBoughtState_ratchets (s : TM) :
  ~ stopLimitPrice (memo s) == 0 ->
  fst (processBoughtState E s) = Val tt
  /\ stopLimitPrice (memo (snd (processBoughtState E s)))
     = ratchet E (config s) (set_ttl (memo s) (ttl (memo s) + 1))
  /\ ttl (memo (snd (processBoughtState E s))) = (ttl (memo s) + 1)%Z.
Proof.
  intros H.
  unfold processBoughtState, bind, modify, get. simpl.
  rewrite updateStopLimit_ratchets by exact H. simpl.
  destruct (stopLimitCrossedDown E _); simpl.
  - destruct (SellAtStopLimit (config s)); simpl; auto.
  - auto.
Qed.

Lemma scenario_values (cfg : Config) (prev : number) :
  ChannelSize cfg = 0.25 -> FearGreedIndex cfg = 2 ->
  ChannelWindowMins cfg = 4500 ->
  memoProfit E (Scenario.heldMemo prev) == 0 ->
  PG cfg == 0.1125 /\ P E (Scenario.heldMemo prev) == 0
  /\ K E cfg (Scenario.heldMemo prev) == 0.75
  /\ avePrice (Scenario.heldMemo prev) == 9.5
  /\ candidateA E cfg (Scenario.heldMemo prev) == 7.125
  /\ maxTTL cfg == 2250
  /\ k2 cfg (Scenario.heldMemo prev) == 1 # 450
  /\ candidateB cfg (Scenario.heldMemo prev) == 19 # 900.
Proof.
  intros Hcs Hfgi Hcw Hp.
  assert (HPG : PG cfg == 0.1125).
  { unfold PG. rewrite Hcs, Hfgi. vm_compute. reflexivity. }
  assert (HP : P E (Scenario.heldMemo prev) == 0).
  { unfold P. rewrite Hp. vm_compute. reflexivity. }
  assert (HK : K E cfg (Scenario.heldMemo prev) == 0.75).
  { unfold K. rewrite HP, HPG, Hcs. vm_compute. reflexivity. }
  assert (Have : avePrice (Scenario.heldMemo prev) == 9.5).
  { vm_compute. reflexivity. }
  assert (HA : candidateA E cfg (Scenario.heldMemo prev) == 7.125).
  { unfold candidateA. rewrite HK, Have. vm_compute. reflexivity. }
  assert (HT : maxTTL cfg == 2250).
  { unfold maxTTL. rewrite Hcw, Hfgi. vm_compute. reflexivity. }
  assert (Hk2 : k2 cfg (Scenario.heldMemo prev) == 1 # 450).
  { unfold k2, curTTL. rewrite HT. vm_compute. reflexivity. }
  assert (HB : candidateB cfg (Scenario.heldMemo prev) == 19 # 900).
  { unfold candidateB. rewrite Hk2, Have. vm_compute. reflexivity. }
  repeat split; assumption.
Qed.

(** C1 (amended).  Configuration ChannelSize 0.25, FearGreedIndex 2,
    ChannelWindowMins 4500; a held record with paid cost 100, quantity 10,
    history [9, 9.5, 10], current price 10, ttl 5 and zero profit.  One
    invocation of [updateStopLimit]:
    - with previous stop limit 0 does not run the formula: it stores the
      channel low of the coin;
    - with a non-zero previous stop limit of at most 7.125 stores exactly
      7.125, through PG = 0.1125, P = 0, K = 0.75, avePrice = 9.5,
      candidateA = 7.125, maxTTL = 2250, k2 = 1/450 and candidateB = 19/900
      (about 0.0211). *)
Theorem C1_stop_limit_scenario (s : TM) (prev : number) :
  ChannelSize (config s) = 0.25 ->
  FearGreedIndex (config s) = 2 ->
  ChannelWindowMins (config s) = 4500 ->
  memo s = Scenario.heldMemo prev ->
  memoProfit E (memo s) == 0 ->
  (prev == 0 ->
   forall chMin, channelsDao_get E "XYZ" = Val chMin ->
     fst (updateStopLimit E s) = Val tt
     /\ stopLimitPrice (memo (snd (updateStopLimit E s))) = chMin)
  /\ (~ prev == 0 -> prev <= 7.125 ->
      fst (updateStopLimit E s) = Val tt
      /\ stopLimitPrice (memo (snd (updateStopLimit E s))) == 7.125)
  /\ (PG (config s) == 0.1125 /\ P E (memo s) == 0
      /\ K E (config s) (memo s) == 0.75 /\ avePrice (memo s) == 9.5
      /\ candidateA E (config s) (memo s) == 7.125
      /\ maxTTL (config s) == 2250
      /\ candidateB (config s) (memo s) == 19 # 900).
Proof.
  intros Hcs Hfgi Hcw Hm Hp. rewrite Hm in Hp.
  destruct (scenario_values (config s) prev Hcs Hfgi Hcw Hp)
    as (HPG & HP & HK & Have & HA & HT & Hk2 & HB).
  split; [|split].
  - intros H0 chMin Hch.
    rewrite (updateStopLimit_seeds s chMin).
    + simpl. split; reflexivity.
    + rewrite Hm. exact H0.
    + rewrite Hm. exact Hch.
  - intros Hnz Hle.
    rewrite updateStopLimit_ratchets by (rewrite Hm; exact Hnz).
    simpl. split; [reflexivity|].
    rewrite Hm. unfold ratchet. rewrite HA, HB. simpl stopLimitPrice.
    rewrite (Q.max_r prev 7.125 Hle).
    apply Q.max_l. unfold Qle. simpl. lia.
  - rewrite Hm. repeat split; assumption.
Qed.

(** C2 (amended).  For a record whose stop limit is non-zero (in any state,
    BOUGHT in particular), when no division of the formula has a zero
    denominator ([ChannelSize], [FearGreedIndex], [ChannelWindowMins] and the
    paid cost are non-zero), the formula as JavaScript computes it yields a
    finite number, [updateStopLimit] returns normally and stores it, and it
    is not below the previous stop limit; the same holds of the cycle's
    [processBoughtState].  The only assignment that can lower the stop limit
    is the reseed of [forceUpdateStopLimit], which zeroes [ttl] and the stop
    limit and leaves the channel low in it. *)
Theorem C2_stop_limit_never_decreases (s : TM) :
  (~ stopLimitPrice (memo s) == 0 ->
   wellConditioned (config s) (memo s) ->
   (JS.stopLimit (memoProfit E (memo s)) (config s) (memo s)
    = JS.Fin (stopLimitPrice (memo (snd (updateStopLimit E s))))
    /\ fst (updateStopLimit E s) = Val tt
    /\ stopLimitPrice (memo s)
       <= stopLimitPrice (memo (snd (updateStopLimit E s))))
   /\ (fst (processBoughtState E s) = Val tt
       /\ stopLimitPrice (memo s)
          <= stopLimitPrice (memo (snd (processBoughtState E s)))))
  /\ (forall chMin,
        channelsDao_get E (getCoinName (memo s)) = Val chMin ->
        stopLimitPrice (memo (snd (forceUpdateStopLimit E s))) = chMin
        /\ ttl (memo (snd (forceUpdateStopLimit E s))) = 0%Z).
Proof.
  split; [intros Hnz Hwc; split|].
  - rewrite updateStopLimit_ratchets by exact Hnz. simpl.
    split; [apply stopLimit_agrees, Hwc|].
    split; [reflexivity|apply ratchet_ge_old].
  - destruct (processBoughtState_ratchets s Hnz) as (Hv & Hs & _).
    split; [exact Hv|]. rewrite Hs.
    exact (ratchet_ge_old (config s) (set_ttl (memo s) (ttl (memo s) + 1))).
  - intros chMin Hch. rewrite (forceUpdateStopLimit_seeds s chMin Hch).
    simpl. split; reflexivity.
Qed.

(** C3 (amended).  When no division of the formula has a zero denominator,
    the two candidates of the formula never exceed the current price, so a
    recomputation of a non-zero stop limit never leaves it above the larger
    of the previous stop limit and the current price: a stop limit that was
    at or below the current price stays there, one that was already above it
    is kept.  After [forceUpdateStopLimit] the stop limit is the channel
    low, whatever the current price. *)
Theorem C3_stop_limit_vs_current_price (s : TM) :
  (wellConditioned (config s) (memo s) ->
   candidateA E (config s) (memo s) <= currentPrice (memo s)
   /\ candidateB (config s) (memo s) <= currentPrice (memo s)
   /\ (~ stopLimitPrice (memo s) == 0 ->
       JS.stopLimit (memoProfit E (memo s)) (config s) (memo s)
       = JS.Fin (stopLimitPrice (memo (snd (updateStopLimit E s))))
       /\ stopLimitPrice (memo (snd (updateStopLimit E s)))
          <= Qmax (stopLimitPrice (memo s)) (currentPrice (memo s))
       /\ (stopLimitPrice (memo s) <= currentPrice (memo s) ->
           stopLimitPrice (memo (snd (updateStopLimit E s)))
           <= currentPrice (memo (snd (updateStopLimit E s))))))
  /\ (forall chMin,
        channelsDao_get E (getCoinName (memo s)) = Val chMin ->
        stopLimitPrice (memo (snd (forceUpdateStopLimit E s))) = chMin
        /\ currentPrice (memo (snd (forceUpdateStopLimit E s)))
           = currentPrice (memo s)).
Proof.
  split.
  - intros Hwc.
    split; [apply candidateA_le_currentPrice|].
    split; [apply candidateB_le_currentPrice|].
    intros Hnz. rewrite updateStopLimit_ratchets by exact Hnz. simpl.
    split; [apply stopLimit_agrees, Hwc|].
    split; [apply ratchet_le_max|].
    intros Hle. eapply Qle_trans; [apply ratchet_le_max|].
    apply Q.max_lub; [exact Hle|apply Qle_refl].
  - intros chMin Hch. rewrite (forceUpdateStopLimit_seeds s chMin Hch).
    simpl. split; reflexivity.
Qed.

End StopLimitResults.

(** Witness of C1: previous stop limit 1, zero profit. *)
Lemma C1_stop_limit_scenario_witness :
  stopLimitPrice
    (TradeManager.memo
       (snd (TradeManager.updateStopLimit
               (Scenario.env false true true 5)
               (Scenario.managerOn (Scenario.heldMemo 1)))))
  == 7.125.
Proof.
  refine (proj2 (proj1 (proj2
    (C1_stop_limit_scenario (Scenario.env false true true 5)
       (Scenario.managerOn (Scenario.heldMemo 1)) 1
       eq_refl eq_refl eq_refl eq_refl _)) _ _)).
  - vm_compute. reflexivity.
  - vm_compute. discriminate.
  - vm_compute. discriminate.
Defined.

(** The claim C1 as written fails: with previous stop limit 0 and channel low
    5 the invocation stores 5, not 7.125. *)
Lemma C1_counterexample :
  stopLimitPrice
    (TradeManager.memo
       (snd (TradeManager.updateStopLimit
               (Scenario.env false true true 5)
               (Scenario.managerOn (Scenario.heldMemo 0)))))
  = 5
  /\ Qeq_bool 5 7.125 = false.
Proof. split; vm_compute; reflexivity. Qed.

(** The configuration and the record of section 8 have no zero
    denominator. *)
Lemma scenario_wellConditioned (prev : number) :
  wellConditioned DefaultConfig (Scenario.heldMemo prev).
Proof. repeat split; vm_compute; discriminate. Defined.

(** Witness of C2: the scenario record with previous stop limit 1. *)
Lemma C2_stop_limit_never_decreases_witness :
  1 <= stopLimitPrice
         (TradeManager.memo
            (snd (TradeManager.updateStopLimit
                    (Scenario.env false true true 5)
                    (Scenario.managerOn (Scenario.heldMemo 1))))).
Proof.
  refine (proj2 (proj2 (proj1 (proj1
    (C2_stop_limit_never_decreases (Scenario.env false true true 5)
       (Scenario.managerOn (Scenario.heldMemo 1))) _ _)))).
  - vm_compute. discriminate.
  - exact (scenario_wellConditioned 1).
Defined.

(** The claim C2 as written fails where the formula divides zero by zero:
    with [ChannelWindowMins] 0 the time factor is [0 / 0], NaN, which
    [Math.min] and [Math.max] hand on, and the stop limit stored for the
    scenario record, 7.125 before, is NaN, which is not at or above 7.125.
    (On the rationals, where [0 / 0] is 0, the same computation keeps
    7.125.) *)
Lemma C2_counterexample :
  Qeq_bool (stopLimitPrice (Scenario.heldMemo 7.125)) 0 = false
  /\ JS.stopLimit
       (TradeManager.memoProfit (Scenario.env false true true 5)
          (Scenario.heldMemo 7.125))
       (mkConfig "BUSD" (-1) true 0.25 0 2) (Scenario.heldMemo 7.125)
     = JS.NaN
  /\ JS.k2 (mkConfig "BUSD" (-1) true 0.25 0 2) (Scenario.heldMemo 7.125)
     = JS.NaN
  /\ TradeManager.ratchet (Scenario.env false true true 5)
       (mkConfig "BUSD" (-1) true 0.25 0 2) (Scenario.heldMemo 7.125)
     == 7.125.
Proof. repeat split; vm_compute; reflexivity. Qed.

(** The claim C3 as written fails: recomputing the stop limit of
    [Scenario.fallenMemo] keeps 12, above the current price 10; and right after
    [forceUpdateStopLimit] with channel low 20 the stop limit is 20, which a
    further computation keeps. *)
Lemma C3_counterexample :
  currentPrice
    (TradeManager.memo
       (snd (TradeManager.updateStopLimit (Scenario.env false true true 5)
               (Scenario.managerOn Scenario.fallenMemo))))
  < stopLimitPrice
      (TradeManager.memo
         (snd (TradeManager.updateStopLimit (Scenario.env false true true 5)
                 (Scenario.managerOn Scenario.fallenMemo))))
  /\ currentPrice
       (TradeManager.memo
          (snd (TradeManager.updateStopLimit (Scenario.env false true true 20)
             (snd (TradeManager.forceUpdateStopLimit
                     (Scenario.env false true true 20)
                     (Scenario.managerOn (Scenario.heldMemo 7)))))))
     < stopLimitPrice
         (TradeManager.memo
            (snd (TradeManager.updateStopLimit
                    (Scenario.env false true true 20)
               (snd (TradeManager.forceUpdateStopLimit
                       (Scenario.env false true true 20)
                       (Scenario.managerOn (Scenario.heldMemo 7))))))).
Proof. split; vm_compute; reflexivity. Qed.

(** Witness of C3 (amended): the scenario record with previous stop limit 1. *)
Lemma C3_stop_limit_vs_current_price_witness :
  stopLimitPrice
    (TradeManager.memo
       (snd (TradeManager.updateStopLimit
               (Scenario.env false true true 5)
               (Scenario.managerOn (Scenario.heldMemo 1)))))
  <= Qmax 1 10.
Proof.
  refine (proj1 (proj2 (proj2 (proj2 (proj1
    (C3_stop_limit_vs_current_price (Scenario.env false true true 5)
       (Scenario.managerOn (Scenario.heldMemo 1)))
    (scenario_wellConditioned 1))) _))).
  vm_compute. discriminate.
Defined.

(** ** A small program logic for the monad *)

Section Preservation.

Variable St : Type.
Variable I : St -> Prop.

Lemma preserves_ret {A} (a : A) : preserves I (ret a).
Proof. intros s H. exact H. Qed.

Lemma preserves_get : preserves I (@get St).
Proof. intros s H. exact H. Qed.

Lemma preserves_throw {A} (e : string) : preserves I (@throw St A e).
Proof. intros s H. exact H. Qed.

Lemma preserves_lift {A} (r : res A) : preserves I (lift r).
Proof. intros s H. exact H. Qed.

Lemma preserves_modify (f : St -> St) :
  (forall s, I s -> I (f s)) -> preserves I (modify f).
Proof. intros Hf s H. apply Hf, H. Qed.

Lemma preserves_bind {A B} (m : M St A) (f : A -> M St B) :
  preserves I m -> (forall a, preserves I (f a)) -> preserves I (bind m f).
Proof.
  intros Hm Hf s H. unfold bind.
  specialize (Hm s H). destruct (m s) as [[a|e] s']; simpl in *.
  - apply Hf, Hm.
  - exact Hm.
Qed.

Lemma preserves_tryCatchFinally (body : M St unit) (h : string -> M St unit)
    (fin : M St unit) :
  preserves I body -> (forall e, preserves I (h e)) -> preserves I fin ->
  preserves I (tryCatchFinally body h fin).
Proof.
  intros Hb Hh Hf s H. unfold tryCatchFinally.
  specialize (Hb s H). destruct (body s) as [[a|e] s1]; simpl in *.
  - apply Hf, Hb.
  - specialize (Hh e s1 Hb). destruct (h e s1) as [[a|e'] s2]; simpl in *.
    + apply Hf, Hh.
    + specialize (Hf s2 Hh). destruct (fin s2) as [[a|e''] s3]; exact Hf.
Qed.

Lemma preserves_tryCatch (body : M St unit) (h : string -> M St unit) :
  preserves I body -> (forall e, preserves I (h e)) ->
  preserves I (tryCatch body h).
Proof.
  intros Hb Hh s H. unfold tryCatch.
  specialize (Hb s H). destruct (body s) as [[a|e] s1]; simpl in *.
  - exact Hb.
  - apply Hh, Hb.
Qed.

Lemma preserves_forEach {A} (f : A -> M St unit) (xs : list A) :
  (forall x, preserves I (f x)) -> preserves I (forEach f xs).
Proof.
  intros Hf. induction xs as [|x xs IH]; simpl.
  - apply preserves_ret.
  - apply preserves_bind; [apply Hf|intros _; exact IH].
Qed.

End Preservation.

Ltac pres_rule :=
  lazymatch goal with
  | |- preserves _ (ret _) => apply preserves_ret
  | |- preserves _ get => apply preserves_get
  | |- preserves _ (lift _) => apply preserves_lift
  | |- preserves _ (throw _) => apply preserves_throw
  | |- preserves _ (bind _ _) => apply preserves_bind; [|intro]
  | |- preserves _ (tryCatchFinally _ _ _) =>
      apply preserves_tryCatchFinally; [|intro|]
  | |- preserves _ (tryCatch _ _) => apply preserves_tryCatch; [|intro]
  | |- preserves _ (forEach _ _) => apply preserves_forEach; intro
  | |- preserves _ (if ?b then _ else _) => destruct b
  | |- preserves _ (match ?x with _ => _ end) => destruct x
  | |- preserves _ (modify _) => apply preserves_modify; intros ? ?
  end.

Section Returning.

Variable St : Type.

Lemma returns_ret {A} (a : A) : returns (@ret St A a).
Proof. intros s. exists a. reflexivity. Qed.

Lemma returns_get : returns (@get St).
Proof. intros s. exists s. reflexivity. Qed.

Lemma returns_modify (f : St -> St) : returns (modify f).
Proof. intros s. exists tt. reflexivity. Qed.

Lemma returns_bind {A B} (m : M St A) (f : A -> M St B) :
  returns m -> (forall a, returns (f a)) -> returns (bind m f).
Proof.
  intros Hm Hf s. unfold bind. destruct (Hm s) as [a Ha].
  destruct (m s) as [[a'|e] s']; simpl in Ha; [|discriminate].
  apply Hf.
Qed.

Lemma returns_tryCatch (body : M St unit) (h : string -> M St unit) :
  (forall e, returns (h e)) -> returns (tryCatch body h).
Proof.
  intros Hh s. unfold tryCatch. destruct (body s) as [[a|e] s1].
  - exists tt. reflexivity.
  - apply Hh.
Qed.

Lemma returns_forEach {A} (f : A -> M St unit) (xs : list A) :
  (forall x, returns (f x)) -> returns (forEach f xs).
Proof.
  intros Hf. induction xs as [|x xs IH]; simpl.
  - apply returns_ret.
  - apply returns_bind; [apply Hf|intros _; exact IH].
Qed.

(** Processing a list that ends in [x] is processing the list and then [x]. *)
Lemma forEach_snoc {A} (f : A -> M St unit) (xs : list A) (x : A) (s : St) :
  forEach f (xs ++ [x]) s = (forEach f xs ;; f x)%monad s.
Proof.
  revert s. induction xs as [|y xs IH]; intros s; simpl.
  - unfold bind, ret. destruct (f x s) as [[[]|e] s']; reflexivity.
  - unfold bind. destruct (f y s) as [[a|e] s1]; [|reflexivity].
    rewrite IH. reflexivity.
Qed.

End Returning.

Ltac returns_rule :=
  lazymatch goal with
  | |- returns (ret _) => apply returns_ret
  | |- returns get => apply returns_get
  | |- returns (modify _) => apply returns_modify
  | |- returns (bind _ _) => apply returns_bind; [|intro]
  | |- returns (tryCatch _ _) => apply returns_tryCatch; intro
  | |- returns (forEach _ _) => apply returns_forEach; intro
  | |- returns (if ?b then _ else _) => destruct b
  | |- returns (match ?x with _ => _ end) => destruct x
  end.

Section CycleRuns.

Import TradeManager.

Variable E : Env.

Lemma tradeOne_returns (tm : TradeMemo) :
  messagesOnly E -> returns (tradeOne E tm).
Proof.
  intros Hm s. unfold tradeOne, tryCatch.
  destruct (tradesDao_update (getCoinName tm) (checkTrade E) None s)
    as [[[]|e] s'] eqn:Hu.
  - exists tt. reflexivity.
  - rewrite (Hm tm s e s' Hu). exists tt. reflexivity.
Qed.

Lemma tradePrologue_returns : returns (tradePrologue E).
Proof.
  unfold tradePrologue, initBalance, setBuyState, setSellState,
    tradesDao_update, setMemo.
  repeat returns_rule.
Qed.

(** The state after [k + 1] records is what processing the next record makes
    of the state after [k]; no record's failure stops the cycle, unless the
    value thrown is [null] or [undefined]. *)
Lemma cycle_step (s1 : TM) (k : nat) (tm : TradeMemo) :
  messagesOnly E ->
  nth_error (tradeOrder E s1) k = Some tm ->
  forEach (tradeOne E) (firstn (Datatypes.S k) (tradeOrder E s1)) s1
  = tradeOne E tm (snd (forEach (tradeOne E) (firstn k (tradeOrder E s1)) s1)).
Proof.
  intros Hm Hn.
  assert (Hf : firstn (Datatypes.S k) (tradeOrder E s1)
               = firstn k (tradeOrder E s1) ++ [tm]).
  { revert k Hn. induction (tradeOrder E s1) as [|y l IH]; intros k Hn.
    - destruct k; discriminate.
    - destruct k as [|k]; simpl in *.
      + injection Hn as ->. reflexivity.
      + rewrite <- (IH k Hn). reflexivity. }
  rewrite Hf, forEach_snoc. unfold bind.
  destruct (returns_forEach TM (tradeOne E) (firstn k (tradeOrder E s1))
              (fun tm => tradeOne_returns tm Hm) s1) as [a Ha].
  destruct (forEach (tradeOne E) (firstn k (tradeOrder E s1)) s1)
    as [[a'|e] s2]; simpl in *; [reflexivity|discriminate].
Qed.

(** The cycle ends by persisting the balance from the state after the last
    record. *)
Lemma trade_end (s0 : TM) :
  messagesOnly E ->
  trade E s0
  = persistBalance
      (snd (forEach (tradeOne E)
              (tradeOrder E (snd (tradePrologue E s0)))
              (snd (tradePrologue E s0)))).
Proof.
  intros Hm. unfold trade. unfold bind at 1.
  destruct (tradePrologue_returns s0) as [a Ha].
  destruct (tradePrologue E s0) as [[a'|e] s1]; simpl in *; [|discriminate].
  unfold bind at 1, get at 1. unfold bind.
  destruct (returns_forEach TM (tradeOne E) (tradeOrder E s1)
              (fun tm => tradeOne_returns tm Hm) s1) as [b Hb].
  destruct (forEach (tradeOne E) (tradeOrder E s1) s1) as [[b'|e] s2];
    simpl in *; [reflexivity|discriminate].
Qed.

End CycleRuns.

(** A try block whose handler only logs and whose finally block is one
    assignment returns normally, in a state the assignment has been applied
    to. *)
Lemma tryCatchFinally_assigns {St} (body : M St unit)
    (h : string -> M St unit) (f : St -> St) (s : St) :
  (forall e s1, fst (h e s1) = Val tt) ->
  exists s2, tryCatchFinally body h (modify f) s = (Val tt, f s2).
Proof.
  intros Hh. unfold tryCatchFinally, modify.
  destruct (body s) as [[a|e] s1].
  - exists s1. reflexivity.
  - specialize (Hh e s1). destruct (h e s1) as [[a|e'] s2]; simpl in Hh.
    + exists s2. reflexivity.
    + discriminate.
Qed.


Section ManagerResults.

Import TradeManager.

Variable E : Env.

(** *** What each method does to the allocator and to the log of buys *)

Ltac alloc_leaf :=
  match goal with
  | H : allocatorSat _ _ |- allocatorSat _ _ =>
      unfold allocatorSat in *; simpl in *; auto
  end.

Ltac buys_leaf :=
  match goal with
  | H : buysSatisfy _ _ |- buysSatisfy _ _ =>
      let e := fresh "e" in
      let Hin := fresh "Hin" in
      let Hb := fresh "Hb" in
      intros e Hin Hb; simpl in Hin;
      repeat match goal with
             | Hd : _ \/ _ |- _ => destruct Hd
             end;
      subst; try discriminate; eauto
  end.

Ltac pres_alloc := repeat first [progress pres_rule | alloc_leaf].
Ltac pres_buys := repeat first [progress pres_rule | buys_leaf].

Section Allocator.

Variable R : Z -> Z -> Prop.


Lemma updateStopLimit_alloc : preserves (allocatorSat R) (updateStopLimit E).
Proof. unfold updateStopLimit. pres_alloc. Qed.

Lemma forceUpdateStopLimit_alloc :
  preserves (allocatorSat R) (forceUpdateStopLimit E).
Proof.
  unfold forceUpdateStopLimit. pres_alloc. apply updateStopLimit_alloc.
Qed.

Lemma updateBNBBalance_alloc q :
  preserves (allocatorSat R) (updateBNBBalance q).
Proof. unfold updateBNBBalance, logEvent. pres_alloc. Qed.

Lemma sellPostTrade_alloc sym :
  sellClosed R -> preserves (allocatorSat R) (sellPostTrade E sym).
Proof.
  intros HR.
  unfold sellPostTrade, processSellFee, updatePLStatistics, logEvent.
  pres_alloc.
  all: apply updateBNBBalance_alloc.
Qed.

Lemma sell_alloc : sellClosed R -> preserves (allocatorSat R) (sell E).
Proof.
  intros HR.
  unfold sell, logEvent. pres_alloc. apply sellPostTrade_alloc, HR.
Qed.

Lemma buyPostTrade_rest_alloc :
  preserves (allocatorSat R)
    (modify (fun s => set_balance s (balance s - paid (result s))) ;;
     modify (fun s => set_memo s (set_prices (memo s) [price (result s)])) ;;
     s <- get ;;
     joined <- lift (joinWithNewTrade E (memo s) (result s)) ;;
     setMemo joined ;;
     forceUpdateStopLimit E ;;
     processBuyFee ;;
     logEvent (LogAlert "asset average price"))%monad.
Proof.
  unfold processBuyFee, setMemo, logEvent. pres_alloc.
  - apply forceUpdateStopLimit_alloc.
  - apply updateBNBBalance_alloc.
Qed.

Lemma buyPostTrade_alloc :
  buyClosed R -> preserves (allocatorSat R) (buyPostTrade E).
Proof.
  intros HR. unfold buyPostTrade. apply preserves_bind.
  - pres_alloc.
  - intros _. apply buyPostTrade_rest_alloc.
Qed.

Lemma buy_alloc cost : buyClosed R -> preserves (allocatorSat R) (buy E cost).
Proof.
  intros HR.
  unfold buy, logEvent. pres_alloc. apply buyPostTrade_alloc, HR.
Qed.

Lemma pushNewPrice_alloc :
  sellClosed R -> preserves (allocatorSat R) (pushNewPrice E).
Proof.
  intros HR. unfold pushNewPrice, setMemo, logEvent. pres_alloc.
  apply sell_alloc, HR.
Qed.

Lemma processBoughtState_alloc :
  preserves (allocatorSat R) (processBoughtState E).
Proof.
  unfold processBoughtState, logEvent. pres_alloc.
  apply updateStopLimit_alloc.
Qed.

Lemma checkTrade_alloc :
  buyClosed R -> sellClosed R -> preserves (allocatorSat R) (checkTrade E).
Proof.
  intros HB HS.
  unfold checkTrade, checkTradePrepare, checkTradeAct, logEvent. pres_alloc.
  - apply pushNewPrice_alloc, HS.
  - apply processBoughtState_alloc.
  - apply sell_alloc, HS.
  - apply buy_alloc, HB.
Qed.

Lemma tradesDao_update_alloc name (m : M TM unit) notFound :
  preserves (allocatorSat R) m ->
  preserves (allocatorSat R) (tradesDao_update name m notFound).
Proof.
  intros Hm. unfold tradesDao_update, setMemo. pres_alloc. exact Hm.
Qed.

Lemma tradeOne_alloc tm :
  buyClosed R -> sellClosed R -> preserves (allocatorSat R) (tradeOne E tm).
Proof.
  intros HB HS. unfold tradeOne, logEvent. pres_alloc.
  apply tradesDao_update_alloc, checkTrade_alloc; assumption.
Qed.

Lemma persistBalance_alloc : preserves (allocatorSat R) persistBalance.
Proof. unfold persistBalance. pres_alloc. Qed.

Lemma setBuyState_alloc c : preserves (allocatorSat R) (setBuyState E c).
Proof.
  unfold setBuyState. pres_alloc. apply tradesDao_update_alloc. pres_alloc.
Qed.

Lemma setSellState_alloc c : preserves (allocatorSat R) (setSellState c).
Proof. unfold setSellState. apply tradesDao_update_alloc. pres_alloc. Qed.

End Allocator.

Lemma initBalance_returns (s : TM) :
  exists b, initBalance E s = (Val tt, set_balance s b).
Proof.
  unfold initBalance, bind, modify, get. simpl.
  destruct (Qeq_bool (StableBalance (config s)) (-1)); simpl;
    eexists; reflexivity.
Qed.

(** The state in which the plugin's signals are applied. *)
Lemma tradePrologue_unfold (s : TM) :
  exists b,
    let n := Z.max 2 (Z.min 4 (Z.of_nat (List.length
               (channelsDao_getCandidates E
                  (ChannelWindowMins (configStore s)))))) in
    let s1 := set_optimalInvestRatio
                (set_balance (set_config s (configStore s)) b) n in
    let s2 := if tradesDao_noInvestments E (trades s)
              then set_canInvest s1 n else s1 in
    tradePrologue E s
    = forEach (fun ca : CoinName * TradeAction =>
                 match snd ca with
                 | Buy => setBuyState E (fst ca)
                 | Sell => setSellState (fst ca)
                 end)
              (plugin_trade E (configStore s)) s2.
Proof.
  destruct (initBalance_returns (set_config s (configStore s))) as [b Hb].
  exists b. unfold tradePrologue.
  unfold bind at 1. unfold modify at 1.
  unfold bind at 1. rewrite Hb.
  unfold bind at 1, get at 1.
  unfold bind at 1, modify at 1.
  unfold bind at 1, get at 1.
  unfold bind at 1. simpl.
  destruct (tradesDao_noInvestments E (trades s)); reflexivity.
Qed.

Lemma signals_alloc R (l : list (CoinName * TradeAction)) :
  preserves (allocatorSat R)
    (forEach (fun ca : CoinName * TradeAction =>
                 match snd ca with
                 | Buy => setBuyState E (fst ca)
                 | Sell => setSellState (fst ca)
                 end) l).
Proof.
  apply preserves_forEach. intros [c []]; simpl.
  - apply setBuyState_alloc.
  - apply setSellState_alloc.
Qed.

(** The prologue establishes the invariant from a counter between 0 and 2,
    the least value the ratio can take, and from any counter when the ledger
    has no investments. *)
Lemma tradePrologue_establishes (s : TM) :
  (0 <= canInvest s <= 2)%Z \/ tradesDao_noInvestments E (trades s) = true ->
  allocatorSat (fun c o => (0 <= c <= o) /\ (2 <= o <= 4))%Z
    (snd (tradePrologue E s)).
Proof.
  intros H0. destruct (tradePrologue_unfold s) as [b Hb]. simpl in Hb.
  rewrite Hb. apply signals_alloc.
  unfold allocatorSat.
  destruct (tradesDao_noInvestments E (trades s)); simpl.
  - lia.
  - destruct H0 as [H0|H0]; [lia|discriminate].
Qed.

Lemma cycleStates_alloc R (s0 : TM) :
  buyClosed R -> sellClosed R ->
  allocatorSat R (snd (tradePrologue E s0)) ->
  Forall (allocatorSat R) (cycleStates E s0).
Proof.
  intros HB HS H1. unfold cycleStates. apply Forall_forall.
  intros s Hin. apply in_map_iff in Hin as (k & <- & _).
  apply preserves_forEach; [|exact H1].
  intros tm. apply tradeOne_alloc; assumption.
Qed.

Lemma trade_alloc R (s0 : TM) :
  buyClosed R -> sellClosed R ->
  allocatorSat R (snd (tradePrologue E s0)) ->
  allocatorSat R (snd (trade E s0)).
Proof.
  intros HB HS H1. unfold trade. unfold bind at 1.
  destruct (tradePrologue E s0) as [[[]|e] s1]; simpl in *; [|exact H1].
  assert (Hp : preserves (allocatorSat R)
                 (s <- get ;; forEach (tradeOne E) (tradeOrder E s) ;;
                  persistBalance)%monad).
  { pres_alloc.
    - apply tradeOne_alloc; assumption.
    - apply persistBalance_alloc. }
  exact (Hp s1 H1).
Qed.

(** *** The two outcomes of a buy and of a sell *)

Lemma buy_confirmed (s : TM) (cost : number) :
  fromExchange (exchange_marketBuy E (symbol (tradeResult (memo s))) cost)
  = true ->
  buy E cost s
  = tryCatchFinally (buyPostTrade E) (fun e => logEvent (LogError e))
      (modify (fun s => set_memo s (setState (memo s) BOUGHT)))
      (set_result (emit s (MarketBuy (symbol (tradeResult (memo s))) cost))
         (exchange_marketBuy E (symbol (tradeResult (memo s))) cost)).
Proof.
  intros H. unfold buy, bind, get, logEvent, modify. simpl. rewrite H.
  reflexivity.
Qed.

Lemma buy_refused (s : TM) (cost : number) :
  fromExchange (exchange_marketBuy E (symbol (tradeResult (memo s))) cost)
  = false ->
  buy E cost s
  = (Val tt,
     set_memo
       (emit (set_result
                (emit s (MarketBuy (symbol (tradeResult (memo s))) cost))
                (exchange_marketBuy E (symbol (tradeResult (memo s))) cost))
             (LogAlert "could not be bought"))
       (resetState (memo s))).
Proof.
  intros H. unfold buy, bind, get, logEvent, modify. simpl. rewrite H.
  reflexivity.
Qed.

Lemma sell_confirmed (s : TM) :
  let sym := mkSymbol (quantityAsset (symbol (tradeResult (memo s))))
                      (StableCoin (config s)) in
  let qty := quantity (tradeResult (memo s)) in
  fromExchange (exchange_marketSell E sym qty) = true ->
  sell E s
  = ((tryCatchFinally (sellPostTrade E sym) (fun e => logEvent (LogError e))
        (modify (fun s => set_memo s (set_tradeResult (memo s) (result s))) ;;
         modify (fun s => set_memo s (setState (memo s) SOLD)) ;;
         modify (fun s => set_memo s (set_ttl (memo s) 0))) ;;
      modify (fun s =>
        set_memo s (set_deleted (memo s) (stateIs (memo s) SOLD))))%monad
       (set_result (emit s (MarketSell sym qty))
          (exchange_marketSell E sym qty))).
Proof.
  intros sym qty H. unfold sell.
  unfold bind at 1, get at 1. fold sym qty.
  unfold bind at 1, logEvent at 1, modify at 1.
  unfold bind at 1, modify at 1.
  unfold bind at 1, get at 1.
  cbv beta iota. simpl result. rewrite H. reflexivity.
Qed.

Lemma sell_refused (s : TM) :
  let sym := mkSymbol (quantityAsset (symbol (tradeResult (memo s))))
                      (StableCoin (config s)) in
  let qty := quantity (tradeResult (memo s)) in
  fromExchange (exchange_marketSell E sym qty) = false ->
  sell E s
  = (Val tt,
     set_memo
       (emit (emit (set_result (emit s (MarketSell sym qty))
                      (exchange_marketSell E sym qty))
                (LogAlert "An issue happened while selling. The asset is marked HODL. Please, resolve it manually."))
             (LogAlert "sell result"))
       (set_deleted (setState (memo s) BOUGHT) false)).
Proof.
  intros sym qty H. unfold sell, bind, get, logEvent, modify. simpl.
  fold sym qty. rewrite H. reflexivity.
Qed.

Lemma tryCatchFinally_after_modify {St} (f : St -> St) (k : M St unit)
    (h : string -> M St unit) (fin : M St unit) (s : St) :
  tryCatchFinally (modify f ;; k)%monad h fin s
  = tryCatchFinally k h fin (f s).
Proof. reflexivity. Qed.

Lemma tryCatchFinally_then_after_modify {St} (f : St -> St)
    (k : M St unit) (h : string -> M St unit) (fin m : M St unit) (s : St) :
  (tryCatchFinally (modify f ;; k) h fin ;; m)%monad s
  = (tryCatchFinally k h fin ;; m)%monad (f s).
Proof. reflexivity. Qed.

Lemma buy_confirmed_canInvest (s : TM) (cost : number) :
  fromExchange (exchange_marketBuy E (symbol (tradeResult (memo s))) cost)
  = true ->
  canInvest (snd (buy E cost s)) = Z.max 0 (canInvest s - 1)
  /\ optimalInvestRatio (snd (buy E cost s)) = optimalInvestRatio s.
Proof.
  intros H. rewrite (buy_confirmed s cost H).
  unfold buyPostTrade. rewrite tryCatchFinally_after_modify.
  set (R := fun c o : Z =>
              c = Z.max 0 (canInvest s - 1) /\ o = optimalInvestRatio s).
  assert (Hp : preserves (allocatorSat R)
                 (tryCatchFinally
                    (modify (fun s => set_balance s (balance s - paid (result s))) ;;
                     modify (fun s => set_memo s (set_prices (memo s) [price (result s)])) ;;
                     s <- get ;;
                     joined <- lift (joinWithNewTrade E (memo s) (result s)) ;;
                     setMemo joined ;;
                     forceUpdateStopLimit E ;;
                     processBuyFee ;;
                     logEvent (LogAlert "asset average price"))%monad
                    (fun e => logEvent (LogError e))
                    (modify (fun s => set_memo s (setState (memo s) BOUGHT))))).
  { apply preserves_tryCatchFinally.
    - apply buyPostTrade_rest_alloc.
    - intros e. unfold logEvent. pres_alloc.
    - pres_alloc. }
  apply Hp. unfold allocatorSat, R. simpl. split; reflexivity.
Qed.

Lemma sellPostTrade_rest_alloc R sym :
  preserves (allocatorSat R)
    (modify (fun s => set_balance s (balance s + gained (result s))) ;;
     fee <- processSellFee E ;;
     s <- get ;;
     let profit_ :=
       f2 E (gained (result s) - paid (tradeResult (memo s)) - fee) in
     let profitPercentage :=
       f2 E (100 * (profit_ / paid (tradeResult (memo s)))) in
     logEvent (LogAlert (if Qle_bool 0 profit_ then "Profit" else "Loss")) ;;
     modify (fun s => set_result s (set_profit (result s) profit_)) ;;
     updatePLStatistics E (priceAsset sym) profit_)%monad.
Proof.
  unfold processSellFee, updatePLStatistics, logEvent. pres_alloc.
  all: apply updateBNBBalance_alloc.
Qed.

Lemma sell_confirmed_canInvest (s : TM) :
  fromExchange
    (exchange_marketSell E
       (mkSymbol (quantityAsset (symbol (tradeResult (memo s))))
          (StableCoin (config s)))
       (quantity (tradeResult (memo s)))) = true ->
  canInvest (snd (sell E s))
  = Z.min (optimalInvestRatio s) (canInvest s + 1)
  /\ optimalInvestRatio (snd (sell E s)) = optimalInvestRatio s.
Proof.
  intros H. rewrite (sell_confirmed s H).
  set (R := fun c o : Z =>
              c = Z.min (optimalInvestRatio s) (canInvest s + 1)
              /\ o = optimalInvestRatio s).
  unfold sellPostTrade. rewrite tryCatchFinally_then_after_modify.
  match goal with
  | |- context [snd (?m ?s0)] =>
      assert (Hp : preserves (allocatorSat R) m)
  end.
  { apply preserves_bind.
    - apply preserves_tryCatchFinally.
      + apply sellPostTrade_rest_alloc.
      + intros e. unfold logEvent. pres_alloc.
      + pres_alloc.
    - intros _. pres_alloc. }
  apply Hp. unfold allocatorSat, R. simpl. split; reflexivity.
Qed.

(** C10.  Whenever the exchange confirms the buy, [#buy] returns normally and
    leaves the record in state BOUGHT, whatever the post-trade steps do: the
    merge of the trade result, the channel lookup of the stop-limit reset and
    the rest of [buyPostTrade] may throw at any point, for every choice of the
    collaborators.  Only when the exchange refuses is the record reset, to
    IDLE. *)
Theorem C10_buy_sets_bought_in_finally (s : TM) (cost : number) :
  (fromExchange (exchange_marketBuy E (symbol (tradeResult (memo s))) cost)
   = true ->
   fst (buy E cost s) = Val tt
   /\ state (memo (snd (buy E cost s))) = BOUGHT)
  /\ (fromExchange (exchange_marketBuy E (symbol (tradeResult (memo s))) cost)
      = false ->
      fst (buy E cost s) = Val tt
      /\ state (memo (snd (buy E cost s))) = IDLE).
Proof.
  split; intros H.
  - rewrite (buy_confirmed s cost H).
    match goal with
    | |- context [tryCatchFinally ?b ?h (modify ?f) ?s0] =>
        destruct (tryCatchFinally_assigns b h f s0) as [s2 Hs2];
          [intros; reflexivity|rewrite Hs2]
    end.
    simpl. split; reflexivity.
  - rewrite (buy_refused s cost H). simpl. split; reflexivity.
Qed.

(** What a refused sale leaves behind: the record is back in BOUGHT and not
    deleted, its trade result and its [hodl] flag are the ones it had, and
    the log gained the exchange call and two alerts. *)
Lemma sell_refused_record (s : TM) :
  fromExchange
    (exchange_marketSell E
       (mkSymbol (quantityAsset (symbol (tradeResult (memo s))))
          (StableCoin (config s)))
       (quantity (tradeResult (memo s)))) = false ->
  fst (sell E s) = Val tt
  /\ state (memo (snd (sell E s))) = BOUGHT
  /\ deleted (memo (snd (sell E s))) = false
  /\ hodl (memo (snd (sell E s))) = hodl (memo s)
  /\ tradeResult (memo (snd (sell E s))) = tradeResult (memo s)
  /\ filter isAddProfit (log (snd (sell E s))) = filter isAddProfit (log s)
  /\ canInvest (snd (sell E s)) = canInvest s
  /\ balance (snd (sell E s)) = balance s.
Proof.
  intros H. rewrite (sell_refused s H). simpl. repeat split; reflexivity.
Qed.

(** C7 (amended).  In a [trade()] cycle that starts with [#canInvest]
    between 0 and 2 (a newly constructed manager starts at 0) or with no
    investments in the ledger, the counter stays within
    [0, #optimalInvestRatio], and the ratio within [2, 4]: in the state the
    prologue leaves, after each record processed (the states of
    [cycleStates]) and at the end.  The counter is assigned in three places
    only, each of which keeps it there from any state: the prologue sets it
    to the ratio when the ledger has no investments, a confirmed buy sets it
    to [max 0 (canInvest - 1)] and a confirmed sell to
    [min optimalInvestRatio (canInvest + 1)]. *)
Theorem C7_canInvest_within_bounds (s0 : TM) :
  (0 <= canInvest s0 <= 2)%Z
  \/ tradesDao_noInvestments E (trades s0) = true ->
  Forall (fun s => allocatorOk s /\ (2 <= optimalInvestRatio s <= 4)%Z)
    (cycleStates E s0)
  /\ allocatorOk (snd (trade E s0))
  /\ (tradesDao_noInvestments E (trades s0) = true ->
      canInvest (snd (tradePrologue E s0))
      = optimalInvestRatio (snd (tradePrologue E s0)))
  /\ (forall s cost,
        allocatorOk s ->
        allocatorOk (snd (buy E cost s))
        /\ (fromExchange
              (exchange_marketBuy E (symbol (tradeResult (memo s))) cost)
            = true ->
            canInvest (snd (buy E cost s)) = Z.max 0 (canInvest s - 1)))
  /\ (forall s,
        allocatorOk s ->
        allocatorOk (snd (sell E s))
        /\ (fromExchange
              (exchange_marketSell E
                 (mkSymbol (quantityAsset (symbol (tradeResult (memo s))))
                    (StableCoin (config s)))
                 (quantity (tradeResult (memo s)))) = true ->
            canInvest (snd (sell E s))
            = Z.min (optimalInvestRatio s) (canInvest s + 1))).
Proof.
  set (R := fun c o : Z => (0 <= c <= o)%Z /\ (2 <= o <= 4)%Z).
  set (R0 := fun c o : Z => (0 <= c <= o)%Z).
  assert (HB : buyClosed R) by (unfold buyClosed, R; lia).
  assert (HS : sellClosed R) by (unfold sellClosed, R; lia).
  assert (HB0 : buyClosed R0) by (unfold buyClosed, R0; lia).
  assert (HS0 : sellClosed R0) by (unfold sellClosed, R0; lia).
  intros Hstart.
  assert (H1 : allocatorSat R (snd (tradePrologue E s0))).
  { apply tradePrologue_establishes. exact Hstart. }
  split; [|split; [|split; [|split]]].
  - exact (cycleStates_alloc R _ HB HS H1).
  - apply (trade_alloc R0 _ HB0 HS0). exact (proj1 H1).
  - intros Hno.
    destruct (tradePrologue_unfold s0) as [b Hb]. simpl in Hb.
    rewrite Hb, Hno.
    apply (signals_alloc (fun c o : Z => c = o)).
    reflexivity.
  - intros s cost Hs. split.
    + exact (buy_alloc R0 cost HB0 s Hs).
    + intros H. exact (proj1 (buy_confirmed_canInvest s cost H)).
  - intros s Hs. split.
    + exact (sell_alloc R0 HS0 s Hs).
    + intros H. exact (proj1 (sell_confirmed_canInvest s H)).
Qed.

(** *** The log of buys *)

Lemma updateStopLimit_buys P : preserves (buysSatisfy P) (updateStopLimit E).
Proof. unfold updateStopLimit. pres_buys. Qed.

Lemma forceUpdateStopLimit_buys P :
  preserves (buysSatisfy P) (forceUpdateStopLimit E).
Proof.
  unfold forceUpdateStopLimit. pres_buys. apply updateStopLimit_buys.
Qed.

Lemma updateBNBBalance_buys P q :
  preserves (buysSatisfy P) (updateBNBBalance q).
Proof. unfold updateBNBBalance, logEvent. pres_buys. Qed.

Lemma sell_buys P : preserves (buysSatisfy P) (sell E).
Proof.
  unfold sell, sellPostTrade, processSellFee, updatePLStatistics, logEvent.
  pres_buys. all: apply updateBNBBalance_buys.
Qed.

Lemma buy_buys (P : Event -> Prop) cost :
  (forall sym, P (MarketBuy sym cost)) ->
  preserves (buysSatisfy P) (buy E cost).
Proof.
  intros HP.
  unfold buy, buyPostTrade, processBuyFee, setMemo, logEvent. pres_buys.
  - apply forceUpdateStopLimit_buys.
  - apply updateBNBBalance_buys.
Qed.

Lemma checkTradePrepare_buys P :
  preserves (buysSatisfy P) (checkTradePrepare E).
Proof.
  unfold checkTradePrepare, pushNewPrice, processBoughtState, setMemo,
    logEvent.
  pres_buys.
  - apply sell_buys.
  - apply updateStopLimit_buys.
Qed.

Ltac logged_leaf :=
  match goal with
  | H : logged _ _ |- logged _ _ =>
      unfold logged in *; simpl; auto
  end.

Ltac pres_logged := repeat first [progress pres_rule | logged_leaf].

Lemma updateStopLimit_logged e : preserves (logged e) (updateStopLimit E).
Proof. unfold updateStopLimit. pres_logged. Qed.

Lemma buyPostTrade_logged e : preserves (logged e) (buyPostTrade E).
Proof.
  unfold buyPostTrade, forceUpdateStopLimit, processBuyFee, updateBNBBalance,
    setMemo, logEvent.
  pres_logged. apply updateStopLimit_logged.
Qed.

Lemma buy_logs (s : TM) (cost : number) :
  In (MarketBuy (symbol (tradeResult (memo s))) cost)
     (log (snd (buy E cost s))).
Proof.
  destruct (fromExchange
              (exchange_marketBuy E (symbol (tradeResult (memo s))) cost))
    eqn:H.
  - rewrite (buy_confirmed s cost H).
    apply (preserves_tryCatchFinally TM
             (logged (MarketBuy (symbol (tradeResult (memo s))) cost))).
    + apply buyPostTrade_logged.
    + intros e. unfold logEvent. pres_logged.
    + pres_logged.
    + unfold logged. simpl. left. reflexivity.
  - rewrite (buy_refused s cost H). simpl. right. left. reflexivity.
Qed.

Lemma stateIs_BUY_not_SELL (tm : TradeMemo) :
  stateIs tm BUY = true -> stateIs tm SELL = false.
Proof. unfold stateIs. destruct (state tm); simpl; congruence. Qed.

Lemma spend_in_range (q b : number) :
  Qgtb0 q && Qle_bool q b = true <-> 0 < q /\ q <= b.
Proof.
  rewrite andb_true_iff, Qgtb0_true, Qle_bool_iff. reflexivity.
Qed.

(** C6 (amended).  The proposed spend is 0 when [#canInvest] is not positive
    or the record already holds a quantity, and otherwise
    [max 15 (floor (balance / canInvest))].  For a record in BUY state whose
    price has stopped falling, [marketBuy] is invoked, with the proposed
    spend [q], exactly when [0 < q <= balance], and otherwise the record is
    reset to IDLE without a buy; while the price is still falling the record
    is left as it is, in BUY.  Whatever the record, a [marketBuy] that the
    step adds to the log carries a spend [c] with [0 < c <= balance], the
    balance being the one the spend was computed from. *)
Theorem C6_buy_within_balance (s : TM) :
  (((canInvest s <= 0)%Z \/ 0 < quantity (tradeResult (memo s))) ->
   calculateQuantity s = 0)
  /\ ((0 < canInvest s)%Z -> ~ 0 < quantity (tradeResult (memo s)) ->
      calculateQuantity s
      = inject_Z (Z.max MIN_BUSD_BUY
                    (Qfloor (balance s / inject_Z (canInvest s))))
      /\ MIN_BUSD_BUY = 15%Z)
  /\ (stateIs (memo s) BUY = true ->
      PriceMove_ltb DOWN (getPriceMove E (memo s)) = true ->
      (0 < calculateQuantity s /\ calculateQuantity s <= balance s ->
       checkTradeAct E s = buy E (calculateQuantity s) s
       /\ In (MarketBuy (symbol (tradeResult (memo s))) (calculateQuantity s))
            (log (snd (checkTradeAct E s))))
      /\ (~ (0 < calculateQuantity s /\ calculateQuantity s <= balance s) ->
          fst (checkTradeAct E s) = Val tt
          /\ state (memo (snd (checkTradeAct E s))) = IDLE
          /\ filter isMarketBuy (log (snd (checkTradeAct E s)))
             = filter isMarketBuy (log s)))
  /\ (stateIs (memo s) BUY = true ->
      PriceMove_ltb DOWN (getPriceMove E (memo s)) = false ->
      checkTradeAct E s = (Val tt, s))
  /\ (forall sym c,
        In (MarketBuy sym c) (log (snd (checkTrade E s))) ->
        In (MarketBuy sym c) (log s)
        \/ (c = calculateQuantity (snd (checkTradePrepare E s))
            /\ 0 < c /\ c <= balance (snd (checkTradePrepare E s)))).
Proof.
  split; [|split; [|split; [|split]]].
  - intros H. unfold calculateQuantity.
    destruct H as [H|H].
    + apply Z.leb_le in H. rewrite H. reflexivity.
    + apply Qgtb0_true in H. rewrite H, orb_true_r. reflexivity.
  - intros Hc Hq. unfold calculateQuantity.
    assert (H1 : (canInvest s <=? 0)%Z = false) by (apply Z.leb_gt; lia).
    assert (H2 : Qgtb0 (quantity (tradeResult (memo s))) = false).
    { destruct (Qgtb0 _) eqn:Hb; [|reflexivity].
      apply Qgtb0_true in Hb. contradiction. }
    rewrite H1, H2. split; reflexivity.
  - intros Hbuy Hmove. split.
    + intros Hr. apply spend_in_range in Hr.
      assert (Heq : checkTradeAct E s = buy E (calculateQuantity s) s).
      { unfold checkTradeAct, bind at 1, get at 1. cbv beta iota zeta.
        rewrite (stateIs_BUY_not_SELL _ Hbuy), Hbuy, Hmove. simpl.
        rewrite Hr. reflexivity. }
      split; [exact Heq|]. rewrite Heq. apply buy_logs.
    + intros Hr.
      assert (Hr' : Qgtb0 (calculateQuantity s)
                    && Qle_bool (calculateQuantity s) (balance s) = false).
      { destruct (_ && _) eqn:Hb; [|reflexivity].
        apply spend_in_range in Hb. contradiction. }
      unfold checkTradeAct, bind, get, logEvent, modify.
      rewrite (stateIs_BUY_not_SELL _ Hbuy), Hbuy, Hmove. simpl.
      rewrite Hr'. simpl. repeat split; reflexivity.
  - intros Hbuy Hmove.
    unfold checkTradeAct, bind, get.
    rewrite (stateIs_BUY_not_SELL _ Hbuy), Hbuy, Hmove. reflexivity.
  - intros sym c Hin.
    set (P0 := fun e : Event => In e (log s)).
    assert (H0 : buysSatisfy P0 s) by (intros e He _; exact He).
    pose proof (checkTradePrepare_buys P0 s H0) as H1.
    unfold checkTrade, bind in Hin.
    destruct (checkTradePrepare E s) as [[[]|e] s1]; simpl in H1, Hin |- *;
      [|left; exact (H1 _ Hin eq_refl)].
    unfold checkTradeAct, bind, get in Hin.
    destruct (stateIs (memo s1) SELL && _).
    { left. exact (sell_buys P0 s1 H1 _ Hin eq_refl). }
    destruct (stateIs (memo s1) BUY && _);
      [|left; exact (H1 _ Hin eq_refl)].
    cbv zeta in Hin.
    destruct (Qgtb0 (calculateQuantity s1) && _) eqn:Hr.
    + set (P1 := fun e : Event =>
                   P0 e \/ exists sym', e = MarketBuy sym' (calculateQuantity s1)).
      assert (H1' : buysSatisfy P1 s1).
      { intros e He Hb. left. exact (H1 e He Hb). }
      assert (HP1 : forall sym', P1 (MarketBuy sym' (calculateQuantity s1))).
      { intros sym'. right. exists sym'. reflexivity. }
      destruct (buy_buys P1 _ HP1 s1 H1' _ Hin eq_refl) as [Hl|[sym' Hsym]].
      * left. exact Hl.
      * right. injection Hsym as _ Hc. subst c.
        apply spend_in_range in Hr. tauto.
    + left. unfold logEvent, modify in Hin. simpl in Hin.
      destruct Hin as [Hd|Hin]; [discriminate|]. exact (H1 _ Hin eq_refl).
Qed.

Lemma Qgtb0_truthy (x : number) : Qgtb0 x = true -> truthy x = true.
Proof.
  intros H. apply Qgtb0_true in H. unfold truthy.
  apply negb_true_iff, Qeq_bool_false_neq. intros Heq.
  rewrite Heq in H. exact (Qlt_irrefl 0 H).
Qed.

(** C8 (amended).  When the price feed has no price for the record's pair,
    [pushNewPrice] leaves a record without quantity as it is (an info line
    only), and for a held record it raises an alert and, in live operation,
    leaves the record as it is (under Node it sells the position).  The
    processing of the held record is not aborted: [checkTrade] returns
    normally, [processBoughtState] advances [ttl] and recomputes the stop
    limit, and the action step runs on the outcome. *)
Theorem C8_missing_price (s : TM) :
  getPrices E (symbol (tradeResult (memo s))) = None ->
  (truthy (quantity (tradeResult (memo s))) = false ->
   pushNewPrice E s
   = (Val tt, emit s (LogInfo "Exchange does not have price for the symbol")))
  /\ (truthy (quantity (tradeResult (memo s))) = true ->
      isNode E = false ->
      pushNewPrice E s
      = (Val tt,
         emit s (LogAlert "Exchange does not have price for the held symbol.")))
  /\ (truthy (quantity (tradeResult (memo s))) = true ->
      isNode E = true ->
      pushNewPrice E s
      = sell E
          (emit s (LogAlert "Exchange does not have price for the held symbol.")))
  /\ (0 < quantity (tradeResult (memo s)) ->
      isNode E = false ->
      ~ stopLimitPrice (memo s) == 0 ->
      fst (checkTradePrepare E s) = Val tt
      /\ ttl (memo (snd (checkTradePrepare E s))) = (ttl (memo s) + 1)%Z
      /\ stopLimitPrice (memo (snd (checkTradePrepare E s)))
         = ratchet E (config s) (set_ttl (memo s) (ttl (memo s) + 1))
      /\ checkTrade E s = checkTradeAct E (snd (checkTradePrepare E s))).
Proof.
  intros Hnone.
  assert (Hinfo : truthy (quantity (tradeResult (memo s))) = false ->
                  pushNewPrice E s
                  = (Val tt, emit s (LogInfo "Exchange does not have price for the symbol"))).
  { intros Hq. unfold pushNewPrice, bind, get, logEvent, modify.
    rewrite Hnone, Hq. reflexivity. }
  assert (Hlive : truthy (quantity (tradeResult (memo s))) = true ->
                  isNode E = false ->
                  pushNewPrice E s
                  = (Val tt, emit s (LogAlert "Exchange does not have price for the held symbol."))).
  { intros Hq Hn. unfold pushNewPrice, bind, get, logEvent, modify.
    rewrite Hnone, Hq, Hn. reflexivity. }
  split; [exact Hinfo|]. split; [exact Hlive|]. split.
  - intros Hq Hn. unfold pushNewPrice, bind, get, logEvent, modify.
    rewrite Hnone, Hq, Hn. reflexivity.
  - intros Hq Hn Hnz.
    assert (Hg : Qgtb0 (quantity (tradeResult (memo s))) = true)
      by (apply Qgtb0_true; exact Hq).
    set (s1 := emit s (LogAlert "Exchange does not have price for the held symbol.")).
    assert (Hprep : checkTradePrepare E s = processBoughtState E s1).
    { unfold checkTradePrepare. unfold bind at 1.
      rewrite (Hlive (Qgtb0_truthy _ Hg) Hn).
      unfold bind at 1, get at 1. simpl. rewrite Hg. reflexivity. }
    destruct (processBoughtState_ratchets E s1 Hnz) as (Hv & Hs & Ht).
    rewrite Hprep. repeat split; try assumption.
    unfold checkTrade, bind. rewrite Hprep.
    destruct (processBoughtState E s1) as [[[]|e] s2]; simpl in *;
      [reflexivity|discriminate].
Qed.

End ManagerResults.

(** ** The scenarios of the manager *)

(** Witness of C10: the merge of the trade result throws, the exception is
    logged, and the record is BOUGHT all the same. *)
Lemma C10_buy_sets_bought_in_finally_witness :
  state (TradeManager.memo
           (snd (TradeManager.buy Scenario.throwingEnv 50
                   (Scenario.managerOn Scenario.wantedMemo))))
  = BOUGHT
  /\ In (LogError "join failed")
        (TradeManager.log
           (snd (TradeManager.buy Scenario.throwingEnv 50
                   (Scenario.managerOn Scenario.wantedMemo)))).
Proof.
  split.
  - exact (proj2 (proj1
      (C10_buy_sets_bought_in_finally Scenario.throwingEnv
         (Scenario.managerOn Scenario.wantedMemo) 50) eq_refl)).
  - vm_compute. left. reflexivity.
Defined.

(** C4, on [TradeManager.#sell].  A record in SELL state (10 units paid 100,
    [hodl] false) whose sale the exchange refuses: the record is back in
    BOUGHT, not deleted, with its quantity and paid cost, and no profit is
    recorded; the alert says the asset is marked HODL, but [hodl] is still
    false. *)
Theorem C4_refused_sell_leaves_hodl_unset :
  hodl (TradeManager.memo
          (snd (TradeManager.sell (Scenario.env false true false 5)
                  (Scenario.managerOn Scenario.sellingMemo))))
  = false
  /\ state (TradeManager.memo
              (snd (TradeManager.sell (Scenario.env false true false 5)
                      (Scenario.managerOn Scenario.sellingMemo))))
     = BOUGHT
  /\ deleted (TradeManager.memo
                (snd (TradeManager.sell (Scenario.env false true false 5)
                        (Scenario.managerOn Scenario.sellingMemo))))
     = false
  /\ tradeResult
       (TradeManager.memo
          (snd (TradeManager.sell (Scenario.env false true false 5)
                  (Scenario.managerOn Scenario.sellingMemo))))
     = tradeResult Scenario.sellingMemo
  /\ filter isAddProfit
       (TradeManager.log
          (snd (TradeManager.sell (Scenario.env false true false 5)
                  (Scenario.managerOn Scenario.sellingMemo))))
     = []
  /\ In (LogAlert "An issue happened while selling. The asset is marked HODL. Please, resolve it manually.")
        (TradeManager.log
           (snd (TradeManager.sell (Scenario.env false true false 5)
                   (Scenario.managerOn Scenario.sellingMemo)))).
Proof.
  repeat split; try reflexivity. vm_compute. right. left. reflexivity.
Qed.

(** The claim C6 as written fails: [Scenario.wantedMemo] is in BUY state, the
    proposed spend 15 exceeds the balance 10, and yet the record is not reset
    to IDLE: its price is falling, so the step leaves it in BUY. *)
Lemma C6_counterexample :
  TradeManager.calculateQuantity
    (snd (TradeManager.checkTradePrepare (Scenario.env false true true 5)
            Scenario.shortManager))
  = 15
  /\ Qle_bool 15
       (TradeManager.balance
          (snd (TradeManager.checkTradePrepare (Scenario.env false true true 5)
                  Scenario.shortManager)))
     = false
  /\ state (TradeManager.memo
              (snd (TradeManager.checkTrade (Scenario.env false true true 5)
                      Scenario.shortManager)))
     = BUY
  /\ TradeManager.log
       (snd (TradeManager.checkTrade (Scenario.env false true true 5)
               Scenario.shortManager))
     = [].
Proof. repeat split; vm_compute; reflexivity. Qed.

(** Witness of C6 (amended): the same record with a balance of 100 and a
    price that no longer falls is bought for [max 15 (floor (100 / 2)) = 50]. *)
Lemma C6_buy_within_balance_witness :
  In (MarketBuy Scenario.XYZ 50)
     (TradeManager.log
        (snd (TradeManager.checkTradeAct (Scenario.env false true true 5)
                (TradeManager.set_memo
                   (TradeManager.set_balance Scenario.shortManager 100)
                   (set_prices Scenario.wantedMemo [11; 11]))))).
Proof.
  refine (proj2 (proj1 (proj1 (proj2 (proj2
    (C6_buy_within_balance (Scenario.env false true true 5)
       (TradeManager.set_memo
          (TradeManager.set_balance Scenario.shortManager 100)
          (set_prices Scenario.wantedMemo [11; 11])))))
    eq_refl eq_refl) _)).
  split; vm_compute; [reflexivity|discriminate].
Defined.

(** Witness of C7: a cycle over a ledger with one record requested to buy. *)
Lemma C7_canInvest_within_bounds_witness :
  allocatorOk
    (snd (TradeManager.trade (Scenario.env true true true 5)
            (TradeManager.newTradeManager [Scenario.wantedMemo] DefaultConfig))).
Proof.
  refine (proj1 (proj2
    (C7_canInvest_within_bounds (Scenario.env true true true 5)
       (TradeManager.newTradeManager [Scenario.wantedMemo] DefaultConfig)
       _))).
  left. simpl. lia.
Defined.

(** The claim C7 as written fails on a manager that has run before: with the
    counter at 3 under a ratio of 4, one candidate and an open position, the
    prologue lowers the ratio to 2 and leaves the counter, which nothing in
    the cycle then changes: the cycle ends with the counter above the
    ratio. *)
Lemma C7_counterexample :
  allocatorOk
    (TradeManager.set_canInvest
       (TradeManager.set_optimalInvestRatio
          (Scenario.managerOn (Scenario.heldMemo 7)) 4) 3)
  /\ TradeManager.canInvest
       (snd (TradeManager.trade (Scenario.env false true true 5)
               (TradeManager.set_canInvest
                  (TradeManager.set_optimalInvestRatio
                     (Scenario.managerOn (Scenario.heldMemo 7)) 4) 3)))
     = 3%Z
  /\ TradeManager.optimalInvestRatio
       (snd (TradeManager.trade (Scenario.env false true true 5)
               (TradeManager.set_canInvest
                  (TradeManager.set_optimalInvestRatio
                     (Scenario.managerOn (Scenario.heldMemo 7)) 4) 3)))
     = 2%Z.
Proof.
  split; [unfold allocatorOk; simpl; lia|]. split; vm_compute; reflexivity.
Qed.

(** The claim C8 as written fails, in live operation and with no price for
    the pair: the processing of the held record of section 8 is not aborted
    and changes its [ttl] (5 to 6) and its stop limit (7 to 7.125); and
    [Scenario.crossingMemo], held in BOUGHT, is sold and marked deleted. *)
Lemma C8_counterexample :
  fst (TradeManager.checkTrade (Scenario.env false false true 5)
         (Scenario.managerOn (Scenario.heldMemo 7)))
  = Val tt
  /\ ttl (TradeManager.memo
            (snd (TradeManager.checkTrade (Scenario.env false false true 5)
                    (Scenario.managerOn (Scenario.heldMemo 7)))))
     = 6%Z
  /\ Qeq_bool
       (stopLimitPrice
          (TradeManager.memo
             (snd (TradeManager.checkTrade (Scenario.env false false true 5)
                     (Scenario.managerOn (Scenario.heldMemo 7))))))
       7
     = false
  /\ state Scenario.crossingMemo = BOUGHT
  /\ state (TradeManager.memo
              (snd (TradeManager.checkTrade (Scenario.env false false true 5)
                      (Scenario.managerOn Scenario.crossingMemo))))
     = SOLD
  /\ deleted (TradeManager.memo
                (snd (TradeManager.checkTrade (Scenario.env false false true 5)
                        (Scenario.managerOn Scenario.crossingMemo))))
     = true.
Proof. repeat split; vm_compute; reflexivity. Qed.

(** Witness of C8 (amended): the held record of section 8, no price, live. *)
Lemma C8_missing_price_witness :
  ttl (TradeManager.memo
         (snd (TradeManager.checkTradePrepare (Scenario.env false false true 5)
                 (Scenario.managerOn (Scenario.heldMemo 7)))))
  = 6%Z.
Proof.
  refine (proj1 (proj2 (proj2 (proj2 (proj2
    (C8_missing_price (Scenario.env false false true 5)
       (Scenario.managerOn (Scenario.heldMemo 7)) eq_refl))) _ eq_refl _))).
  - vm_compute. reflexivity.
  - vm_compute. discriminate.
Defined.

(** ** Sorting and the record averaging down picks *)

Section SortHead.

Variable pp : TradeMemo -> number.

Lemma cmp_neg (x y : TradeMemo) : ((V2Trader.byProfitPercentDesc pp) x y <? 0)%Z = Qltb (pp x) (pp y).
Proof.
  unfold V2Trader.byProfitPercentDesc.
  destruct (Qltb (pp x) (pp y)); reflexivity.
Qed.

Lemma firstMin_snoc_lower (p : list TradeMemo) (h x : TradeMemo) :
  firstMin pp p h -> pp x < pp h -> firstMin pp (p ++ [x]) x.
Proof.
  intros (l1 & l2 & -> & H1 & H2) Hlt.
  exists (l1 ++ h :: l2), []. split; [reflexivity|]. split.
  - intros u Hu. apply in_app_or in Hu as [Hu|[<-|Hu]].
    + eapply Qlt_trans; [exact Hlt|apply H1, Hu].
    + exact Hlt.
    + eapply Qlt_le_trans; [exact Hlt|apply H2, Hu].
  - intros u [].
Qed.

Lemma firstMin_snoc_keep (p : list TradeMemo) (h x : TradeMemo) :
  firstMin pp p h -> pp h <= pp x -> firstMin pp (p ++ [x]) h.
Proof.
  intros (l1 & l2 & -> & H1 & H2) Hle.
  exists l1, (l2 ++ [x]). split; [|split].
  - rewrite <- app_assoc. reflexivity.
  - exact H1.
  - intros u Hu. apply in_app_or in Hu as [Hu|[<-|[]]].
    + apply H2, Hu.
    + exact Hle.
Qed.

Lemma sort_head (l p : list TradeMemo) (h : TradeMemo) (acc : list TradeMemo) :
  firstMin pp p h ->
  exists t rest,
    fold_left (fun a x => insertBy (V2Trader.byProfitPercentDesc pp) x a) l (h :: acc) = t :: rest
    /\ firstMin pp (p ++ l) t.
Proof.
  revert p h acc. induction l as [|x l IH]; intros p h acc Hmin.
  - exists h, acc. rewrite app_nil_r. split; [reflexivity|exact Hmin].
  - simpl fold_left. rewrite cmp_neg.
    replace (p ++ x :: l) with ((p ++ [x]) ++ l)
      by (rewrite <- app_assoc; reflexivity).
    destruct (Qltb (pp x) (pp h)) eqn:Hb.
    + apply IH. apply firstMin_snoc_lower with h; [exact Hmin|].
      apply Qltb_true, Hb.
    + apply IH. apply firstMin_snoc_keep; [exact Hmin|].
      apply Qltb_false, Hb.
Qed.

Lemma jsSort_head (l : list TradeMemo) :
  match l with
  | [] => jsSort (V2Trader.byProfitPercentDesc pp) l = []
  | _ :: _ => exists t rest, jsSort (V2Trader.byProfitPercentDesc pp) l = t :: rest /\ firstMin pp l t
  end.
Proof.
  destruct l as [|x l]; [reflexivity|].
  unfold jsSort. simpl fold_left.
  apply (sort_head l [x] x []).
  exists [], []. split; [reflexivity|]. split; intros u [].
Qed.

Lemma lowestProfitTrade_none (l : list TradeMemo) :
  V2Trader.lowestProfitTrade pp l = None
  <-> (forall t, In t l -> stateIs t BOUGHT = false).
Proof.
  unfold V2Trader.lowestProfitTrade.
  pose proof (jsSort_head (filter (fun t => stateIs t BOUGHT) l)) as H.
  split.
  - intros Hn t Hin. destruct (stateIs t BOUGHT) eqn:Hs; [|reflexivity].
    assert (Hf : In t (filter (fun t => stateIs t BOUGHT) l))
      by (apply filter_In; split; assumption).
    destruct (filter (fun t => stateIs t BOUGHT) l) as [|y f]; [destruct Hf|].
    destruct H as (t0 & rest & Heq & _). 
    rewrite Heq in Hn. discriminate.
  - intros Hall.
    destruct (filter (fun t => stateIs t BOUGHT) l) as [|y f] eqn:Hf.
    + rewrite H. reflexivity.
    + assert (Hy : In y (filter (fun t => stateIs t BOUGHT) l))
        by (rewrite Hf; left; reflexivity).
      apply filter_In in Hy as [Hy1 Hy2]. rewrite (Hall y Hy1) in Hy2.
      discriminate.
Qed.

Lemma lowestProfitTrade_some (l : list TradeMemo) (t : TradeMemo) :
  V2Trader.lowestProfitTrade pp l = Some t -> firstLowest pp l t.
Proof.
  unfold V2Trader.lowestProfitTrade, firstLowest.
  pose proof (jsSort_head (filter (fun t => stateIs t BOUGHT) l)) as H.
  destruct (filter (fun t => stateIs t BOUGHT) l) as [|y f].
  - rewrite H. discriminate.
  - destruct H as (t0 & rest & Heq & Hmin). rewrite Heq.
    simpl. intros [= <-]. exact Hmin.
Qed.

Lemma firstLowest_lowest (l : list TradeMemo) (t u : TradeMemo) :
  firstLowest pp l t -> In u l -> stateIs u BOUGHT = true ->
  In t l /\ stateIs t BOUGHT = true /\ pp t <= pp u.
Proof.
  intros (l1 & l2 & Hf & H1 & H2) Hin Hs.
  assert (Ht : In t (filter (fun u => stateIs u BOUGHT) l)).
  { rewrite Hf. apply in_or_app. right. left. reflexivity. }
  apply filter_In in Ht as [Ht1 Ht2].
  split; [exact Ht1|]. split; [exact Ht2|].
  assert (Hu : In u (filter (fun u => stateIs u BOUGHT) l))
    by (apply filter_In; split; assumption).
  rewrite Hf in Hu. apply in_app_or in Hu as [Hu|[<-|Hu]].
  - apply Qlt_le_weak, H1, Hu.
  - apply Qle_refl.
  - apply H2, Hu.
Qed.

End SortHead.

(** ** V2Trader: the threshold checks and the sell routine *)

(** Case analysis on what the collaborators answer. *)
Ltac split_answers :=
  repeat match goal with
         | |- context [V2Trader.getTrade ?w ?s] =>
             destruct (V2Trader.getTrade w s); cbn -[Qmult Qplus Qminus Qopp]
         | |- context [find ?f ?l] =>
             destruct (find f l); cbn -[Qmult Qplus Qminus Qopp]
         | |- context [fromExchange ?r] =>
             destruct (fromExchange r); cbn -[Qmult Qplus Qminus Qopp]
         | |- context [truthy ?x] =>
             destruct (truthy x); cbn -[Qmult Qplus Qminus Qopp]
         | |- context [V2Trader.isStable ?e ?c] =>
             destruct (V2Trader.isStable e c); cbn -[Qmult Qplus Qminus Qopp]
         end.

Section V2Results.

Import V2Trader.

Variable E : Env.
Variable config : Config.

Lemma processBoughtState_state (tm : TradeMemo) (w : World) :
  exists tm' w',
    processBoughtState E config tm w = (Val tm', w')
    /\ state tm'
       = (if (Qltb (currentPrice tm) (stopLimitPrice tm)
              && (negb (hodl tm) && SellAtStopLimit (storeConfig w)))
             || (Qltb (fmul E (price (tradeResult tm))
                            (fadd E 1 (ProfitLimit config)))
                      (currentPrice tm)
                 && (negb (hodl tm) && SellAtProfitLimit (storeConfig w)))
          then SELL else state tm)
    /\ hodl tm' = hodl tm.
Proof.
  destruct tm as [r st ps cur mx stop t h d].
  unfold processBoughtState, bind, get, logEvent, modify, ret.
  (destruct (profitLimitCrossedUp E _ (ProfitLimit config));
    [|destruct (lossLimitCrossedDown E _)]);
    cbn -[Qmult Qplus Qminus Qmax Qltb];
    destruct (Qltb cur stop); destruct h;
    destruct (SellAtStopLimit (storeConfig w));
    cbn -[Qmult Qplus Qminus Qmax Qltb];
    destruct (Qltb (fmul E (price r) (fadd E 1 (ProfitLimit config))) cur);
    destruct (SellAtProfitLimit (storeConfig w));
    cbn -[Qmult Qplus Qminus Qmax Qltb];
    destruct (priceGoesUp E _);
    cbn -[Qmult Qplus Qminus Qmax Qltb];
    try destruct (thirdLast ps);
    (eexists; eexists; split; [reflexivity|]); split; reflexivity.
Qed.

(** The two threshold checks of V2Trader.  The profit-limit threshold is the
    product [price * (1 + ProfitLimit)] as the machine computes it. *)
Lemma v2_threshold_checks (tm : TradeMemo) (w : World) :
  state tm = BOUGHT ->
  exists tm' w',
    processBoughtState E config tm w = (Val tm', w')
    /\ (state tm' = SELL <->
        hodl tm = false
        /\ ((currentPrice tm < stopLimitPrice tm
             /\ SellAtStopLimit (storeConfig w) = true)
            \/ (fmul E (price (tradeResult tm)) (fadd E 1 (ProfitLimit config))
                < currentPrice tm
                /\ SellAtProfitLimit (storeConfig w) = true)))
    /\ (state tm' = SELL \/ state tm' = BOUGHT)
    /\ (hodl tm = true -> state tm' = BOUGHT).
Proof.
  intros Hst.
  destruct (processBoughtState_state tm w) as (tm' & w' & Heq & Hs & _).
  exists tm', w'. split; [exact Heq|].
  rewrite Hs, Hst. clear Hs Heq.
  match goal with
  | |- context [if ?c then SELL else BOUGHT] =>
      assert (Hc : c = true <->
                   hodl tm = false
                   /\ ((currentPrice tm < stopLimitPrice tm
                        /\ SellAtStopLimit (storeConfig w) = true)
                       \/ (fmul E (price (tradeResult tm))
                             (fadd E 1 (ProfitLimit config))
                           < currentPrice tm
                           /\ SellAtProfitLimit (storeConfig w) = true)));
        [|destruct c]
  end.
  - rewrite orb_true_iff, !andb_true_iff, negb_true_iff, !Qltb_true. tauto.
  - split; [|split].
    + split; [intros _; apply Hc; reflexivity|reflexivity].
    + left. reflexivity.
    + intros Hh. apply proj1 in Hc. destruct (Hc eq_refl) as [Hf _].
      congruence.
  - split; [|split].
    + split; [discriminate|]. intros HP. apply Hc in HP. discriminate.
    + right. reflexivity.
    + reflexivity.
Qed.

(** *** The sell routine *)

(** The sibling of [TradeManager.#sell]: on a refused sale V2Trader does set
    [hodl], reverts to BOUGHT, keeps the trade result and records no
    profit. *)
Lemma sell_refused_sets_hodl (memo : TradeMemo) (w : World) :
  fromExchange
    (exchange_marketSell E
       (mkSymbol (quantityAsset (symbol (tradeResult memo)))
          (StableCoin config))
       (quantity (tradeResult memo))) = false ->
  exists w',
    sell E config memo w = (Val (setState (set_hodl memo true) BOUGHT), w')
    /\ filter isAddProfit (log w') = filter isAddProfit (log w).
Proof.
  intros H.
  unfold sell, sellSettle, sellReinvest, setTrade, bind, get, logEvent,
    modify, ret.
  rewrite H. simpl. eexists. split; reflexivity.
Qed.

Lemma sellSettle_confirmed (memo : TradeMemo) (w : World) :
  fromExchange
    (exchange_marketSell E
       (mkSymbol (quantityAsset (symbol (tradeResult memo)))
          (StableCoin config))
       (quantity (tradeResult memo))) = true ->
  exists tr w1,
    sellSettle E config memo w
    = (Val (setState (set_tradeResult memo tr) SOLD, tr), w1)
    /\ gained tr
       = gained (exchange_marketSell E
                   (mkSymbol (quantityAsset (symbol (tradeResult memo)))
                      (StableCoin config))
                   (quantity (tradeResult memo))).
Proof.
  intros H.
  unfold sellSettle, processSellFee, updateBNBBalance, updatePLStatistics,
    setTrade, bind, get, logEvent, modify, ret.
  rewrite H. cbn -[Qmult Qplus Qminus Qopp]. split_answers.
  all: eexists; eexists; split; reflexivity.
Qed.

(** A buy logs its exchange call, and no other. *)
Lemma buy_logs_call (t : TradeMemo) (cost : number) (w : World) :
  In (MarketBuy (symbol (tradeResult t)) cost)
     (log (snd (buy E config t cost w)))
  /\ (forall e, In e (log (snd (buy E config t cost w))) ->
                isMarketBuy e = true ->
                e = MarketBuy (symbol (tradeResult t)) cost \/ In e (log w)).
Proof.
  unfold buy, processBuyFee, updateBNBBalance, setTrade, bind, get, logEvent,
    modify, ret.
  split_answers.
  all: cbn -[Qmult Qplus Qminus Qopp]; (split; [tauto|]);
    intros e Hin Hb;
    repeat (destruct Hin as [<-|Hin]; [try discriminate; auto|]); auto.
Qed.

Lemma sellReinvest_none (memo : TradeMemo) (tr : TradeResult) (w : World) :
  lowestProfitTrade (profitPercent E) (store w) = None ->
  sellReinvest E config memo tr w = (Val tt, w).
Proof.
  intros H. unfold sellReinvest, bind, get, getTradesList, ret.
  destruct (stateIs memo SOLD && AveragingDown config); [|reflexivity].
  cbv beta iota. rewrite H. reflexivity.
Qed.

Lemma sellReinvest_some (memo t : TradeMemo) (tr : TradeResult) (w : World) :
  stateIs memo SOLD = true -> AveragingDown config = true ->
  lowestProfitTrade (profitPercent E) (store w) = Some t ->
  snd (sellReinvest E config memo tr w)
  = snd (buy E config t (gained tr)
           (emit (emit w (LogAlert "Averaging down is enabled"))
                 (LogAlert "All gains are being invested"))).
Proof.
  intros Hs Ha H.
  unfold sellReinvest, getTradesList, bind, get, logEvent, modify, ret.
  rewrite Hs, Ha. cbn [andb]. cbv beta iota. rewrite H. cbv beta iota.
  match goal with
  | |- context [buy ?e ?c ?t ?g ?w0] =>
      destruct (buy e c t g w0) as [[a|err] w']
  end; reflexivity.
Qed.

(** Averaging down in apps-script/Trader.ts. *)
Lemma sell_averages_down (memo : TradeMemo) (w : World) :
  fromExchange
    (exchange_marketSell E
       (mkSymbol (quantityAsset (symbol (tradeResult memo)))
          (StableCoin config))
       (quantity (tradeResult memo))) = true ->
  AveragingDown config = true ->
  exists memo1 tr w1,
    sellSettle E config memo w = (Val (memo1, tr), w1)
    /\ state memo1 = SOLD
    /\ gained tr
       = gained (exchange_marketSell E
                   (mkSymbol (quantityAsset (symbol (tradeResult memo)))
                      (StableCoin config))
                   (quantity (tradeResult memo)))
    /\ (lowestProfitTrade (profitPercent E) (store w1) = None <->
        (forall u, In u (store w1) -> stateIs u BOUGHT = false))
    /\ (lowestProfitTrade (profitPercent E) (store w1) = None ->
        sell E config memo w = (Val memo1, w1))
    /\ (forall t,
          lowestProfitTrade (profitPercent E) (store w1) = Some t ->
          firstLowest (profitPercent E) (store w1) t
          /\ (forall u, In u (store w1) -> stateIs u BOUGHT = true ->
                        profitPercent E t <= profitPercent E u)
          /\ In (MarketBuy (symbol (tradeResult t)) (gained tr))
                (log (snd (sell E config memo w)))
          /\ (forall e, In e (log (snd (sell E config memo w))) ->
                        isMarketBuy e = true ->
                        e = MarketBuy (symbol (tradeResult t)) (gained tr)
                        \/ In e (log w1))).
Proof.
  intros Hx Ha.
  destruct (sellSettle_confirmed memo w Hx) as (tr & w1 & Hset & Hg).
  exists (setState (set_tradeResult memo tr) SOLD), tr, w1.
  split; [exact Hset|]. split; [reflexivity|]. split; [exact Hg|].
  split; [apply lowestProfitTrade_none|]. split.
  - intros Hn. unfold sell, bind at 1. rewrite Hset.
    unfold bind, ret. simpl fst. simpl snd.
    rewrite (sellReinvest_none _ _ _ Hn). reflexivity.
  - intros t Ht.
    pose proof (lowestProfitTrade_some _ _ _ Ht) as Hfl.
    assert (Hsnd : snd (sell E config memo w)
                   = snd (buy E config t (gained tr)
                            (emit (emit w1 (LogAlert "Averaging down is enabled"))
                               (LogAlert "All gains are being invested")))).
    { unfold sell, bind at 1. rewrite Hset.
      unfold bind at 1. simpl fst. simpl snd.
      rewrite <- (sellReinvest_some (setState (set_tradeResult memo tr) SOLD)
                    t tr w1 eq_refl Ha Ht).
      destruct (sellReinvest E config _ tr w1) as [[a|err] w']; reflexivity. }
    split; [exact Hfl|]. split.
    + intros u Hu Hs. exact (proj2 (proj2 (firstLowest_lowest _ _ _ _ Hfl Hu Hs))).
    + rewrite Hsnd. destruct (buy_logs_call t (gained tr)
        (emit (emit w1 (LogAlert "Averaging down is enabled"))
              (LogAlert "All gains are being invested"))) as [Hin Honly].
      split; [exact Hin|].
      intros e He Hb. destruct (Honly e He Hb) as [Heq|Hold]; [left; exact Heq|].
      simpl in Hold. destruct Hold as [<-|[<-|Hold]]; try discriminate.
      right. exact Hold.
Qed.

(** *** The later copy *)

Lemma find_stored (t : TradeMemo) (l : list TradeMemo) :
  In t l ->
  exists t', find (hasCoin (getCoinName t)) l = Some t'
             /\ getCoinName t' = getCoinName t.
Proof.
  intros Hin. destruct (find (hasCoin (getCoinName t)) l) as [t'|] eqn:Hf.
  - exists t'. split; [reflexivity|].
    apply find_some in Hf as [_ Hc]. apply String.eqb_eq, Hc.
  - pose proof (find_none _ _ Hf t Hin) as Hc. unfold hasCoin in Hc.
    rewrite String.eqb_refl in Hc. discriminate.
Qed.

Lemma later_sellSettle_confirmed (memo : TradeMemo) (w : World) :
  fromExchange
    (exchange_marketSell E
       (mkSymbol (quantityAsset (symbol (tradeResult memo)))
          (StableCoin config))
       (quantity (tradeResult memo))) = true ->
  exists tr w1,
    V2TraderGas.sellSettle E config memo w
    = (Val (setState (set_tradeResult memo tr) SOLD, tr), w1)
    /\ gained tr
       = gained (exchange_marketSell E
                   (mkSymbol (quantityAsset (symbol (tradeResult memo)))
                      (StableCoin config))
                   (quantity (tradeResult memo))).
Proof.
  intros H.
  unfold V2TraderGas.sellSettle, V2TraderGas.processSellFee,
    V2TraderGas.updateBNBBalance, updatePLStatistics,
    setTrade, bind, get, logEvent, modify, ret.
  rewrite H. cbn -[Qmult Qplus Qminus Qopp Qdiv]. split_answers.
  all: eexists; eexists; split; reflexivity.
Qed.

Lemma later_buy_logs_call (t : TradeMemo) (cost : number) (w : World) :
  In (MarketBuy (symbol (tradeResult t)) cost)
     (log (snd (V2TraderGas.buy E t cost w))).
Proof.
  unfold V2TraderGas.buy, V2TraderGas.processBuyFee,
    V2TraderGas.updateBNBBalance, setTrade, bind, get, logEvent, modify, ret.
  split_answers. all: cbn -[Qmult Qplus Qminus Qopp]; tauto.
Qed.

Lemma later_sellReinvest_none (memo : TradeMemo) (tr : TradeResult)
    (w : World) :
  lowestProfitTrade (profitPercent E) (store w) = None ->
  V2TraderGas.sellReinvest E config memo tr w = (Val tt, w).
Proof.
  intros H.
  unfold V2TraderGas.sellReinvest, bind, get, getTradesList, ret.
  destruct (stateIs memo SOLD && AveragingDown config); [|reflexivity].
  cbv beta iota. rewrite H. reflexivity.
Qed.

Lemma later_sellReinvest_some (memo t t' : TradeMemo) (tr : TradeResult)
    (w : World) :
  stateIs memo SOLD = true -> AveragingDown config = true ->
  lowestProfitTrade (profitPercent E) (store w) = Some t ->
  find (hasCoin (getCoinName t)) (store w) = Some t' ->
  In (MarketBuy (symbol (tradeResult t')) (gained tr))
     (log (snd (V2TraderGas.sellReinvest E config memo tr w))).
Proof.
  intros Hs Ha H Hf.
  pose proof (later_buy_logs_call t' (gained tr)
                (emit (emit w (LogAlert "Averaging down is enabled"))
                      (LogAlert "All gains are being invested"))) as Hb.
  unfold V2TraderGas.sellReinvest, V2TraderGas.changeTrade, getTradesList,
    setTrade, bind, get, logEvent, modify, ret.
  rewrite Hs, Ha. cbn [andb]. cbv beta iota. rewrite H. cbv beta iota.
  cbn [store emit]. rewrite Hf.
  match goal with
  | |- context [V2TraderGas.buy ?e ?t0 ?g ?w0] =>
      destruct (V2TraderGas.buy e t0 g w0) as [[a|err] w']
  end; simpl in *; exact Hb.
Qed.

(** C9.  After a sale the exchange confirmed, with averaging down enabled,
    [sell] ends in SOLD state and looks for the record to reinvest in among
    the records of the store in BOUGHT state.  If there is none, nothing is
    bought.  Otherwise the record [t] it picks has the lowest profit
    percentage of them and is the first such in the store's order, so no
    BOUGHT record has a lower one, and [marketBuy] is called with the
    proceeds of the sale as cost: in apps-script/Trader.ts on [t] itself, the
    only buy of the routine; in the later copy on the record the store holds
    under the coin of [t]. *)
Theorem C9_averaging_down (memo : TradeMemo) (w : World) :
  fromExchange
    (exchange_marketSell E
       (mkSymbol (quantityAsset (symbol (tradeResult memo)))
          (StableCoin config))
       (quantity (tradeResult memo))) = true ->
  AveragingDown config = true ->
  (exists memo1 tr w1,
     sellSettle E config memo w = (Val (memo1, tr), w1)
     /\ state memo1 = SOLD
     /\ gained tr
        = gained (exchange_marketSell E
                    (mkSymbol (quantityAsset (symbol (tradeResult memo)))
                       (StableCoin config))
                    (quantity (tradeResult memo)))
     /\ (lowestProfitTrade (profitPercent E) (store w1) = None <->
         (forall u, In u (store w1) -> stateIs u BOUGHT = false))
     /\ (lowestProfitTrade (profitPercent E) (store w1) = None ->
         sell E config memo w = (Val memo1, w1))
     /\ (forall t,
           lowestProfitTrade (profitPercent E) (store w1) = Some t ->
           firstLowest (profitPercent E) (store w1) t
           /\ (forall u, In u (store w1) -> stateIs u BOUGHT = true ->
                         profitPercent E t <= profitPercent E u)
           /\ In (MarketBuy (symbol (tradeResult t)) (gained tr))
                 (log (snd (sell E config memo w)))
           /\ (forall e, In e (log (snd (sell E config memo w))) ->
                         isMarketBuy e = true ->
                         e = MarketBuy (symbol (tradeResult t)) (gained tr)
                         \/ In e (log w1))))
  /\ (exists memo1 tr w1,
        V2TraderGas.sellSettle E config memo w = (Val (memo1, tr), w1)
        /\ state memo1 = SOLD
        /\ gained tr
           = gained (exchange_marketSell E
                       (mkSymbol (quantityAsset (symbol (tradeResult memo)))
                          (StableCoin config))
                       (quantity (tradeResult memo)))
        /\ (lowestProfitTrade (profitPercent E) (store w1) = None ->
            V2TraderGas.sell E config memo w = (Val memo1, w1))
        /\ (forall t,
              lowestProfitTrade (profitPercent E) (store w1) = Some t ->
              firstLowest (profitPercent E) (store w1) t
              /\ exists t',
                   find (hasCoin (getCoinName t)) (store w1) = Some t'
                   /\ getCoinName t' = getCoinName t
                   /\ In (MarketBuy (symbol (tradeResult t')) (gained tr))
                         (log (snd (V2TraderGas.sell E config memo w))))).
Proof.
  intros Hx Ha. split; [exact (sell_averages_down memo w Hx Ha)|].
  destruct (later_sellSettle_confirmed memo w Hx) as (tr & w1 & Hset & Hg).
  exists (setState (set_tradeResult memo tr) SOLD), tr, w1.
  split; [exact Hset|]. split; [reflexivity|]. split; [exact Hg|]. split.
  - intros Hn. unfold V2TraderGas.sell, bind at 1. rewrite Hset.
    unfold bind, ret. simpl fst. simpl snd.
    rewrite (later_sellReinvest_none _ _ _ Hn). reflexivity.
  - intros t Ht.
    pose proof (lowestProfitTrade_some _ _ _ Ht) as Hfl.
    split; [exact Hfl|].
    assert (Hin : In t (store w1)).
    { destruct Hfl as (l1 & l2 & Hf & _).
      assert (Hi : In t (filter (fun u => stateIs u BOUGHT) (store w1)))
        by (rewrite Hf; apply in_or_app; right; left; reflexivity).
      apply filter_In in Hi. tauto. }
    destruct (find_stored t (store w1) Hin) as (t' & Hf & Hc).
    exists t'. split; [exact Hf|]. split; [exact Hc|].
    pose proof (later_sellReinvest_some
                  (setState (set_tradeResult memo tr) SOLD) t t' tr w1
                  eq_refl Ha Ht Hf) as Hlog.
    unfold V2TraderGas.sell, bind at 1. rewrite Hset.
    unfold bind, ret. simpl fst. simpl snd.
    destruct (V2TraderGas.sellReinvest E config _ tr w1) as [[a|err] w'];
      exact Hlog.
Qed.

End V2Results.

(** ** The threshold checks in the two classes *)

(** [TradeManager.processBoughtState] has one check, and the record's [hodl]
    is no part of it: after the counter and the stop limit are updated, the
    record is put in SELL exactly when the stop limit is crossed down on this
    tick and stop-limit selling is enabled. *)
Lemma manager_threshold_check (E : TradeManager.Env) (s : TradeManager.TM) :
  ~ stopLimitPrice (TradeManager.memo s) == 0 ->
  fst (TradeManager.processBoughtState E s) = Val tt
  /\ state (TradeManager.memo (snd (TradeManager.processBoughtState E s)))
     = (if TradeManager.stopLimitCrossedDown E
             (set_stopLimitPrice
                (set_ttl (TradeManager.memo s) (ttl (TradeManager.memo s) + 1))
                (TradeManager.ratchet E (TradeManager.config s)
                   (set_ttl (TradeManager.memo s)
                      (ttl (TradeManager.memo s) + 1))))
           && SellAtStopLimit (TradeManager.config s)
        then SELL else state (TradeManager.memo s))
  /\ hodl (TradeManager.memo (snd (TradeManager.processBoughtState E s)))
     = hodl (TradeManager.memo s).
Proof.
  intros H.
  unfold TradeManager.processBoughtState, TradeManager.logEvent, bind, modify,
    get. simpl.
  rewrite updateStopLimit_ratchets by exact H. simpl.
  destruct (TradeManager.stopLimitCrossedDown E _); simpl.
  - destruct (SellAtStopLimit (TradeManager.config s)); simpl; auto.
  - auto.
Qed.

(** C5 (amended).  The claim holds of [V2Trader.processBoughtState]
    (apps-script/Trader.ts): for a record in BOUGHT state it returns
    normally and runs both checks; the record ends in SELL exactly when
    [hodl] is false and either the current price is below the stop limit
    with stop-limit selling enabled, or the current price is above the
    product [price * (1 + ProfitLimit)], as the machine computes it, with
    profit-limit selling enabled; otherwise it stays BOUGHT, so a record
    with [hodl] set is never put in SELL.  It does not hold of
    [TradeManager.processBoughtState] (src/gas/TradeManager.ts), which has
    no profit-limit check and does not read [hodl]: with a non-zero stop
    limit it puts the record in SELL exactly when the stop limit is crossed
    down on this tick and stop-limit selling is enabled. *)
Theorem C5_threshold_checks (E2 : V2Trader.Env) (config : V2Trader.Config)
    (E1 : TradeManager.Env) :
  (forall tm w,
     state tm = BOUGHT ->
     exists tm' w',
       V2Trader.processBoughtState E2 config tm w = (Val tm', w')
       /\ (state tm' = SELL <->
           hodl tm = false
           /\ ((currentPrice tm < stopLimitPrice tm
                /\ V2Trader.SellAtStopLimit (V2Trader.storeConfig w) = true)
               \/ (V2Trader.fmul E2 (price (tradeResult tm))
                     (V2Trader.fadd E2 1 (V2Trader.ProfitLimit config))
                   < currentPrice tm
                   /\ V2Trader.SellAtProfitLimit (V2Trader.storeConfig w)
                      = true)))
       /\ (state tm' = SELL \/ state tm' = BOUGHT)
       /\ (hodl tm = true -> state tm' = BOUGHT))
  /\ (forall s,
        ~ stopLimitPrice (TradeManager.memo s) == 0 ->
        fst (TradeManager.processBoughtState E1 s) = Val tt
        /\ state (TradeManager.memo
                    (snd (TradeManager.processBoughtState E1 s)))
           = (if TradeManager.stopLimitCrossedDown E1
                   (set_stopLimitPrice
                      (set_ttl (TradeManager.memo s)
                         (ttl (TradeManager.memo s) + 1))
                      (TradeManager.ratchet E1 (TradeManager.config s)
                         (set_ttl (TradeManager.memo s)
                            (ttl (TradeManager.memo s) + 1))))
                 && SellAtStopLimit (TradeManager.config s)
              then SELL else state (TradeManager.memo s))
        /\ hodl (TradeManager.memo
                   (snd (TradeManager.processBoughtState E1 s)))
           = hodl (TradeManager.memo s)).
Proof.
  split.
  - intros tm w Hst. exact (v2_threshold_checks E2 config tm w Hst).
  - intros s Hnz. exact (manager_threshold_check E1 s Hnz).
Qed.

(** ** The scenarios of V2Trader *)

(** Witness of C5: [Scenario.fallenMemo] is BOUGHT, not [hodl], at 10 below
    its stop limit of 12: it ends in SELL. *)
Lemma C5_threshold_checks_witness :
  exists tm' w',
    V2Trader.processBoughtState Scenario.v2env Scenario.v2config
      Scenario.fallenMemo Scenario.v2world = (Val tm', w')
    /\ state tm' = SELL.
Proof.
  destruct (proj1 (C5_threshold_checks Scenario.v2env Scenario.v2config
                     (Scenario.env false true true 5))
              Scenario.fallenMemo Scenario.v2world eq_refl)
    as (tm' & w' & Heq & Hiff & _).
  exists tm', w'. split; [exact Heq|].
  apply Hiff. split; [reflexivity|]. left. split; vm_compute; reflexivity.
Defined.

(** The claim C5 as written fails on [TradeManager.processBoughtState]: the
    record of [Scenario.crossingMemo], whose last sample fell from its stop
    limit of 12 to 10, is put in SELL although it is marked HODL. *)
Lemma C5_counterexample :
  state (set_hodl Scenario.crossingMemo true) = BOUGHT
  /\ hodl (set_hodl Scenario.crossingMemo true) = true
  /\ state
       (TradeManager.memo
          (snd (TradeManager.processBoughtState
                  (Scenario.env false true true 5)
                  (Scenario.managerOn
                     (set_hodl Scenario.crossingMemo true)))))
     = SELL
  /\ hodl
       (TradeManager.memo
          (snd (TradeManager.processBoughtState
                  (Scenario.env false true true 5)
                  (Scenario.managerOn
                     (set_hodl Scenario.crossingMemo true)))))
     = true.
Proof. repeat split; vm_compute; reflexivity. Qed.

(** Witness of C9: selling C for 100 with A at -5% and B at +10% in the store
    reinvests the 100 in A. *)
Lemma C9_averaging_down_witness :
  In (MarketBuy (mkSymbol "AAA" "BUSD") 100)
     (V2Trader.log
        (snd (V2Trader.sell Scenario.v2env Scenario.v2config
                Scenario.positionC Scenario.v2world))).
Proof.
  destruct (proj1 (C9_averaging_down Scenario.v2env Scenario.v2config
                     Scenario.positionC Scenario.v2world eq_refl eq_refl))
    as (memo1 & tr & w1 & Hset & _ & _ & _ & _ & Hsome).
  vm_compute in Hset. injection Hset as <- <- <-.
  exact (proj1 (proj2 (proj2 (Hsome Scenario.positionA eq_refl)))).
Defined.

(** * Further results *)

(** ** The rest of TradeManager *)


Section CycleResults.

Import TradeManager.

Variable E : Env.

Lemma persistBalance_returns : returns persistBalance.
Proof. unfold persistBalance. repeat returns_rule. Qed.

Lemma forEach_tradeOne_returns (l : list TradeMemo) (s : TM) :
  messagesOnly E -> fst (forEach (tradeOne E) l s) = Val tt.
Proof.
  intros Hm.
  destruct (returns_forEach TM (tradeOne E) l
              (fun tm => tradeOne_returns E tm Hm) s) as [[] H].
  exact H.
Qed.

(** X1.  The loop of [trade()] over the records.  When the ledger update of
    a record returns, the step is that update.  When it throws a value with
    a message, the failure is contained: the alert and the error are logged,
    the step returns normally and the loop goes on with the next record.
    When it throws [null] or [undefined], reading [e.message] in the handler
    throws: nothing is logged, the step throws, and the loop stops at this
    record.  So the loop never throws as long as no update throws [null] or
    [undefined]. *)
Theorem trade_contains_record_failures (tm : TradeMemo) (s : TM) :
  match tradesDao_update (getCoinName tm) (checkTrade E) None s with
  | (Val _, s') => tradeOne E tm s = (Val tt, s')
  | (Throw e, s') =>
      if isNullish e
      then exists e',
             tradeOne E tm s = (Throw e', s')
             /\ forall l, forEach (tradeOne E) (tm :: l) s = (Throw e', s')
      else tradeOne E tm s
           = (Val tt,
              emit (emit s' (LogAlert "Failed to trade")) (LogError e))
           /\ forall l,
                forEach (tradeOne E) (tm :: l) s
                = forEach (tradeOne E) l
                    (emit (emit s' (LogAlert "Failed to trade"))
                       (LogError e))
  end
  /\ (messagesOnly E ->
      forall l, fst (forEach (tradeOne E) l s) = Val tt).
Proof.
  split; [|intros Hm l; apply forEach_tradeOne_returns, Hm].
  simpl forEach. unfold bind, tradeOne, tryCatch.
  destruct (tradesDao_update (getCoinName tm) (checkTrade E) None s)
    as [[[]|e] s']; [reflexivity|].
  destruct (isNullish e).
  - eexists. split; [reflexivity|]. intros l. reflexivity.
  - split; [reflexivity|]. intros l. reflexivity.
Qed.

(** X2.  The processing order is a rearrangement of what the ordering policy
    returns, each record once, with every record requested to buy after all
    the others. *)
Theorem tradeOrder_buys_last (s : TM) :
  Permutation
    (if isNode E then sortByCoinName E (trades s) else shuffle E (trades s))
    (tradeOrder E s)
  /\ exists l1 l2,
       tradeOrder E s = l1 ++ l2
       /\ Forall (fun tm => state tm <> BUY) l1
       /\ Forall (fun tm => state tm = BUY) l2.
Proof.
  unfold tradeOrder.
  set (ts := if isNode E then sortByCoinName E (trades s)
             else shuffle E (trades s)).
  split.
  - induction ts as [|t ts IH]; simpl; [constructor|].
    destruct (stateIs t BUY); simpl.
    + apply Permutation_cons_app. exact IH.
    + constructor. exact IH.
  - exists (filter (fun tm => negb (stateIs tm BUY)) ts),
           (filter (fun tm => stateIs tm BUY) ts).
    split; [reflexivity|]. split; apply Forall_forall; intros tm Hin;
      apply filter_In in Hin as [_ Hs]; unfold stateIs in Hs;
      destruct (state tm); simpl in Hs; congruence.
Qed.

Lemma Qeq_bool_sub_self (x : Q) : Qeq_bool (x - x) 0 = true.
Proof. apply Qeq_bool_iff. unfold Qminus. apply Qplus_opp_r. Qed.

(** X3.  [#persistBalance] adds the change of the balance since the
    configuration was read to the balance the configuration store holds now,
    and takes the sum as the new balance; the other settings of the store are
    kept.  With no change it writes nothing, so persisting twice is
    persisting once. *)
Theorem persistBalance_reconciles (s : TM) :
  fst (persistBalance s) = Val tt
  /\ (balance s - StableBalance (config s) == 0 ->
      persistBalance s = (Val tt, s))
  /\ (~ balance s - StableBalance (config s) == 0 ->
      StableBalance (configStore (snd (persistBalance s)))
      = StableBalance (configStore s)
        + (balance s - StableBalance (config s))
      /\ balance (snd (persistBalance s))
         = StableBalance (configStore (snd (persistBalance s)))
      /\ config (snd (persistBalance s))
         = configStore (snd (persistBalance s))
      /\ configStore (snd (persistBalance s))
         = set_StableBalance (configStore s)
             (StableBalance (configStore (snd (persistBalance s)))))
  /\ persistBalance (snd (persistBalance s)) = persistBalance s.
Proof.
  unfold persistBalance, bind, get, modify.
  destruct (Qeq_bool (balance s - StableBalance (config s)) 0) eqn:Hd; simpl.
  - split; [reflexivity|]. split; [reflexivity|]. split.
    + intros Hn. apply Qeq_bool_iff in Hd. contradiction.
    + rewrite Hd. reflexivity.
  - split; [reflexivity|]. split.
    + intros H0. apply Qeq_bool_iff in H0. congruence.
    + split; [intros _; repeat split; reflexivity|].
      rewrite Qeq_bool_sub_self. reflexivity.
Qed.

End CycleResults.

(** Witness of X1: the channel lookup of BAD throws a value with a message;
    the step on BAD returns normally with the error logged. *)
Lemma trade_contains_record_failures_witness :
  exists s',
    TradeManager.tradeOne badChannelEnv badMemo (Scenario.managerOn badMemo)
    = (Val tt,
       TradeManager.emit
         (TradeManager.emit s' (LogAlert "Failed to trade"))
         (LogError "no channel")).
Proof.
  pose proof (proj1 (trade_contains_record_failures badChannelEnv badMemo
                       (Scenario.managerOn badMemo))) as H.
  remember (TradeManager.tradesDao_update (getCoinName badMemo)
              (TradeManager.checkTrade badChannelEnv) None
              (Scenario.managerOn badMemo)) as u eqn:Hu.
  vm_compute in Hu. subst u. cbv beta iota in H.
  change (isNullish "no channel") with false in H. cbv iota in H.
  eexists. exact (proj1 H).
Defined.

Section StopLimitBounds.

Import TradeManager.

Variable E : Env.

Lemma factors_agree (cfg : Config) (tm : TradeMemo) :
  wellConditioned cfg tm ->
  JS.K (memoProfit E tm) cfg tm = JS.Fin (K E cfg tm)
  /\ JS.k2 cfg tm = JS.Fin (k2 cfg tm).
Proof.
  intros (Hcs & Hfgi & Hcw & Hp).
  pose proof (PG_nonzero cfg Hcs Hfgi) as HPG.
  pose proof (maxTTL_nonzero cfg Hcw Hfgi) as HT.
  apply Qeq_bool_neq in Hfgi, Hp, HPG, HT.
  unfold PG in HPG. unfold maxTTL in HT.
  unfold JS.K, JS.k2, JS.P, JS.PG, JS.maxTTL.
  split.
  all: repeat first
    [ rewrite div_fin by assumption
    | progress cbn [JS.mul JS.add JS.sub JS.neg JS.min JS.max] ].
  all: reflexivity.
Qed.

(** X6.  When no division of the formula has a zero denominator
    ([ChannelSize], [FearGreedIndex], [ChannelWindowMins] and the paid cost
    are non-zero), the two factors of the stop-limit formula are finite
    numbers that never exceed 0.99, and the profit factor [K] is at least
    [min 0.99 (1 - ChannelSize)]; so, for a non-negative average price,
    neither candidate reaches the average of the last three prices.  Once
    [ttl] has reached a positive [maxTTL] the time factor is exactly 0.99. *)
Theorem stop_limit_factors_bounded (cfg : Config) (tm : TradeMemo) :
  wellConditioned cfg tm ->
  JS.K (memoProfit E tm) cfg tm = JS.Fin (K E cfg tm)
  /\ JS.k2 cfg tm = JS.Fin (k2 cfg tm)
  /\ K E cfg tm <= 0.99
  /\ Qmin 0.99 (1 - ChannelSize cfg) <= K E cfg tm
  /\ k2 cfg tm <= 0.99
  /\ (0 <= avePrice tm ->
      candidateA E cfg tm <= 0.99 * avePrice tm
      /\ candidateB cfg tm <= 0.99 * avePrice tm)
  /\ (0 < maxTTL cfg -> maxTTL cfg <= inject_Z (ttl tm) ->
      k2 cfg tm == 0.99).
Proof.
  intros Hwc. destruct (factors_agree cfg tm Hwc) as [HK Hk2].
  split; [exact HK|]. split; [exact Hk2|].
  split; [apply Q.le_min_l|]. split.
  { unfold K. apply Q.min_glb; [apply Q.le_min_l|].
    eapply Qle_trans; [apply Q.le_min_r|].
    assert (H : 0 <= Qmax 0 (P E tm * ChannelSize cfg / PG cfg))
      by apply Q.le_max_l.
    lra. }
  split; [apply Q.le_min_l|]. split.
  - intros Hav. split.
    + unfold candidateA. eapply Qle_trans; [apply Q.le_min_l|].
      apply Qmult_le_compat_r; [apply Q.le_min_l|exact Hav].
    + unfold candidateB. eapply Qle_trans; [apply Q.le_min_l|].
      apply Qmult_le_compat_r; [apply Q.le_min_l|exact Hav].
  - intros Hpos Hle. unfold k2, curTTL.
    rewrite (Q.min_r _ _ Hle).
    assert (H1 : maxTTL cfg / maxTTL cfg == 1).
    { apply Qmult_inv_r. intros H0. rewrite H0 in Hpos.
      exact (Qlt_irrefl 0 Hpos). }
    rewrite H1. apply Q.min_l. unfold Qle. simpl. lia.
Qed.

End StopLimitBounds.

(** Witness of X6: the record of section 8 after 2250 cycles. *)
Lemma stop_limit_factors_bounded_witness :
  TradeManager.k2 DefaultConfig (set_ttl (Scenario.heldMemo 7) 2250) == 0.99.
Proof.
  refine (proj2 (proj2 (proj2 (proj2 (proj2 (proj2
    (stop_limit_factors_bounded (Scenario.env false true true 5)
       DefaultConfig (set_ttl (Scenario.heldMemo 7) 2250) _))))))
    _ _).
  - repeat split; vm_compute; discriminate.
  - vm_compute. reflexivity.
  - vm_compute. discriminate.
Defined.

Section SaleResults.

Import TradeManager.

Variable E : Env.

(** X4.  A sale the exchange confirms, with result [r], returns normally and
    ends with the record SOLD, marked deleted and its [ttl] back at 0,
    whatever the statistics recorder does; [#balance] grows by the proceeds.
    The record's trade result is [r] with its commission zeroed exactly when
    a BNB record is in the ledger, and with profit [f2 (gained - paid - fee)],
    where [fee] prices the commission of the purchase and what is left of the
    sale's commission in BNB.  When the settlement coin is a stable USD coin
    the profit is handed to the statistics: if [stats.addProfit] returns it
    is recorded, if it throws the error is logged, no profit is recorded and
    the [finally] block still completes the sale.  For another settlement
    coin no profit is recorded.  (The ledger and the price provider, which
    [processSellFee] reads, are total in this model.) *)
Theorem sell_confirmed_outcome (s : TM) (r : TradeResult) :
  r = exchange_marketSell E
        (mkSymbol (quantityAsset (symbol (tradeResult (memo s))))
           (StableCoin (config s)))
        (quantity (tradeResult (memo s))) ->
  fromExchange r = true ->
  let kept :=
    if existsb (hasCoin "BNB") (trades s) then 0 else commission r in
  let fee :=
    getBNBCommissionCost E s (commission (tradeResult (memo s)))
    + getBNBCommissionCost E s kept in
  let p := f2 E (gained r - paid (tradeResult (memo s)) - fee) in
  fst (sell E s) = Val tt
  /\ state (memo (snd (sell E s))) = SOLD
  /\ deleted (memo (snd (sell E s))) = true
  /\ ttl (memo (snd (sell E s))) = 0%Z
  /\ balance (snd (sell E s)) = balance s + gained r
  /\ tradeResult (memo (snd (sell E s))) = set_profit (set_commission r kept) p
  /\ (if isStableUSDCoin E (StableCoin (config s))
      then match stats_addProfit E p with
           | Val _ => In (AddProfit p) (log (snd (sell E s)))
           | Throw e =>
               In (LogError e) (log (snd (sell E s)))
               /\ filter isAddProfit (log (snd (sell E s)))
                  = filter isAddProfit (log s)
           end
      else filter isAddProfit (log (snd (sell E s)))
           = filter isAddProfit (log s)).
Proof.
  intros Hr H. rewrite Hr in H. rewrite (sell_confirmed E s H). subst r.
  unfold tryCatchFinally, sellPostTrade, processSellFee, updateBNBBalance,
    updatePLStatistics, getBNBCommissionCost, bind, get, modify, logEvent,
    lift, ret.
  cbn -[Qmult Qplus Qminus Qopp Qdiv String.eqb].
  destruct (existsb (hasCoin "BNB") (trades s));
    cbn -[Qmult Qplus Qminus Qopp Qdiv String.eqb];
    destruct (isStableUSDCoin E (StableCoin (config s)));
    cbn -[Qmult Qplus Qminus Qopp Qdiv String.eqb];
    try match goal with
        | |- context [stats_addProfit E ?x] =>
            destruct (stats_addProfit E x) as [[]|e]
        end;
    cbn -[Qmult Qplus Qminus Qopp Qdiv String.eqb];
    (repeat split; try reflexivity);
    try (left; reflexivity); try (right; left; reflexivity).
Qed.

End SaleResults.

(** The held record of section 8, asked to be sold, is sold for 100: the
    balance becomes 100 and the profit 0. *)
Lemma sell_confirmed_outcome_witness :
  state (TradeManager.memo
           (snd (TradeManager.sell (Scenario.env false true true 5)
                   (Scenario.managerOn Scenario.sellingMemo)))) = SOLD
  /\ TradeManager.balance
       (snd (TradeManager.sell (Scenario.env false true true 5)
               (Scenario.managerOn Scenario.sellingMemo))) == 100
  /\ profit
       (tradeResult
          (TradeManager.memo
             (snd (TradeManager.sell (Scenario.env false true true 5)
                     (Scenario.managerOn Scenario.sellingMemo))))) == 0.
Proof.
  destruct (sell_confirmed_outcome (Scenario.env false true true 5)
              (Scenario.managerOn Scenario.sellingMemo) _ eq_refl eq_refl)
    as (_ & Hs & _ & _ & Hb & Hr & _).
  rewrite Hs, Hb, Hr. repeat split; vm_compute; reflexivity.
Defined.

Section BalanceResults.

Import TradeManager.

Variable E : Env.

Ltac balance_leaf :=
  match goal with
  | H : balanceSat _ _ |- balanceSat _ _ =>
      unfold balanceSat in *; simpl in *; auto
  end.

Ltac pres_balance := repeat first [progress pres_rule | balance_leaf].

Lemma updateStopLimit_balance P :
  preserves (balanceSat P) (updateStopLimit E).
Proof. unfold updateStopLimit. pres_balance. Qed.

Lemma buyPostTrade_rest_balance P :
  preserves (balanceSat P)
    (modify (fun s => set_memo s (set_prices (memo s) [price (result s)])) ;;
     s <- get ;;
     joined <- lift (joinWithNewTrade E (memo s) (result s)) ;;
     setMemo joined ;;
     forceUpdateStopLimit E ;;
     processBuyFee ;;
     logEvent (LogAlert "asset average price"))%monad.
Proof.
  unfold forceUpdateStopLimit, processBuyFee, updateBNBBalance, setMemo,
    logEvent.
  pres_balance. apply updateStopLimit_balance.
Qed.

Lemma tryCatchFinally_after_two {St} (f g : St -> St) (k : M St unit)
    (h : string -> M St unit) (fin : M St unit) (s : St) :
  tryCatchFinally (modify f ;; modify g ;; k)%monad h fin s
  = tryCatchFinally k h fin (g (f s)).
Proof. reflexivity. Qed.

(** What a buy does to the balance: a confirmed buy takes the amount the
    exchange reports as paid, a refused one nothing. *)
Lemma buy_balance (s : TM) (cost : number) :
  balance (snd (buy E cost s))
  = if fromExchange
         (exchange_marketBuy E (symbol (tradeResult (memo s))) cost)
    then balance s
         - paid (exchange_marketBuy E (symbol (tradeResult (memo s))) cost)
    else balance s.
Proof.
  destruct (fromExchange _) eqn:H.
  - rewrite (buy_confirmed E s cost H).
    unfold buyPostTrade. rewrite tryCatchFinally_after_two.
    set (v := balance s
              - paid (exchange_marketBuy E (symbol (tradeResult (memo s)))
                        cost)).
    apply (preserves_tryCatchFinally TM (balanceSat (fun b => b = v))).
    + apply buyPostTrade_rest_balance.
    + intros e. unfold logEvent. pres_balance.
    + pres_balance.
    + reflexivity.
  - rewrite (buy_refused E s cost H). reflexivity.
Qed.

(** What a sale does to the balance: a confirmed sale adds the proceeds the
    exchange reports, a refused one nothing. *)
Lemma sell_balance (s : TM) :
  balance (snd (sell E s))
  = if fromExchange
         (exchange_marketSell E
            (mkSymbol (quantityAsset (symbol (tradeResult (memo s))))
               (StableCoin (config s)))
            (quantity (tradeResult (memo s))))
    then balance s
         + gained (exchange_marketSell E
                     (mkSymbol (quantityAsset (symbol (tradeResult (memo s))))
                        (StableCoin (config s)))
                     (quantity (tradeResult (memo s))))
    else balance s.
Proof.
  destruct (fromExchange _) eqn:H.
  - rewrite (sell_confirmed E s H).
    unfold tryCatchFinally, sellPostTrade, processSellFee, updateBNBBalance,
      updatePLStatistics, getBNBCommissionCost, bind, get, modify, logEvent,
      lift, ret.
    cbn -[Qmult Qplus Qminus Qopp Qdiv String.eqb].
    destruct (existsb (hasCoin "BNB") (trades s));
      cbn -[Qmult Qplus Qminus Qopp Qdiv String.eqb];
      destruct (isStableUSDCoin E (StableCoin (config s)));
      try match goal with
          | |- context [stats_addProfit E ?x] =>
              destruct (stats_addProfit E x) as [[]|e]
          end;
      reflexivity.
  - rewrite (sell_refused E s H). reflexivity.
Qed.

Section FairExchange.

(** The exchange never charges more than the cost it was asked to spend, and
    never reports negative proceeds. *)
Hypothesis paid_within_cost :
  forall sym c, paid (exchange_marketBuy E sym c) <= c.
Hypothesis proceeds_nonneg :
  forall sym q, 0 <= gained (exchange_marketSell E sym q).

Lemma sell_balance_nonneg :
  preserves (balanceSat (fun b => 0 <= b)) (sell E).
Proof.
  intros s Hs. unfold balanceSat in *. rewrite sell_balance.
  destruct (fromExchange _); [|exact Hs].
  specialize (proceeds_nonneg
                (mkSymbol (quantityAsset (symbol (tradeResult (memo s))))
                   (StableCoin (config s)))
                (quantity (tradeResult (memo s)))).
  lra.
Qed.

Lemma checkTradePrepare_balance_nonneg :
  preserves (balanceSat (fun b => 0 <= b)) (checkTradePrepare E).
Proof.
  unfold checkTradePrepare, pushNewPrice, processBoughtState, setMemo,
    logEvent.
  pres_balance.
  - apply sell_balance_nonneg.
  - apply updateStopLimit_balance.
Qed.

Lemma checkTradeAct_balance_nonneg :
  preserves (balanceSat (fun b => 0 <= b)) (checkTradeAct E).
Proof.
  intros s Hs. unfold checkTradeAct, bind, get.
  destruct (stateIs (memo s) SELL && _); [apply sell_balance_nonneg, Hs|].
  destruct (stateIs (memo s) BUY && _); [|exact Hs].
  cbv zeta. destruct (Qgtb0 (calculateQuantity s) && _) eqn:Hr.
  - apply spend_in_range in Hr. unfold balanceSat in *.
    rewrite buy_balance. destruct (fromExchange _); [|exact Hs].
    specialize (paid_within_cost (symbol (tradeResult (memo s)))
                  (calculateQuantity s)).
    lra.
  - exact Hs.
Qed.

(** X10.  With an exchange that never charges more than the cost it is asked
    to spend and never reports negative proceeds, processing a record never
    makes [#balance] negative: a buy is only placed for a spend the balance
    covers. *)
Theorem checkTrade_keeps_balance_nonnegative (s : TM) :
  0 <= balance s -> 0 <= balance (snd (checkTrade E s)).
Proof.
  intros Hs.
  assert (Hp : preserves (balanceSat (fun b => 0 <= b)) (checkTrade E)).
  { unfold checkTrade. apply preserves_bind.
    - apply checkTradePrepare_balance_nonneg.
    - intros _. apply checkTradeAct_balance_nonneg. }
  exact (Hp s Hs).
Qed.

End FairExchange.

End BalanceResults.

(** Witness of X9: an exchange that fills buys at the asked cost; the record
    of [Scenario.shortManager], wanted with a price that stopped falling and
    a balance of 100, is bought for 50, which leaves 50. *)
Lemma checkTrade_keeps_balance_nonnegative_witness :
  0 <= TradeManager.balance
         (snd (TradeManager.checkTrade buyOnlyEnv
                 (TradeManager.set_memo
                    (TradeManager.set_balance Scenario.shortManager 100)
                    (set_prices Scenario.wantedMemo [10; 10]))))
  /\ TradeManager.balance
       (snd (TradeManager.checkTrade buyOnlyEnv
               (TradeManager.set_memo
                  (TradeManager.set_balance Scenario.shortManager 100)
                  (set_prices Scenario.wantedMemo [10; 10]))))
     == 50.
Proof.
  split.
  - apply (checkTrade_keeps_balance_nonnegative buyOnlyEnv).
    + intros sym c. apply Qle_refl.
    + intros sym q. apply Qle_refl.
    + vm_compute. discriminate.
  - vm_compute. reflexivity.
Defined.

Section LedgerResults.

Import TradeManager.

Variable E : Env.

Lemma hasCoin_name (c : CoinName) (t : TradeMemo) :
  hasCoin c t = true <-> getCoinName t = c.
Proof. unfold hasCoin. apply String.eqb_eq. Qed.

(** Looking a coin up after every record was changed without changing its
    coin. *)
Lemma find_map_same_coin (g : TradeMemo -> TradeMemo) (c : CoinName)
    (l : list TradeMemo) :
  (forall t, getCoinName (g t) = getCoinName t) ->
  find (hasCoin c) (map g l) = option_map g (find (hasCoin c) l).
Proof.
  intros Hg. induction l as [|t l IH]; simpl; [reflexivity|].
  unfold hasCoin at 1 3. rewrite Hg.
  destruct (String.eqb (getCoinName t) c); [reflexivity|exact IH].
Qed.

(** X5.  Netting the buy fee: when the ledger tracks BNB, the BNB record
    loses the commission from its quantity and keeps its paid cost, every
    other record is as it was, and the commission of the trade result is
    zeroed; when it does not, nothing changes and the commission stays. *)
Theorem processBuyFee_nets_commission (s : TM) :
  fst (processBuyFee s) = Val tt
  /\ (find (hasCoin "BNB") (trades s) = None ->
      processBuyFee s = (Val tt, s))
  /\ (forall bnb,
        find (hasCoin "BNB") (trades s) = Some bnb ->
        commission (result (snd (processBuyFee s))) = 0
        /\ (exists bnb',
              find (hasCoin "BNB") (trades (snd (processBuyFee s)))
              = Some bnb'
              /\ quantity (tradeResult bnb')
                 = quantity (tradeResult bnb) + - commission (result s)
              /\ paid (tradeResult bnb') == paid (tradeResult bnb))
        /\ (forall c, c <> "BNB"%string ->
              find (hasCoin c) (trades (snd (processBuyFee s)))
              = find (hasCoin c) (trades s))
        /\ List.length (trades (snd (processBuyFee s)))
           = List.length (trades s)).
Proof.
  set (g := fun t : TradeMemo =>
              if hasCoin "BNB" t
              then set_tradeResult t
                     (addQuantity (tradeResult t) (- commission (result s)) 0)
              else t).
  assert (Hg : forall t, getCoinName (g t) = getCoinName t).
  { intros t. unfold g. destruct (hasCoin "BNB" t); reflexivity. }
  assert (Hex : existsb (hasCoin "BNB") (trades s)
                = match find (hasCoin "BNB") (trades s) with
                  | Some _ => true
                  | None => false
                  end).
  { induction (trades s) as [|t l IH]; simpl; [reflexivity|].
    destruct (hasCoin "BNB" t); [reflexivity|exact IH]. }
  unfold processBuyFee, updateBNBBalance, bind, get, modify, logEvent, ret.
  rewrite Hex.
  destruct (find (hasCoin "BNB") (trades s)) as [bnb|] eqn:Hf; simpl.
  - split; [reflexivity|]. split; [discriminate|].
    intros bnb0 [= <-]. fold g.
    split; [reflexivity|]. split; [|split].
    + exists (g bnb). rewrite (find_map_same_coin g _ _ Hg), Hf.
      split; [reflexivity|].
      apply find_some in Hf as [_ Hb]. unfold g. rewrite Hb. simpl.
      split; [reflexivity|]. apply Qplus_0_r.
    + intros c Hc. rewrite (find_map_same_coin g _ _ Hg).
      destruct (find (hasCoin c) (trades s)) as [t|] eqn:Hc'; [|reflexivity].
      simpl. apply find_some in Hc' as [_ Ht]. apply hasCoin_name in Ht.
      unfold g, hasCoin. rewrite Ht.
      destruct (String.eqb c "BNB") eqn:Heq; [|reflexivity].
      apply String.eqb_eq in Heq. contradiction.
    + apply length_map.
  - split; [reflexivity|]. split; [reflexivity|]. discriminate.
Qed.

Lemma find_storeReplace (c name : CoinName) (tm t : TradeMemo)
    (l : list TradeMemo) :
  find (hasCoin name) l = Some t ->
  getCoinName tm = name ->
  find (hasCoin c) (storeReplace name tm l)
  = if String.eqb name c then Some tm else find (hasCoin c) l.
Proof.
  intros Hf Hn. induction l as [|y l IH]; simpl in *; [discriminate|].
  destruct (hasCoin name y) eqn:Hy.
  - injection Hf as ->. apply hasCoin_name in Hy. simpl.
    unfold hasCoin. rewrite Hn, Hy.
    destruct (String.eqb name c); reflexivity.
  - simpl. destruct (hasCoin c y) eqn:Hc.
    + apply hasCoin_name in Hc. unfold hasCoin in Hy. rewrite Hc in Hy.
      rewrite String.eqb_sym in Hy. rewrite Hy. reflexivity.
    + exact (IH Hf).
Qed.

Lemma find_snoc (c : CoinName) (t : TradeMemo) (l : list TradeMemo) :
  find (hasCoin c) (l ++ [t])
  = match find (hasCoin c) l with
    | Some u => Some u
    | None => if hasCoin c t then Some t else None
    end.
Proof.
  induction l as [|y l IH]; simpl; [reflexivity|].
  destruct (hasCoin c y); [reflexivity|exact IH].
Qed.

Lemma storeReplace_length (name : CoinName) (tm : TradeMemo)
    (l : list TradeMemo) :
  List.length (storeReplace name tm l) = List.length l.
Proof.
  induction l as [|y l IH]; simpl; [reflexivity|].
  destruct (hasCoin name y); simpl; [reflexivity|]. rewrite IH. reflexivity.
Qed.

Lemma storeReplace_same (name : CoinName) (t : TradeMemo)
    (l : list TradeMemo) :
  find (hasCoin name) l = Some t -> storeReplace name t l = l.
Proof.
  induction l as [|y l IH]; simpl; [discriminate|].
  destruct (hasCoin name y).
  - intros [= ->]. reflexivity.
  - intros Hf. rewrite (IH Hf). reflexivity.
Qed.

(** X7.  A buy signal never fails and always leaves the coin in the ledger
    in BUY state, paired with the stable coin of the configuration: a record
    already there keeps its place and everything but its state and symbol, a
    new one is appended; the records of the other coins are as they were. *)
Theorem setBuyState_requests_buy (coinName : CoinName) (s : TM) :
  fst (setBuyState E coinName s) = Val tt
  /\ (exists t,
        find (hasCoin coinName) (trades (snd (setBuyState E coinName s)))
        = Some t
        /\ state t = BUY
        /\ symbol (tradeResult t) = mkSymbol coinName (StableCoin (config s))
        /\ match find (hasCoin coinName) (trades s) with
           | Some old =>
               t = set_tradeResult (setState old BUY)
                     (set_symbol (tradeResult old)
                        (mkSymbol coinName (StableCoin (config s))))
               /\ List.length (trades (snd (setBuyState E coinName s)))
                  = List.length (trades s)
           | None =>
               quantity (tradeResult t) = 0
               /\ trades (snd (setBuyState E coinName s)) = trades s ++ [t]
           end)
  /\ (forall c, c <> coinName ->
        find (hasCoin c) (trades (snd (setBuyState E coinName s)))
        = find (hasCoin c) (trades s)).
Proof.
  unfold setBuyState, tradesDao_update, setMemo, bind, get, modify, ret.
  cbv zeta.
  destruct (find (hasCoin coinName) (trades s)) as [old|] eqn:Hf; simpl.
  - split; [reflexivity|].
    set (t := set_tradeResult (setState old BUY)
                (set_symbol (tradeResult old)
                   (mkSymbol coinName (StableCoin (config s))))).
    assert (Hn : getCoinName t = coinName) by reflexivity.
    split.
    + exists t. rewrite (find_storeReplace coinName coinName t old _ Hf Hn).
      rewrite String.eqb_refl.
      repeat split. apply storeReplace_length.
    + intros c Hc. rewrite (find_storeReplace c coinName t old _ Hf Hn).
      destruct (String.eqb coinName c) eqn:Heq; [|reflexivity].
      apply String.eqb_eq in Heq. congruence.
  - split; [reflexivity|]. split.
    + eexists. rewrite find_snoc, Hf. unfold hasCoin at 1. simpl.
      rewrite String.eqb_refl. repeat split.
    + intros c Hc. rewrite find_snoc.
      destruct (find (hasCoin c) (trades s)); [reflexivity|].
      unfold hasCoin, getCoinName. simpl.
      destruct (String.eqb coinName c) eqn:Heq; [|reflexivity].
      apply String.eqb_eq in Heq. congruence.
Qed.

(** X8.  A sell signal never fails and never creates a record: a held
    record of the coin is put in SELL state and nothing else of it changes; a
    coin that is not in the ledger, or not held, leaves the ledger as it
    is. *)
Theorem setSellState_marks_held (coinName : CoinName) (s : TM) :
  fst (setSellState coinName s) = Val tt
  /\ match find (hasCoin coinName) (trades s) with
     | None => setSellState coinName s = (Val tt, s)
     | Some t =>
         if Qgtb0 (quantity (tradeResult t))
         then find (hasCoin coinName) (trades (snd (setSellState coinName s)))
              = Some (setState t SELL)
         else trades (snd (setSellState coinName s)) = trades s
     end
  /\ List.length (trades (snd (setSellState coinName s)))
     = List.length (trades s)
  /\ (forall c, c <> coinName ->
        find (hasCoin c) (trades (snd (setSellState coinName s)))
        = find (hasCoin c) (trades s)).
Proof.
  unfold setSellState, tradesDao_update, setMemo, bind, get, modify, ret.
  destruct (find (hasCoin coinName) (trades s)) as [t|] eqn:Hf; simpl.
  - assert (Hn : getCoinName t = coinName).
    { apply find_some in Hf as [_ Hc]. apply hasCoin_name, Hc. }
    destruct (Qgtb0 (quantity (tradeResult t))); simpl.
    + split; [reflexivity|]. split; [|split].
      * rewrite (find_storeReplace coinName coinName (setState t SELL) t _
                   Hf Hn).
        rewrite String.eqb_refl. reflexivity.
      * apply storeReplace_length.
      * intros c Hc.
        rewrite (find_storeReplace c coinName (setState t SELL) t _ Hf Hn).
        destruct (String.eqb coinName c) eqn:Heq; [|reflexivity].
        apply String.eqb_eq in Heq. congruence.
    + rewrite (storeReplace_same _ _ _ Hf).
      split; [reflexivity|]. split; [reflexivity|].
      split; [reflexivity|]. intros; reflexivity.
  - split; [reflexivity|]. split; [reflexivity|].
    split; [reflexivity|]. intros; reflexivity.
Qed.

End LedgerResults.

Section SellAllResults.

Import TradeManager.

Variable E : Env.

Lemma liquidated_coin (t : TradeMemo) :
  getCoinName (liquidated t) = getCoinName t.
Proof. unfold liquidated. destruct (Qgtb0 _); reflexivity. Qed.

Lemma find_after_done (l1 l2 : list TradeMemo) (t : TradeMemo) :
  ~ In (getCoinName t) (map getCoinName l1) ->
  find (hasCoin (getCoinName t)) (map liquidated l1 ++ t :: l2) = Some t.
Proof.
  induction l1 as [|y l1 IH]; simpl; intros Hn.
  - unfold hasCoin. rewrite String.eqb_refl. reflexivity.
  - unfold hasCoin at 1. rewrite liquidated_coin.
    destruct (String.eqb (getCoinName y) (getCoinName t)) eqn:Heq.
    + apply String.eqb_eq in Heq. exfalso. apply Hn. left. exact Heq.
    + apply IH. intros Hin. apply Hn. right. exact Hin.
Qed.

Lemma storeReplace_after_done (l1 l2 : list TradeMemo) (t u : TradeMemo) :
  ~ In (getCoinName t) (map getCoinName l1) ->
  storeReplace (getCoinName t) u (map liquidated l1 ++ t :: l2)
  = map liquidated l1 ++ u :: l2.
Proof.
  induction l1 as [|y l1 IH]; simpl; intros Hn.
  - unfold hasCoin. rewrite String.eqb_refl. reflexivity.
  - unfold hasCoin at 1. rewrite liquidated_coin.
    destruct (String.eqb (getCoinName y) (getCoinName t)) eqn:Heq.
    + apply String.eqb_eq in Heq. exfalso. apply Hn. left. exact Heq.
    + rewrite IH; [reflexivity|]. intros Hin. apply Hn. right. exact Hin.
Qed.

Lemma markForSale_step (l1 l2 : list TradeMemo) (t : TradeMemo) (s : TM) :
  trades s = map liquidated l1 ++ t :: l2 ->
  ~ In (getCoinName t) (map getCoinName l1) ->
  exists s',
    tradesDao_update (getCoinName t) markForSale None s = (Val tt, s')
    /\ trades s' = map liquidated (l1 ++ [t]) ++ l2
    /\ log s' = log s
    /\ balance s' = balance s /\ config s' = config s
    /\ configStore s' = configStore s.
Proof.
  intros Ht Hn.
  unfold tradesDao_update, markForSale, setMemo, bind, get, modify, ret.
  rewrite Ht, (find_after_done l1 l2 t Hn). simpl.
  destruct (Qgtb0 (quantity (tradeResult t))) eqn:Hq; simpl;
    eexists; (split; [reflexivity|]); simpl; rewrite Ht;
    rewrite (storeReplace_after_done l1 l2 t _ Hn);
    rewrite map_app, <- app_assoc; simpl; unfold liquidated; rewrite Hq;
    repeat split; reflexivity.
Qed.

Lemma markForSale_all (l2 l1 : list TradeMemo) (s : TM) :
  trades s = map liquidated l1 ++ l2 ->
  NoDup (map getCoinName (l1 ++ l2)) ->
  exists s',
    forEach (fun tm => tradesDao_update (getCoinName tm) markForSale None)
      l2 s = (Val tt, s')
    /\ trades s' = map liquidated (l1 ++ l2)
    /\ log s' = log s
    /\ balance s' = balance s /\ config s' = config s
    /\ configStore s' = configStore s.
Proof.
  revert l1 s. induction l2 as [|t l2 IH]; intros l1 s Ht Hnd.
  - exists s. simpl. rewrite app_nil_r in *. repeat split. exact Ht.
  - assert (Hn : ~ In (getCoinName t) (map getCoinName l1)).
    { rewrite map_app in Hnd. simpl in Hnd.
      apply NoDup_remove_2 in Hnd. intros Hin. apply Hnd.
      apply in_or_app. left. exact Hin. }
    destruct (markForSale_step l1 l2 t s Ht Hn)
      as (s1 & Hs1 & Ht1 & Hl1 & Hb1 & Hc1 & Hcs1).
    assert (Hnd' : NoDup (map getCoinName ((l1 ++ [t]) ++ l2)))
      by (rewrite <- app_assoc; exact Hnd).
    destruct (IH (l1 ++ [t]) s1 Ht1 Hnd')
      as (s2 & Hs2 & Ht2 & Hl2 & Hb2 & Hc2 & Hcs2).
    exists s2. simpl. unfold bind. rewrite Hs1. rewrite Hs2.
    rewrite <- app_assoc in Ht2. simpl in Ht2.
    repeat split; congruence.
Qed.

Lemma persistBalance_ledger (s : TM) :
  exists s',
    persistBalance s = (Val tt, s')
    /\ trades s' = trades s /\ log s' = log s.
Proof.
  unfold persistBalance, bind, get, modify, ret.
  destruct (negb _); simpl; eexists; repeat split; reflexivity.
Qed.

(** X9.  [sellAll()] without immediate sale, on a ledger with one record per
    coin: it returns normally, calls no collaborator that trades or logs, and
    leaves every record reset, the held ones in SELL state and the others in
    the state a reset gives; nothing else of a record changes. *)
Theorem sellAll_marks_held_records (s : TM) :
  NoDup (map getCoinName (trades s)) ->
  exists s',
    sellAll E false s = (Val tt, s')
    /\ trades s' = map liquidated (trades s)
    /\ log s' = log s
    /\ (forall t, In t (trades s') ->
          state t = (if Qgtb0 (quantity (tradeResult t)) then SELL else IDLE)).
Proof.
  intros Hnd.
  destruct (initBalance_returns E (set_config s (configStore s))) as [b Hb].
  set (s1 := set_balance (set_config s (configStore s)) b).
  destruct (markForSale_all (trades s) [] s1 eq_refl Hnd)
    as (s2 & Hs2 & Ht2 & Hl2 & _).
  destruct (persistBalance_ledger s2) as (s3 & Hs3 & Ht3 & Hl3).
  exists s3.
  assert (Hrun : sellAll E false s = (Val tt, s3)).
  { unfold sellAll. unfold bind at 1, modify at 1.
    unfold bind at 1. rewrite Hb. fold s1.
    unfold bind at 1, get at 1.
    change (trades s1) with (trades s).
    unfold bind at 1.
    change (forEach _ (trades s) s1)
      with (forEach (fun tm => tradesDao_update (getCoinName tm)
                                 markForSale None) (trades s) s1).
    rewrite Hs2. exact Hs3. }
  split; [exact Hrun|].
  split; [rewrite Ht3, Ht2; reflexivity|].
  split; [rewrite Hl3, Hl2; reflexivity|].
  intros t Hin. rewrite Ht3, Ht2 in Hin. simpl in Hin.
  apply in_map_iff in Hin as (u & <- & _). unfold liquidated.
  destruct (Qgtb0 (quantity (tradeResult u))) eqn:Hq; simpl; rewrite Hq;
    reflexivity.
Qed.

End SellAllResults.

(** Witness of X8: a ledger of a held record and a record only wanted. *)
Lemma sellAll_marks_held_records_witness :
  map state
    (TradeManager.trades
       (snd (TradeManager.sellAll (Scenario.env false true true 5) false
               (TradeManager.newTradeManager
                  [Scenario.heldMemo 7;
                   set_tradeResult Scenario.wantedMemo
                     (mkTradeResult (mkSymbol "ABC" "BUSD") 0 0 0 0 0 0 false)]
                  DefaultConfig))))
  = [SELL; IDLE].
Proof.
  destruct (sellAll_marks_held_records (Scenario.env false true true 5)
              (TradeManager.newTradeManager
                 [Scenario.heldMemo 7;
                  set_tradeResult Scenario.wantedMemo
                    (mkTradeResult (mkSymbol "ABC" "BUSD") 0 0 0 0 0 0 false)]
                 DefaultConfig))
    as (s' & Hrun & Ht & _).
  - simpl. repeat constructor; simpl; intuition discriminate.
  - rewrite Hrun. simpl snd. rewrite Ht. reflexivity.
Defined.



Lemma bind_val {St A B} (m : M St A) (f : A -> M St B) (s s' : St) (a : A) :
  m s = (Val a, s') -> bind m f s = f a s'.
Proof. intros H. unfold bind. rewrite H. reflexivity. Qed.

Lemma bind_throw {St A B} (m : M St A) (f : A -> M St B) (s s' : St)
    (e : string) :
  m s = (Throw e, s') -> bind m f s = (Throw e, s').
Proof. intros H. unfold bind. rewrite H. reflexivity. Qed.

Section TickerResults.

Import V2Trader V2Ticker.

Variable E : Env.
Variable config : Config.
Variable pushPrice : TradeMemo -> number -> TradeMemo.

(** X11.  A record of a coin that is not a stable coin, for which the price
    map lists no price (or lists 0) while the record holds a quantity, makes
    [tickerCheck] throw before anything is stored, logged or traded: the
    world is as it was. *)
Theorem tickerCheck_aborts_without_price (tm : TradeMemo) (w : World) :
  isStable E (getCoinName tm) = false ->
  priceListed E tm = false ->
  truthy (quantity (tradeResult tm)) = true ->
  exists e, tickerCheck E config pushPrice tm w = (Throw e, w).
Proof.
  intros Hs Hp Hq. unfold tickerCheck, pushNewPrice, noPrice, bind, throw.
  unfold priceListed in Hp. rewrite Hs. cbn [negb].
  destruct (prices_get E _) as [p|]; [rewrite Hp|]; rewrite Hq;
    eexists; reflexivity.
Qed.

Hypothesis pushPrice_state :
  forall tm p, state (pushPrice tm p) = state tm.
Hypothesis pushPrice_hodl :
  forall tm p, hodl (pushPrice tm p) = hodl tm.

Lemma stateIs_eq (tm : TradeMemo) (s s' : TradeState) :
  state tm = s -> stateIs tm s' = TradeState_eqb s s'.
Proof. intros <-. reflexivity. Qed.

Lemma find_putTrade (tm : TradeMemo) (l : list TradeMemo) :
  find (hasCoin (getCoinName tm)) (putTrade tm l) = Some tm.
Proof.
  assert (Hself : hasCoin (getCoinName tm) tm = true)
    by (unfold hasCoin; apply String.eqb_refl).
  induction l as [|t l IH]; simpl.
  - rewrite Hself. reflexivity.
  - destruct (hasCoin (getCoinName tm) t) eqn:Ht; simpl.
    + rewrite Hself. reflexivity.
    + rewrite Ht. exact IH.
Qed.

Lemma processBoughtState_keeps (tm : TradeMemo) (w : World) :
  exists tm' w',
    processBoughtState E config tm w = (Val tm', w')
    /\ tradeResult tm' = tradeResult tm
    /\ hodl tm' = hodl tm
    /\ (hodl tm = true -> state tm' = state tm)
    /\ stopLimitPrice tm <= stopLimitPrice tm'
    /\ prices tm' = prices tm
    /\ (priceGoesUp E tm = false -> stopLimitPrice tm' = stopLimitPrice tm)
    /\ (priceGoesUp E tm = true -> forall p, thirdLast (prices tm) = Some p ->
        stopLimitPrice tm'
        = Qmax (stopLimitPrice tm) (p * (1 - StopLimit config)))
    /\ store w' = store w
    /\ storeConfig w' = storeConfig w
    /\ filter isOrder (log w') = filter isOrder (log w).
Proof.
  destruct tm as [r st ps cur mx stop t h d].
  unfold processBoughtState, bind, get, logEvent, modify, ret.
  (destruct (profitLimitCrossedUp E _ (ProfitLimit config));
    [|destruct (lossLimitCrossedDown E _)]);
    cbn -[Qmult Qplus Qminus Qmax Qltb];
    destruct (Qltb cur stop); destruct h;
    destruct (SellAtStopLimit (storeConfig w));
    cbn -[Qmult Qplus Qminus Qmax Qltb];
    destruct (Qltb (fmul E (price r) (fadd E 1 (ProfitLimit config))) cur);
    destruct (SellAtProfitLimit (storeConfig w));
    cbn -[Qmult Qplus Qminus Qmax Qltb];
    destruct (priceGoesUp E _);
    cbn -[Qmult Qplus Qminus Qmax Qltb];
    try destruct (thirdLast ps);
    (eexists; eexists; split; [reflexivity|]);
    cbn -[Qmult Qplus Qminus Qmax Qltb];
    repeat split; try reflexivity; try discriminate;
    try apply Qle_refl; try apply Q.le_max_l;
    try (intros _ p0 [= <-]; reflexivity); try (intros _ p0 [=]).
Qed.

Lemma pushStep_hodl (tm : TradeMemo) (w : World) :
  state tm = BOUGHT -> hodl tm = true ->
  (exists e, (if negb (isStable E (getCoinName tm))
              then pushNewPrice E pushPrice tm else ret tm) w = (Throw e, w))
  \/ (exists tm1 w1,
        (if negb (isStable E (getCoinName tm))
         then pushNewPrice E pushPrice tm else ret tm) w = (Val tm1, w1)
        /\ state tm1 = BOUGHT /\ hodl tm1 = true
        /\ filter isOrder (log w1) = filter isOrder (log w)).
Proof.
  intros Hst Hh.
  destruct (isStable E (getCoinName tm)); cbn [negb].
  { right. exists tm, w. repeat split; assumption. }
  unfold pushNewPrice, noPrice, bind, throw, logEvent, modify, ret.
  destruct (prices_get E _) as [p|]; [destruct (truthy p)|].
  - right. exists (pushPrice tm p), w.
    rewrite pushPrice_state, pushPrice_hodl. repeat split; assumption.
  - destruct (truthy (quantity (tradeResult tm))).
    + left. eexists. reflexivity.
    + right. exists tm, (emit w (LogInfo "Exchange does not have price")).
      repeat split; assumption.
  - destruct (truthy (quantity (tradeResult tm))).
    + left. eexists. reflexivity.
    + right. exists tm, (emit w (LogInfo "Exchange does not have price")).
      repeat split; assumption.
Qed.

Lemma tickerCheck_hodl_outcome (tm : TradeMemo) (w : World) :
  state tm = BOUGHT -> hodl tm = true ->
  (exists e, tickerCheck E config pushPrice tm w = (Throw e, w))
  \/ (exists tm' w',
        tickerCheck E config pushPrice tm w = (Val tm', w')
        /\ state tm' = BOUGHT /\ hodl tm' = true
        /\ getTrade w' (symbol (tradeResult tm')) = Some tm'
        /\ filter isOrder (log w') = filter isOrder (log w)).
Proof.
  intros Hst Hh.
  unfold tickerCheck.
  destruct (pushStep_hodl tm w Hst Hh)
    as [(e & He)|(tm1 & w1 & H1 & Hs1 & Hh1 & Hl1)].
  { left. exists e. apply bind_throw, He. }
  right. rewrite (bind_val _ _ _ _ _ H1).
  rewrite (stateIs_eq tm1 BOUGHT BOUGHT Hs1). cbn [TradeState_eqb].
  destruct (processBoughtState_keeps tm1 w1)
    as (tm2 & w2 & H2 & Hr2 & Hh2 & Hs2 & _ & _ & _ & _ & Hst2 & _ & Hl2).
  rewrite (bind_val _ _ _ _ _ H2).
  specialize (Hs2 Hh1). rewrite Hs1 in Hs2. rewrite Hh1 in Hh2.
  unfold setTrade, bind, modify, logEvent, ret.
  rewrite (stateIs_eq tm2 BOUGHT SELL Hs2), (stateIs_eq tm2 BOUGHT BUY Hs2).
  cbn [TradeState_eqb andb].
  destruct (priceGoesUp E tm2).
  all: eexists; eexists; (split; [reflexivity|]).
  all: (split; [exact Hs2|]); (split; [exact Hh2|]).
  all: cbn [log emit set_store filter isOrder]; (split; [|congruence]).
  all: unfold getTrade; cbn [store emit set_store]; apply find_putTrade.
Qed.

(** X12.  A record in BOUGHT state that is marked HODL is never traded by
    [tickerCheck]: whatever the prices and the configuration, no order
    reaches the exchange; when the check returns, the record is still BOUGHT
    and HODL and the store holds it under its coin.  ([TradeMemo.pushPrice]
    is taken to leave [state] and [hodl] alone.) *)
Theorem tickerCheck_never_trades_hodl (tm : TradeMemo) (w : World) :
  state tm = BOUGHT -> hodl tm = true ->
  filter isOrder (log (snd (tickerCheck E config pushPrice tm w)))
  = filter isOrder (log w)
  /\ (forall tm' w', tickerCheck E config pushPrice tm w = (Val tm', w') ->
        state tm' = BOUGHT /\ hodl tm' = true
        /\ getTrade w' (symbol (tradeResult tm')) = Some tm').
Proof.
  intros Hst Hh.
  destruct (tickerCheck_hodl_outcome tm w Hst Hh)
    as [(e & ->)|(tm1 & w1 & -> & Hs1 & Hh1 & Hg & Hl1)].
  - split; [reflexivity|]. intros tm' w' H. discriminate H.
  - split; [exact Hl1|]. intros tm' w' [= <- <-]. repeat split; assumption.
Qed.

Hypothesis pushPrice_tradeResult :
  forall tm p, tradeResult (pushPrice tm p) = tradeResult tm.

Lemma buy_orders (t : TradeMemo) (cost : number) (w : World) :
  filter isOrder (log (snd (buy E config t cost w)))
  = MarketBuy (symbol (tradeResult t)) cost :: filter isOrder (log w).
Proof.
  unfold buy, processBuyFee, updateBNBBalance, setTrade, bind, get, logEvent,
    modify, ret.
  split_answers; reflexivity.
Qed.

(** X13.  For a SOLD record of a non-stable coin with a listed price,
    [tickerCheck] places exactly one order, a buy for [BuyQuantity] of the
    record's symbol, when swing trading is enabled, the pushed price is below
    the product [maxObservedPrice * (1 - ProfitLimit)] as the machine
    computes it (the difference and the product rounded) and the price goes
    up; otherwise it places none and returns the record, put in BUY state if
    the price had dropped (it waits for the price to rise) and as pushed if
    not.  It never sells. *)
Theorem tickerCheck_swing_trade (tm : TradeMemo) (p : number) (w : World) :
  state tm = SOLD ->
  isStable E (getCoinName tm) = false ->
  prices_get E (symbolString (symbol (tradeResult tm))) = Some p ->
  truthy p = true ->
  let tm1 := pushPrice tm p in
  let rebuy :=
    SwingTradeEnabled config
    && Qltb (currentPrice tm1)
            (fmul E (maxObservedPrice tm1) (fsub E 1 (ProfitLimit config))) in
  let order := rebuy && priceGoesUp E (setState tm1 BUY) in
  filter isOrder (log (snd (tickerCheck E config pushPrice tm w)))
  = (if order
     then [MarketBuy (symbol (tradeResult tm)) (BuyQuantity config)]
     else [])
    ++ filter isOrder (log w)
  /\ (order = false ->
      fst (tickerCheck E config pushPrice tm w)
      = Val (if rebuy then setState tm1 BUY else tm1)).
Proof.
  intros Hst Hns Hp Ht tm1 rebuy order.
  assert (Hs1 : state tm1 = SOLD)
    by (unfold tm1; rewrite pushPrice_state; exact Hst).
  assert (Hr1 : tradeResult tm1 = tradeResult tm)
    by apply pushPrice_tradeResult.
  assert (Hn1 : isStable E (getCoinName (setState tm1 BUY)) = false).
  { unfold getCoinName. cbn [setState tradeResult]. rewrite Hr1. exact Hns. }
  unfold tickerCheck.
  rewrite (bind_val _ _ w w tm1)
    by (rewrite Hns; unfold pushNewPrice; rewrite Hp, Ht; reflexivity).
  rewrite (stateIs_eq tm1 SOLD BOUGHT Hs1), (stateIs_eq tm1 SOLD SOLD Hs1).
  cbn [TradeState_eqb].
  unfold processSoldState. subst order rebuy.
  destruct (SwingTradeEnabled config); cbn [negb andb];
    [destruct (Qltb (currentPrice tm1) _)|].
  - unfold bind, logEvent, setTrade, modify, ret. cbv beta iota.
    replace (stateIs (setState tm1 BUY) SELL) with false by reflexivity.
    replace (stateIs (setState tm1 BUY) BUY) with true by reflexivity.
    rewrite Hn1. cbn [andb].
    destruct (priceGoesUp E (setState tm1 BUY)); cbn [orb]; cbv beta iota.
    + rewrite buy_orders. cbn [setState tradeResult]. rewrite Hr1.
      split; [reflexivity|discriminate].
    + split; reflexivity.
  - unfold bind, logEvent, setTrade, modify, ret. cbv beta iota.
    rewrite (stateIs_eq tm1 SOLD SELL Hs1), (stateIs_eq tm1 SOLD BUY Hs1).
    cbn [TradeState_eqb andb].
    destruct (priceGoesUp E tm1); split; reflexivity.
  - unfold bind, logEvent, setTrade, modify, ret. cbv beta iota.
    rewrite (stateIs_eq tm1 SOLD SELL Hs1), (stateIs_eq tm1 SOLD BUY Hs1).
    cbn [TradeState_eqb andb].
    destruct (priceGoesUp E tm1); split; reflexivity.
Qed.

Lemma thirdLast_some (ps : list number) :
  (3 <= List.length ps)%nat -> exists p, thirdLast ps = Some p.
Proof.
  intros H. unfold thirdLast.
  destruct (Nat.leb_spec 3 (List.length ps)) as [_|Hlt]; [|lia].
  destruct (nth_error ps (List.length ps - 3)) as [p|] eqn:Hn.
  - exists p. reflexivity.
  - apply nth_error_None in Hn. lia.
Qed.

(** X14.  With at least three prices in its history, [processBoughtState]
    of V2Trader returns normally and only ever raises the stop limit: it
    becomes [max(old, prices[length-3] * (1 - StopLimit))] when the price
    goes up, and is kept otherwise.  The trade result, [hodl] and the price
    history are untouched, the store is not written and no order is
    placed. *)
Theorem processBoughtState_only_raises_stop_limit (tm : TradeMemo)
    (w : World) :
  (3 <= List.length (prices tm))%nat ->
  exists tm' w' p,
    processBoughtState E config tm w = (Val tm', w')
    /\ thirdLast (prices tm) = Some p
    /\ stopLimitPrice tm'
       = (if priceGoesUp E tm
          then Qmax (stopLimitPrice tm) (p * (1 - StopLimit config))
          else stopLimitPrice tm)
    /\ stopLimitPrice tm <= stopLimitPrice tm'
    /\ tradeResult tm' = tradeResult tm
    /\ hodl tm' = hodl tm
    /\ prices tm' = prices tm
    /\ store w' = store w
    /\ filter isOrder (log w') = filter isOrder (log w).
Proof.
  intros Hlen. destruct (thirdLast_some _ Hlen) as (p & Hp).
  destruct (processBoughtState_keeps tm w)
    as (tm' & w' & Hrun & Hr & Hh & _ & Hle & Hps & Hno & Hup & Hst & _ & Hl).
  exists tm', w', p. split; [exact Hrun|]. split; [exact Hp|].
  split; [|repeat split; assumption].
  destruct (priceGoesUp E tm).
  - apply Hup; [reflexivity|exact Hp].
  - apply Hno. reflexivity.
Qed.

(** X15.  [buy] of V2Trader: after a purchase the exchange confirms, the
    store holds the returned record under its coin, with the stop limit at
    [price * (1 - StopLimit)] and, for a stable coin, marked HODL; after a
    refused one the record and the store are as before and the pending action
    is cancelled.  In both cases exactly one order reached the exchange. *)
Theorem buy_stores_or_cancels (memo : TradeMemo) (cost : number)
    (w : World) :
  (fromExchange (exchange_marketBuy E (symbol (tradeResult memo)) cost) = true ->
   exists memo' w',
     buy E config memo cost w = (Val memo', w')
     /\ getTrade w' (symbol (tradeResult memo')) = Some memo'
     /\ stopLimitPrice memo'
        = price (exchange_marketBuy E (symbol (tradeResult memo)) cost)
          * (1 - StopLimit config)
     /\ (isStable E (getCoinName memo) = true -> hodl memo' = true)
     /\ filter isOrder (log w')
        = MarketBuy (symbol (tradeResult memo)) cost :: filter isOrder (log w))
  /\ (fromExchange (exchange_marketBuy E (symbol (tradeResult memo)) cost)
      = false ->
      exists w',
        buy E config memo cost w = (Val memo, w')
        /\ store w' = store w
        /\ In (CancelAction (getCoinName memo)) (log w')
        /\ filter isOrder (log w')
           = MarketBuy (symbol (tradeResult memo)) cost
             :: filter isOrder (log w)).
Proof.
  split; intros H.
  - pose proof (buy_orders memo cost w) as Ho. revert Ho.
    unfold buy, processBuyFee, updateBNBBalance, setTrade, bind, get,
      logEvent, modify, ret.
    rewrite H. cbv beta iota.
    destruct (getTrade _ _); cbv beta iota; intros Ho.
    all: eexists; eexists; (split; [reflexivity|]).
    all: (split; [unfold getTrade; cbn [store emit set_store];
                  apply find_putTrade|]).
    all: (split; [reflexivity|]).
    all: (split; [|exact Ho]).
    all: unfold getCoinName; intros Hs; cbn [hodl set_hodl];
      rewrite Hs; apply orb_true_r.
  - unfold buy, bind, logEvent, modify, ret. rewrite H. cbv beta iota.
    eexists. split; [reflexivity|]. split; [reflexivity|].
    split; [left; reflexivity|reflexivity].
Qed.

End TickerResults.

Section WatcherResults.

Import V2Trader Watcher.

Variable check : TradeMemo -> M World TradeMemo.

Lemma tickerStep_returns (tm : TradeMemo) (w : World) :
  fst (tickerStep check tm w) = Val tt.
Proof.
  unfold tickerStep, tryCatch, V2TraderGas.changeTrade, bind, get, setTrade,
    logEvent, modify, ret.
  destruct (find _ (store w)) as [t|]; [|reflexivity].
  destruct (check t w) as [[t'|e] w1]; reflexivity.
Qed.

Lemma forEach_tickerStep_returns (l : list TradeMemo) (w : World) :
  fst (forEach (tickerStep check) l w) = Val tt.
Proof.
  revert w. induction l as [|tm l IH]; intros w; [reflexivity|].
  simpl. unfold bind.
  pose proof (tickerStep_returns tm w) as H.
  destruct (tickerStep check tm w) as [[[]|e] w1]; [apply IH|discriminate H].
Qed.

(** X16.  The loop of [Ticker] never throws, whatever [tickerCheck] does.
    Each record is read again from the store under its coin: one that is gone
    is skipped; when the check throws, the error is logged, nothing is stored
    back and the loop goes on; when it returns, the record it returns is
    stored. *)
Theorem tickerLoop_contains_failures (w : World) :
  fst (tickerLoop check w) = Val tt
  /\ (forall tm w0,
        find (hasCoin (getCoinName tm)) (store w0) = None ->
        tickerStep check tm w0 = (Val tt, w0))
  /\ (forall tm t w0 e w1,
        find (hasCoin (getCoinName tm)) (store w0) = Some t ->
        check t w0 = (Throw e, w1) ->
        tickerStep check tm w0 = (Val tt, emit w1 (LogError e)))
  /\ (forall tm t w0 t' w1,
        find (hasCoin (getCoinName tm)) (store w0) = Some t ->
        check t w0 = (Val t', w1) ->
        tickerStep check tm w0
        = (Val tt, set_store w1 (putTrade t' (store w1)))).
Proof.
  split; [|split; [|split]].
  - unfold tickerLoop, bind, get. apply forEach_tickerStep_returns.
  - intros tm w0 H.
    unfold tickerStep, tryCatch, V2TraderGas.changeTrade, bind, get, ret.
    rewrite H. reflexivity.
  - intros tm t w0 e w1 H Hc.
    unfold tickerStep, tryCatch, V2TraderGas.changeTrade, bind, get, ret.
    rewrite H, Hc. reflexivity.
  - intros tm t w0 t' w1 H Hc.
    unfold tickerStep, tryCatch, V2TraderGas.changeTrade, bind, get, ret.
    rewrite H, Hc. reflexivity.
Qed.

End WatcherResults.

(** Position A is held and the feed of [Scenario.v2env] lists no price: the
    check throws and the world is as before. *)
Lemma tickerCheck_aborts_without_price_witness :
  exists e,
    V2Ticker.tickerCheck Scenario.v2env Scenario.v2config Scenario.pushPrice
      Scenario.positionA Scenario.v2world
    = (Throw e, Scenario.v2world).
Proof.
  apply (tickerCheck_aborts_without_price Scenario.v2env Scenario.v2config
           Scenario.pushPrice Scenario.positionA Scenario.v2world);
    reflexivity.
Defined.

(** Position A marked HODL, with the price fallen to 8, below its stop limit
    of 9: no order is placed. *)
Lemma tickerCheck_never_trades_hodl_witness :
  filter V2Ticker.isOrder
    (V2Trader.log
       (snd (V2Ticker.tickerCheck risingEnv Scenario.v2config
               Scenario.pushPrice (set_hodl Scenario.positionA true)
               Scenario.v2world)))
  = [].
Proof.
  apply (tickerCheck_never_trades_hodl risingEnv Scenario.v2config
           Scenario.pushPrice (fun _ _ => eq_refl) (fun _ _ => eq_refl)
           (set_hodl Scenario.positionA true) Scenario.v2world);
    reflexivity.
Defined.

(** The position sold at 10 is bought back for [BuyQuantity] = 50 once the
    price has dropped to 8 and goes up. *)
Lemma tickerCheck_swing_trade_witness :
  filter V2Ticker.isOrder
    (V2Trader.log
       (snd (V2Ticker.tickerCheck risingEnv swingConfig Scenario.pushPrice
               soldMemo Scenario.v2world)))
  = [MarketBuy (mkSymbol "CCC" "BUSD") 50].
Proof.
  apply (tickerCheck_swing_trade risingEnv swingConfig Scenario.pushPrice
           (fun _ _ => eq_refl) (fun _ _ => eq_refl) soldMemo 8
           Scenario.v2world);
    reflexivity.
Defined.

(** The held record of section 8 with a stop limit of 7 and a rising price:
    the stop limit becomes 9 * (1 - 0.03) = 8.73. *)
Lemma processBoughtState_only_raises_stop_limit_witness :
  exists tm' w',
    V2Trader.processBoughtState risingEnv Scenario.v2config
      (Scenario.heldMemo 7) Scenario.v2world = (Val tm', w')
    /\ stopLimitPrice tm' == 8.73.
Proof.
  destruct (processBoughtState_only_raises_stop_limit risingEnv
              Scenario.v2config (Scenario.heldMemo 7) Scenario.v2world)
    as (tm' & w' & p & Hrun & Hp & Hs & _); [simpl; lia|].
  exists tm', w'. split; [exact Hrun|].
  rewrite Hs. injection Hp as <-. vm_compute. reflexivity.
Defined.

Section StableCoinsResults.

Import V2Trader StableCoins.

Variable exchange_getFreeAsset : CoinName -> res number.
Variable getState : TradeMemo -> option TradeState.
(* the balances the exchange reports where it answers *)
Variable free : CoinName -> number.

Lemma refreshedWith_coin (b : number) (tm : TradeMemo) :
  getCoinName (refreshedWith getState b tm) = getCoinName tm.
Proof.
  unfold refreshedWith. destruct (truthy _); reflexivity.
Qed.

Lemma refreshed_coin (coins : list CoinName) (tm : TradeMemo) :
  getCoinName (refreshed free getState coins tm) = getCoinName tm.
Proof.
  unfold refreshed.
  destruct (existsb _ coins); [apply refreshedWith_coin|reflexivity].
Qed.

Lemma refreshed_names (coins : list CoinName) (l : list TradeMemo) :
  map getCoinName (map (refreshed free getState coins) l)
  = map getCoinName l.
Proof.
  rewrite map_map. apply map_ext. intros tm. apply refreshed_coin.
Qed.

Lemma refreshed_one (c : CoinName) (tm : TradeMemo) :
  refreshed free getState [c] tm
  = if String.eqb (getCoinName tm) c
    then refreshedWith getState (free (getCoinName tm)) tm else tm.
Proof.
  unfold refreshed. simpl. rewrite orb_false_r. reflexivity.
Qed.

Lemma refreshed_absent (c : CoinName) (l : list TradeMemo) :
  ~ In c (map getCoinName l) -> map (refreshed free getState [c]) l = l.
Proof.
  induction l as [|z l IH]; simpl; intros Hn; [reflexivity|].
  rewrite refreshed_one.
  destruct (String.eqb (getCoinName z) c) eqn:Hz.
  - apply String.eqb_eq in Hz. exfalso. apply Hn. left. exact Hz.
  - f_equal. apply IH. intros H. apply Hn. right. exact H.
Qed.

Lemma find_coin (c : CoinName) (l : list TradeMemo) (t : TradeMemo) :
  find (hasCoin c) l = Some t -> getCoinName t = c.
Proof.
  intros Hf. apply find_some in Hf as [_ Hh]. unfold hasCoin in Hh.
  apply String.eqb_eq, Hh.
Qed.

Lemma putTrade_refresh (c : CoinName) (l : list TradeMemo) (t : TradeMemo) :
  NoDup (map getCoinName l) ->
  find (hasCoin c) l = Some t ->
  putTrade (refreshedWith getState (free (getCoinName t)) t) l
  = map (refreshed free getState [c]) l.
Proof.
  intros Hnd Hf.
  pose proof (find_coin c l t Hf) as Hc.
  induction l as [|y l IH]; simpl in *; [discriminate|].
  inversion Hnd as [|n ns Hnotin Hnd']; subst.
  rewrite refreshed_one. unfold hasCoin in Hf |- * at 1.
  rewrite refreshedWith_coin.
  destruct (String.eqb (getCoinName y) (getCoinName t)) eqn:Hy.
  - injection Hf as <-. f_equal. symmetry. apply refreshed_absent.
    exact Hnotin.
  - f_equal. apply IH; assumption.
Qed.

Lemma find_absent (c : CoinName) (l : list TradeMemo) :
  find (hasCoin c) l = None -> map (refreshed free getState [c]) l = l.
Proof.
  intros Hf. apply refreshed_absent. intros Hin.
  apply in_map_iff in Hin as (t & Ht & Hin).
  apply (find_none _ _ Hf) in Hin. unfold hasCoin in Hin.
  rewrite Ht, String.eqb_refl in Hin. discriminate.
Qed.

Lemma find_present (c : CoinName) (l : list TradeMemo) :
  In c (map getCoinName l) -> exists t, find (hasCoin c) l = Some t.
Proof.
  intros Hin. destruct (find (hasCoin c) l) as [t|] eqn:Hf.
  - exists t. reflexivity.
  - exfalso. apply in_map_iff in Hin as (t & Ht & Hin).
    apply (find_none _ _ Hf) in Hin. unfold hasCoin in Hin.
    rewrite Ht, String.eqb_refl in Hin. discriminate.
Qed.

(** One coin whose balance the exchange reports. *)
Lemma changeTrade_refresh (c : CoinName) (w : World) :
  NoDup (map getCoinName (store w)) ->
  exchange_getFreeAsset c = Val (free c) ->
  V2TraderGas.changeTrade c
    (fun tm => tm' <- refresh exchange_getFreeAsset getState tm ;;
               ret (Some tm'))%monad w
  = (Val tt, set_store w (map (refreshed free getState [c]) (store w))).
Proof.
  intros Hnd Hval.
  unfold V2TraderGas.changeTrade, refresh, setTrade, bind, get, modify, lift,
    ret.
  destruct (find (hasCoin c) (store w)) as [t|] eqn:Hf.
  - rewrite (find_coin c _ t Hf), Hval.
    rewrite <- (putTrade_refresh c _ t Hnd Hf).
    rewrite (find_coin c _ t Hf). unfold refreshedWith.
    destruct (truthy (free c)); reflexivity.
  - rewrite (find_absent c _ Hf). destruct w; reflexivity.
Qed.

(** One coin on which the exchange throws: nothing is written. *)
Lemma changeTrade_throws (c : CoinName) (w : World) (e : string) :
  In c (map getCoinName (store w)) ->
  exchange_getFreeAsset c = Throw e ->
  V2TraderGas.changeTrade c
    (fun tm => tm' <- refresh exchange_getFreeAsset getState tm ;;
               ret (Some tm'))%monad w
  = (Throw e, w).
Proof.
  intros Hin Hthrow. destruct (find_present c _ Hin) as [t Hf].
  unfold V2TraderGas.changeTrade, refresh, bind, get, lift.
  rewrite Hf, (find_coin c _ t Hf), Hthrow. reflexivity.
Qed.

Lemma refreshed_cons (c : CoinName) (coins : list CoinName)
    (tm : TradeMemo) :
  ~ In c coins ->
  refreshed free getState coins (refreshed free getState [c] tm)
  = refreshed free getState (c :: coins) tm.
Proof.
  intros Hn. rewrite refreshed_one. unfold refreshed. simpl.
  destruct (String.eqb (getCoinName tm) c) eqn:Hc; simpl; [|reflexivity].
  rewrite refreshedWith_coin.
  destruct (existsb (String.eqb (getCoinName tm)) coins) eqn:He;
    [|reflexivity].
  apply existsb_exists in He as (x & Hx & Hex).
  apply String.eqb_eq in Hc, Hex. subst. contradiction.
Qed.

Lemma refreshed_snoc (c : CoinName) (coins : list CoinName)
    (tm : TradeMemo) :
  ~ In c coins ->
  refreshed free getState [c] (refreshed free getState coins tm)
  = refreshed free getState (coins ++ [c]) tm.
Proof.
  intros Hn. rewrite refreshed_one, refreshed_coin. unfold refreshed.
  rewrite existsb_app. simpl. rewrite orb_false_r.
  destruct (String.eqb (getCoinName tm) c) eqn:Hc.
  - destruct (existsb (String.eqb (getCoinName tm)) coins) eqn:He.
    + apply existsb_exists in He as (x & Hx & Hex).
      apply String.eqb_eq in Hc, Hex. subst. contradiction.
    + reflexivity.
  - rewrite orb_false_r. reflexivity.
Qed.

(** The loop over coins whose balances the exchange reports. *)
Lemma update_reported (coins : list CoinName) (w : World) :
  NoDup coins ->
  NoDup (map getCoinName (store w)) ->
  (forall c, In c coins -> exchange_getFreeAsset c = Val (free c)) ->
  updateStableCoinsBalance coins exchange_getFreeAsset getState w
  = (Val tt, set_store w (map (refreshed free getState coins) (store w))).
Proof.
  unfold updateStableCoinsBalance. revert w.
  induction coins as [|c coins IH]; intros w Hc Hnd Hval.
  - simpl. unfold ret. f_equal. destruct w as [st cf lg].
    unfold set_store. cbn [store storeConfig log]. f_equal.
    symmetry. apply map_id.
  - inversion Hc as [|c' cs Hnotin Hc']; subst.
    simpl forEach.
    rewrite (bind_val _ _ _ _ _
               (changeTrade_refresh c w Hnd (Hval c (or_introl eq_refl)))).
    rewrite IH.
    + cbn [store set_store]. f_equal. unfold set_store. cbn.
      f_equal. rewrite map_map. apply map_ext.
      intros tm. apply refreshed_cons, Hnotin.
    + exact Hc'.
    + cbn [store set_store]. rewrite refreshed_names. exact Hnd.
    + intros x Hx. apply Hval. right. exact Hx.
Qed.

Lemma forEach_app {St A} (f : A -> M St unit) (l1 l2 : list A) (s s1 : St) :
  forEach f l1 s = (Val tt, s1) ->
  forEach f (l1 ++ l2) s = forEach f l2 s1.
Proof.
  revert s. induction l1 as [|x l1 IH]; intros s H; simpl in *.
  - unfold ret in H. injection H as <-. reflexivity.
  - unfold bind in *. destruct (f x s) as [[[]|e] s']; [|discriminate].
    apply IH, H.
Qed.

(** X25.  [updateStableCoinsBalance] of the later copy, with distinct stable
    coins and a store with one record per coin.  When the exchange reports
    the free balance of every stable coin, it returns normally and rewrites
    exactly the records of the stable coins: one with a non-zero free balance
    gets that balance as its quantity, is marked as coming from the exchange
    and HODL, and is given the state [getState] returns, or BOUGHT when it
    returns none; one without is marked deleted and otherwise kept.  The
    other records, the order of the store and the log are untouched.  When
    the exchange throws on a stable coin that has a record, the update throws
    at that coin: the coins before it are done, the record of that coin and
    those after it are left as they were. *)
Theorem updateStableCoinsBalance_refreshes (stableCoins : list CoinName)
    (w : World) :
  NoDup stableCoins ->
  NoDup (map getCoinName (store w)) ->
  ((forall c, In c stableCoins -> exchange_getFreeAsset c = Val (free c)) ->
   updateStableCoinsBalance stableCoins exchange_getFreeAsset getState w
   = (Val tt,
      set_store w (map (refreshed free getState stableCoins) (store w)))
   /\ (forall tm, In tm (store w) ->
         In (getCoinName tm) stableCoins ->
         exists tm',
           In tm' (store (snd (updateStableCoinsBalance stableCoins
                                 exchange_getFreeAsset getState w)))
           /\ getCoinName tm' = getCoinName tm
           /\ if truthy (free (getCoinName tm))
              then state tm'
                   = match getState tm with
                     | Some st => st
                     | None => BOUGHT
                     end
                   /\ quantity (tradeResult tm') = free (getCoinName tm)
                   /\ fromExchange (tradeResult tm') = true
                   /\ hodl tm' = true /\ deleted tm' = deleted tm
              else deleted tm' = true /\ tradeResult tm' = tradeResult tm
                   /\ state tm' = state tm /\ hodl tm' = hodl tm))
  /\ (forall l1 c l2 e,
        stableCoins = l1 ++ c :: l2 ->
        (forall x, In x l1 -> exchange_getFreeAsset x = Val (free x)) ->
        In c (map getCoinName (store w)) ->
        exchange_getFreeAsset c = Throw e ->
        updateStableCoinsBalance stableCoins exchange_getFreeAsset getState w
        = (Throw e,
           set_store w (map (refreshed free getState l1) (store w)))).
Proof.
  intros Hc Hnd. split.
  - intros Hval.
    pose proof (update_reported stableCoins w Hc Hnd Hval) as Hrun.
    split; [exact Hrun|].
    intros tm Hin Hs. rewrite Hrun. cbn [snd store set_store].
    exists (refreshed free getState stableCoins tm).
    split; [apply in_map, Hin|].
    unfold refreshed.
    assert (He : existsb (String.eqb (getCoinName tm)) stableCoins = true).
    { apply existsb_exists. exists (getCoinName tm).
      split; [exact Hs|apply String.eqb_refl]. }
    rewrite He. split; [apply refreshedWith_coin|].
    unfold refreshedWith.
    destruct (truthy (free (getCoinName tm))); cbn;
      repeat split; reflexivity.
  - intros l1 c l2 e -> Hval Hin Hthrow.
    assert (Hc1 : NoDup l1) by (apply NoDup_app_remove_r in Hc; exact Hc).
    pose proof (update_reported l1 w Hc1 Hnd Hval) as Hrun.
    unfold updateStableCoinsBalance in *.
    rewrite (forEach_app _ l1 (c :: l2) w _ Hrun).
    simpl forEach. apply bind_throw.
    apply changeTrade_throws; [|exact Hthrow].
    cbn [store set_store]. rewrite refreshed_names. exact Hin.
Qed.

End StableCoinsResults.

(** The BUSD record takes the free balance of 25; position A is kept. *)
Lemma updateStableCoinsBalance_refreshes_witness :
  exists w',
    StableCoins.updateStableCoinsBalance ["BUSD"; "USDT"]%string
      askFreeAssets (fun tm => Some (state tm)) walletWorld = (Val tt, w')
    /\ map (fun t => quantity (tradeResult t)) (V2Trader.store w') = [25; 10]
    /\ map hodl (V2Trader.store w') = [true; false].
Proof.
  destruct (updateStableCoinsBalance_refreshes askFreeAssets
              (fun tm => Some (state tm)) freeAssets
              ["BUSD"; "USDT"]%string walletWorld) as [Hrun _].
  - repeat constructor; simpl; intuition discriminate.
  - repeat constructor; simpl; intuition discriminate.
  - destruct (Hrun (fun c _ => eq_refl)) as [Heq _].
    eexists. split; [exact Heq|]. split; reflexivity.
Defined.

Section ConfigResults.

Import ConfigDao.

Lemma assign_ofConfig (d c : Config) : assign d (ofConfig c) = c.
Proof. destruct c. reflexivity. Qed.

(** X17.  [ConfigDao]: reading after [set c] gives [c] back; reading an
    empty store gives [DefaultConfig] and initialises the store; after any
    read the store is initialised and a second read gives the same; keys
    missing from the stored object take their default value. *)
Theorem configDao_round_trip (c : Config) (s : Store) :
  get_ (snd (set_ c s)) = (Val c, Some (ofConfig c))
  /\ get_ None = (Val DefaultConfig, Some (ofConfig DefaultConfig))
  /\ fst (isInitialized (snd (get_ s))) = Val true
  /\ get_ (snd (get_ s)) = get_ s
  /\ (forall o, s = Some o ->
        get_ s = (Val (assign DefaultConfig o), s)).
Proof.
  unfold get_, set_, getOrSet, isInitialized, bind, get, modify, ret.
  cbn. rewrite assign_ofConfig. repeat split.
  - destruct s; reflexivity.
  - destruct s; reflexivity.
  - intros o ->. reflexivity.
Qed.

End ConfigResults.

Section WithdrawalResults.

Import WithdrawalsManager.

Variable exchange_getBalance : string -> number.

Lemma get_reads (w : W) :
  onConfig ConfigDao.get_ w
  = (Val (configOf w),
     mkW (Some (match configStore w with
                | Some o => o
                | None => ConfigDao.ofConfig DefaultConfig
                end)) (withdrawals w)).
Proof.
  unfold onConfig, configOf, ConfigDao.get_, ConfigDao.getOrSet, bind, get,
    modify, ret.
  destruct (configStore w); reflexivity.
Qed.

Lemma configOf_after_get (w : W) :
  configOf (snd (onConfig ConfigDao.get_ w)) = configOf w.
Proof.
  rewrite get_reads. unfold configOf. cbn [snd configStore].
  destruct (configStore w); reflexivity.
Qed.

Lemma addWithdrawal_run (amount : number) (w : W) :
  addWithdrawal exchange_getBalance amount w
  = let w1 := snd (onConfig ConfigDao.get_ w) in
    if Qltb (StableBalance (configOf w)) amount then
      (Throw "Withdrawal amount is greater than the current balance.", w1)
    else if Qltb (exchange_getBalance (StableCoin (configOf w))) amount then
      (Throw "Withdrawal amount is greater than the factual balance on the exchange",
       w1)
    else
      (Val (amount, StableBalance (configOf w) - amount),
       mkW (Some (ConfigDao.ofConfig
                    (set_StableBalance (configOf w)
                       (StableBalance (configOf w) - amount))))
         (amount :: withdrawals w)).
Proof.
  pose proof (configOf_after_get w) as Hc.
  unfold addWithdrawal.
  rewrite (bind_val _ _ _ _ _ (get_reads w)).
  rewrite get_reads in Hc |- *. cbn [snd] in Hc |- *. cbv zeta.
  destruct (Qltb (StableBalance (configOf w)) amount); [reflexivity|].
  destruct (Qltb (exchange_getBalance (StableCoin (configOf w))) amount);
    [reflexivity|].
  rewrite (bind_val _ _ _ _ _ (get_reads _)). rewrite Hc.
  reflexivity.
Qed.

(** X18.  [addWithdrawal] succeeds exactly when the amount is at most the
    stored stable balance and at most the balance on the exchange.  It then
    returns the amount and the new balance, stores the balance reduced by the
    amount, which is never negative, and records the withdrawal; otherwise it
    throws, and neither the configuration read back nor the recorded
    withdrawals change. *)
Theorem addWithdrawal_never_overdraws (amount : number) (w : W) :
  (amount <= StableBalance (configOf w)
   /\ amount <= exchange_getBalance (StableCoin (configOf w)) ->
   fst (addWithdrawal exchange_getBalance amount w)
   = Val (amount, StableBalance (configOf w) - amount)
   /\ configOf (snd (addWithdrawal exchange_getBalance amount w))
      = set_StableBalance (configOf w) (StableBalance (configOf w) - amount)
   /\ withdrawals (snd (addWithdrawal exchange_getBalance amount w))
      = amount :: withdrawals w
   /\ 0 <= StableBalance
             (configOf (snd (addWithdrawal exchange_getBalance amount w))))
  /\ (~ (amount <= StableBalance (configOf w)
         /\ amount <= exchange_getBalance (StableCoin (configOf w))) ->
      (exists e, fst (addWithdrawal exchange_getBalance amount w) = Throw e)
      /\ configOf (snd (addWithdrawal exchange_getBalance amount w))
         = configOf w
      /\ withdrawals (snd (addWithdrawal exchange_getBalance amount w))
         = withdrawals w).
Proof.
  pose proof (configOf_after_get w) as Hc.
  rewrite addWithdrawal_run. cbv zeta.
  destruct (Qltb (StableBalance (configOf w)) amount) eqn:H1.
  - split.
    + intros [Ha _]. apply Qltb_true in H1.
      exfalso. exact (Qlt_not_le _ _ H1 Ha).
    + intros _. split; [eexists; reflexivity|]. split; [exact Hc|].
      rewrite get_reads. reflexivity.
  - destruct (Qltb (exchange_getBalance (StableCoin (configOf w))) amount)
      eqn:H2.
    + split.
      * intros [_ Hb]. apply Qltb_true in H2.
        exfalso. exact (Qlt_not_le _ _ H2 Hb).
      * intros _. split; [eexists; reflexivity|]. split; [exact Hc|].
        rewrite get_reads. reflexivity.
    + apply Qltb_false in H1, H2. split.
      * intros _. cbn [fst snd withdrawals].
        assert (Hnew :
          configOf
            (mkW (Some (ConfigDao.ofConfig
                          (set_StableBalance (configOf w)
                             (StableBalance (configOf w) - amount))))
               (amount :: withdrawals w))
          = set_StableBalance (configOf w)
              (StableBalance (configOf w) - amount))
          by apply assign_ofConfig.
        rewrite Hnew. repeat split.
        cbn [StableBalance set_StableBalance]. lra.
      * intros Hn. exfalso. apply Hn. split; assumption.
Qed.

End WithdrawalResults.

Lemma addWithdrawal_never_overdraws_witness :
  fst (WithdrawalsManager.addWithdrawal (fun _ => 100) 30 fundedStore)
  = Val (30, 100 - 30)
  /\ exists e,
       fst (WithdrawalsManager.addWithdrawal (fun _ => 100) 130 fundedStore)
       = Throw e.
Proof.
  split.
  - apply (addWithdrawal_never_overdraws (fun _ => 100) 30 fundedStore).
    split; vm_compute; discriminate.
  - apply (addWithdrawal_never_overdraws (fun _ => 100) 130 fundedStore).
    intros [H _]. vm_compute in H. apply H. reflexivity.
Defined.

Section StopLossResults.

Import StopLossTrader.

Variable exchange_marketBuy : ExchangeSymbol -> number -> Result.
Variable exchange_marketSell : ExchangeSymbol -> Result.
Variable exchange_getPrice : ExchangeSymbol -> number.
Variable lossLimit : number.

Lemma store_get_set (key : string) (m : Memo) (l : list (string * Memo)) :
  store_get key (store_set key m l) = Some m.
Proof.
  unfold store_get. induction l as [|kv l IH]; simpl.
  - rewrite String.eqb_refl. reflexivity.
  - destruct (String.eqb (fst kv) key) eqn:Hk; simpl.
    + rewrite String.eqb_refl. reflexivity.
    + rewrite Hk. exact IH.
Qed.

Lemma store_get_delete (key : string) (l : list (string * Memo)) :
  store_get key (store_delete key l) = None.
Proof.
  unfold store_get, store_delete. induction l as [|kv l IH]; simpl.
  - reflexivity.
  - destruct (String.eqb (fst kv) key) eqn:Hk; simpl.
    + exact IH.
    + rewrite Hk. exact IH.
Qed.

Lemma prefix_tradeKey (sym : ExchangeSymbol) :
  String.prefix "trade/" (tradeKey sym) = true.
Proof. unfold tradeKey. simpl. destruct (quantityAsset sym); reflexivity. Qed.

Lemma readTradeMemo_tradeKey (sym : ExchangeSymbol) (s : S) :
  readTradeMemo (tradeKey sym) s
  = (Val (store_get (tradeKey sym) (entries s)), s).
Proof.
  unfold readTradeMemo, bind, get, ret. rewrite prefix_tradeKey. reflexivity.
Qed.

(** X19.  [stopLossSell] on a tracked asset whose price is above its stop
    loss price keeps the asset and sends nothing to the exchange; the stop
    loss price stored afterwards is at least the previous one and at least
    [price * (1 - lossLimit)], and (for a loss limit and a price that are not
    negative) at most the current price; the trade result is kept. *)
Theorem stopLossSell_keeps_and_ratchets (sym : ExchangeSymbol) (tm : Memo)
    (s : S) :
  store_get (tradeKey sym) (entries s) = Some tm ->
  stopLossPrice tm < exchange_getPrice sym ->
  0 <= lossLimit ->
  0 <= exchange_getPrice sym ->
  exists s' tm',
    stopLossSell exchange_marketSell exchange_getPrice lossLimit sym s
    = (Val (fromMsg sym "Asset kept."), s')
    /\ filter isExchangeOrder (events s') = filter isExchangeOrder (events s)
    /\ store_get (tradeKey sym) (entries s') = Some tm'
    /\ memoResult tm' = memoResult tm
    /\ stopLossPrice tm <= stopLossPrice tm'
    /\ exchange_getPrice sym * (1 - lossLimit) <= stopLossPrice tm'
    /\ stopLossPrice tm' <= exchange_getPrice sym.
Proof.
  intros Hget Hlt HL Hp.
  unfold stopLossSell.
  rewrite (bind_val _ _ _ _ _ (readTradeMemo_tradeKey sym s)). rewrite Hget.
  assert (Hle : Qle_bool (exchange_getPrice sym) (stopLossPrice tm) = false).
  { destruct (Qle_bool _ _) eqn:Hb; [|reflexivity].
    apply Qle_bool_iff in Hb. exfalso. exact (Qlt_not_le _ _ Hlt Hb). }
  rewrite Hle. unfold saveTradeMemo, logEv, bind, modify, ret.
  eexists. eexists. split; [reflexivity|].
  cbn [entries events filter isExchangeOrder].
  split; [reflexivity|]. split; [apply store_get_set|].
  cbn [memoResult stopLossPrice]. split; [reflexivity|].
  destruct (Qltb (stopLossPrice tm) (exchange_getPrice sym * (1 - lossLimit)))
    eqn:Hb.
  - apply Qltb_true in Hb. repeat split.
    + apply Qlt_le_weak, Hb.
    + apply Qle_refl.
    + nra.
  - apply Qltb_false in Hb. repeat split.
    + apply Qle_refl.
    + exact Hb.
    + apply Qlt_le_weak, Hlt.
Qed.

(** X20.  [stopLossSell] on a tracked asset whose price is at or below its
    stop loss price sends one sell order.  When the exchange confirms, the
    profit is [gained - paid], the asset is no longer tracked and a further
    [stopLossSell] answers that the asset is not present, without any order;
    when it refuses, the stored entries are as before. *)
Theorem stopLossSell_sells_at_stop_loss (sym : ExchangeSymbol) (tm : Memo)
    (s : S) :
  store_get (tradeKey sym) (entries s) = Some tm ->
  exchange_getPrice sym <= stopLossPrice tm ->
  exists r s',
    stopLossSell exchange_marketSell exchange_getPrice lossLimit sym s
    = (Val r, s')
    /\ filter isExchangeOrder (events s')
       = OrderSell sym :: filter isExchangeOrder (events s)
    /\ (if fromExchange (res (exchange_marketSell sym))
        then r = mkResult
                   (set_profit (res (exchange_marketSell sym))
                      (gained (res (exchange_marketSell sym))
                       - paid (res (memoResult tm))))
                   "Asset sold."
             /\ store_get (tradeKey sym) (entries s') = None
             /\ stopLossSell exchange_marketSell exchange_getPrice lossLimit
                  sym s'
                = (Val (fromMsg sym "Asset is not present"), s')
        else r = exchange_marketSell sym /\ entries s' = entries s).
Proof.
  intros Hget Hle.
  unfold stopLossSell at 1.
  rewrite (bind_val _ _ _ _ _ (readTradeMemo_tradeKey sym s)). rewrite Hget.
  apply Qle_bool_iff in Hle. rewrite Hle.
  unfold deleteTradeMemo, logEv, bind, modify, ret.
  destruct (fromExchange (res (exchange_marketSell sym))).
  - eexists. eexists. split; [reflexivity|]. split; [reflexivity|].
    split; [reflexivity|]. cbn [entries]. split; [apply store_get_delete|].
    unfold stopLossSell.
    rewrite (bind_val _ _ _ _ _ (readTradeMemo_tradeKey sym _)).
    cbn [entries]. rewrite store_get_delete. reflexivity.
  - eexists. eexists. split; [reflexivity|]. split; [reflexivity|].
    split; reflexivity.
Qed.

(** X21.  [buy] never buys a tracked asset: it returns the stored result
    marked as not from the exchange and changes nothing.  For an asset that
    is not tracked it sends one buy order; a confirmed purchase is tracked
    with a stop loss price of [price * (1 - lossLimit)], the watcher is
    restarted, and a further [buy] of the asset changes nothing; a refused
    purchase stores nothing. *)
Theorem buy_tracks_once (sym : ExchangeSymbol) (quantity : number) (s : S) :
  (forall tm,
     store_get (tradeKey sym) (entries s) = Some tm ->
     buy exchange_marketBuy lossLimit sym quantity s
     = (Val (mkResult (set_fromExchange (res (memoResult tm)) false)
               "Not buying. Asset is already tracked."), s))
  /\ (store_get (tradeKey sym) (entries s) = None ->
      exists s',
        buy exchange_marketBuy lossLimit sym quantity s
        = (Val (exchange_marketBuy sym quantity), s')
        /\ filter isExchangeOrder (events s')
           = OrderBuy sym quantity :: filter isExchangeOrder (events s)
        /\ (if fromExchange (res (exchange_marketBuy sym quantity))
            then store_get (tradeKey sym) (entries s')
                 = Some (mkMemo (exchange_marketBuy sym quantity)
                           (price (res (exchange_marketBuy sym quantity))
                            * (1 - lossLimit)))
                 /\ In WatcherRestart (events s')
                 /\ forall q,
                      snd (buy exchange_marketBuy lossLimit sym q s') = s'
            else s' = mkS (entries s) (OrderBuy sym quantity :: events s))).
Proof.
  split.
  - intros tm Hget. unfold buy.
    rewrite (bind_val _ _ _ _ _ (readTradeMemo_tradeKey sym s)). rewrite Hget.
    reflexivity.
  - intros Hget. unfold buy at 1.
    rewrite (bind_val _ _ _ _ _ (readTradeMemo_tradeKey sym s)). rewrite Hget.
    unfold saveTradeMemo, logEv, bind, modify, ret.
    destruct (fromExchange (res (exchange_marketBuy sym quantity))) eqn:Hf.
    + eexists. split; [reflexivity|]. split; [reflexivity|].
      cbn [entries events]. split; [apply store_get_set|].
      split; [right; left; reflexivity|].
      intros q. unfold buy.
      rewrite (bind_val _ _ _ _ _ (readTradeMemo_tradeKey sym _)).
      cbn [entries]. rewrite store_get_set. reflexivity.
    + eexists. split; [reflexivity|]. split; reflexivity.
Qed.

(** X22.  [sell] on a tracked asset refuses, changing nothing, when the
    price is above the product of the paid price and 1.01 as the machine
    computes it (rounded).  Otherwise, when the exchange refuses the sale,
    the asset stays tracked with its stop loss price at
    [Number.MAX_SAFE_INTEGER], so that the next [stopLossSell] sends a sell
    order again (for any price up to that number). *)
Theorem sell_guards_and_arms (fmul : number -> number -> number)
    (sym : ExchangeSymbol) (tm : Memo) (s : S) :
  store_get (tradeKey sym) (entries s) = Some tm ->
  (fmul (price (res (memoResult tm))) 1.01 < exchange_getPrice sym ->
   exists m,
     sell exchange_marketSell exchange_getPrice fmul sym s
     = (Val (fromMsg sym m), s))
  /\ (exchange_getPrice sym <= fmul (price (res (memoResult tm))) 1.01 ->
      fromExchange (res (exchange_marketSell sym)) = false ->
      exchange_getPrice sym <= MAX_SAFE_INTEGER ->
      exists s',
        sell exchange_marketSell exchange_getPrice fmul sym s
        = (Val (exchange_marketSell sym), s')
        /\ store_get (tradeKey sym) (entries s')
           = Some (mkMemo (memoResult tm) MAX_SAFE_INTEGER)
        /\ filter isExchangeOrder (events s')
           = OrderSell sym :: filter isExchangeOrder (events s)
        /\ filter isExchangeOrder
             (events
                (snd (stopLossSell exchange_marketSell exchange_getPrice
                        lossLimit sym s')))
           = OrderSell sym :: OrderSell sym
             :: filter isExchangeOrder (events s)).
Proof.
  intros Hget. split.
  - intros Hlt. unfold sell.
    rewrite (bind_val _ _ _ _ _ (readTradeMemo_tradeKey sym s)). rewrite Hget.
    apply Qltb_true in Hlt. rewrite Hlt. eexists. reflexivity.
  - intros Hle Hf Hmax. unfold sell.
    rewrite (bind_val _ _ _ _ _ (readTradeMemo_tradeKey sym s)). rewrite Hget.
    apply Qltb_false in Hle. rewrite Hle.
    unfold saveTradeMemo, deleteTradeMemo, logEv, bind, modify, ret.
    rewrite Hf.
    eexists. split; [reflexivity|]. cbn [entries events].
    split; [apply store_get_set|]. split; [reflexivity|].
    unfold stopLossSell.
    rewrite (bind_val _ _ _ _ _ (readTradeMemo_tradeKey sym _)).
    cbn [entries]. rewrite store_get_set. cbn [stopLossPrice].
    apply Qle_bool_iff in Hmax. rewrite Hmax.
    unfold deleteTradeMemo, logEv, bind, modify, ret. rewrite Hf.
    reflexivity.
Qed.

End StopLossResults.

(** At a price of 110 and a loss limit of 3% the tracked asset is kept. *)
Lemma stopLossSell_keeps_and_ratchets_witness :
  exists s' tm',
    StopLossTrader.stopLossSell refusedSale (fun _ => 110) 0.03 ABC
      trackedStore
    = (Val (StopLossTrader.fromMsg ABC "Asset kept."), s')
    /\ filter StopLossTrader.isExchangeOrder (StopLossTrader.events s')
       = filter StopLossTrader.isExchangeOrder
           (StopLossTrader.events trackedStore)
    /\ StopLossTrader.store_get (StopLossTrader.tradeKey ABC)
         (StopLossTrader.entries s') = Some tm'
    /\ StopLossTrader.memoResult tm' = boughtAt100
    /\ 97 <= StopLossTrader.stopLossPrice tm'
    /\ 110 * (1 - 0.03) <= StopLossTrader.stopLossPrice tm'
    /\ StopLossTrader.stopLossPrice tm' <= 110.
Proof.
  apply (stopLossSell_keeps_and_ratchets refusedSale (fun _ => 110) 0.03 ABC
           (StopLossTrader.mkMemo boughtAt100 97) trackedStore).
  - reflexivity.
  - reflexivity.
  - vm_compute. discriminate.
  - vm_compute. discriminate.
Defined.

(** At a price of 95 the exchange is asked to sell; it refuses and the entry
    stays. *)
Lemma stopLossSell_sells_at_stop_loss_witness :
  exists r s',
    StopLossTrader.stopLossSell refusedSale (fun _ => 95) 0.03 ABC
      trackedStore = (Val r, s')
    /\ filter StopLossTrader.isExchangeOrder (StopLossTrader.events s')
       = [StopLossTrader.OrderSell ABC]
    /\ r = refusedSale ABC
    /\ StopLossTrader.entries s' = StopLossTrader.entries trackedStore.
Proof.
  apply (stopLossSell_sells_at_stop_loss refusedSale (fun _ => 95) 0.03 ABC
           (StopLossTrader.mkMemo boughtAt100 97) trackedStore).
  - reflexivity.
  - vm_compute. discriminate.
Defined.

(** A manual sale at 95 that the exchange refuses leaves the stop loss at the
    largest safe integer. *)
Lemma sell_guards_and_arms_witness :
  exists s',
    StopLossTrader.sell refusedSale (fun _ => 95) Qmult ABC trackedStore
    = (Val (refusedSale ABC), s')
    /\ StopLossTrader.store_get (StopLossTrader.tradeKey ABC)
         (StopLossTrader.entries s')
       = Some (StopLossTrader.mkMemo boughtAt100
                 StopLossTrader.MAX_SAFE_INTEGER)
    /\ filter StopLossTrader.isExchangeOrder (StopLossTrader.events s')
       = [StopLossTrader.OrderSell ABC]
    /\ filter StopLossTrader.isExchangeOrder
         (StopLossTrader.events
            (snd (StopLossTrader.stopLossSell refusedSale (fun _ => 95) 0.03
                    ABC s')))
       = [StopLossTrader.OrderSell ABC; StopLossTrader.OrderSell ABC].
Proof.
  apply (sell_guards_and_arms refusedSale (fun _ => 95) 0.03 Qmult ABC
           (StopLossTrader.mkMemo boughtAt100 97) trackedStore eq_refl).
  - vm_compute. discriminate.
  - reflexivity.
  - vm_compute. discriminate.
Defined.

Section ViewResults.

Lemma TradeState_eqb_eq (a b : TradeState) :
  TradeState_eqb a b = true <-> a = b.
Proof. destruct a, b; simpl; split; congruence. Qed.

Lemma TradeState_eqb_refl (a : TradeState) : TradeState_eqb a a = true.
Proof. destruct a; reflexivity. Qed.

Import Assets.

Lemma map_has_get (s : TradeState) (m : TradesMap) :
  map_has s m = match map_get s m with Some _ => true | None => false end.
Proof.
  unfold map_has, map_get. induction m as [|kv m IH]; simpl; [reflexivity|].
  destruct (TradeState_eqb (fst kv) s); [reflexivity|exact IH].
Qed.

Lemma map_get_push (s s' : TradeState) (tm : TradeMemo) (m : TradesMap) :
  map_get s (map_push s' tm m)
  = if TradeState_eqb s' s
    then option_map (fun l => l ++ [tm]) (map_get s m)
    else map_get s m.
Proof.
  unfold map_get. induction m as [|kv m IH]; simpl.
  - destruct (TradeState_eqb s' s); reflexivity.
  - destruct (TradeState_eqb (fst kv) s') eqn:H1; simpl.
    + apply TradeState_eqb_eq in H1. rewrite H1.
      destruct (TradeState_eqb s' s); reflexivity.
    + destruct (TradeState_eqb (fst kv) s) eqn:H2; simpl.
      * destruct (TradeState_eqb s' s) eqn:H3; [|reflexivity].
        apply TradeState_eqb_eq in H2, H3. subst.
        rewrite TradeState_eqb_refl in H1. discriminate.
      * exact IH.
Qed.

Lemma map_get_snoc (s s' : TradeState) (l : list TradeMemo) (m : TradesMap) :
  map_get s (m ++ [(s', l)])
  = match map_get s m with
    | Some x => Some x
    | None => if TradeState_eqb s' s then Some l else None
    end.
Proof.
  unfold map_get. induction m as [|kv m IH]; simpl.
  - destruct (TradeState_eqb s' s); reflexivity.
  - destruct (TradeState_eqb (fst kv) s); [reflexivity|exact IH].
Qed.

Lemma groupStep_get (s : TradeState) (tm : TradeMemo) (m : TradesMap) :
  map_get s (groupStep m tm)
  = if TradeState_eqb (state tm) s
    then Some (match map_get s m with Some l => l ++ [tm] | None => [tm] end)
    else map_get s m.
Proof.
  unfold groupStep. rewrite map_has_get.
  destruct (map_get (state tm) m) eqn:Hg.
  - rewrite map_get_push.
    destruct (TradeState_eqb (state tm) s) eqn:Hs; [|reflexivity].
    apply TradeState_eqb_eq in Hs. subst s. rewrite Hg. reflexivity.
  - rewrite map_get_snoc.
    destruct (TradeState_eqb (state tm) s) eqn:Hs.
    + apply TradeState_eqb_eq in Hs. subst s. rewrite Hg. reflexivity.
    + destruct (map_get s m); reflexivity.
Qed.

Lemma tradesMap_get (s : TradeState) (trades : list TradeMemo) :
  map_get s (tradesMap trades)
  = groupOf (filter (fun t => stateIs t s) trades).
Proof.
  unfold tradesMap.
  induction trades as [|tm trades IH] using rev_ind; [reflexivity|].
  rewrite fold_left_app, filter_app. simpl fold_left. simpl filter.
  rewrite groupStep_get, IH.
  change (stateIs tm s) with (TradeState_eqb (state tm) s).
  destruct (TradeState_eqb (state tm) s).
  - destruct (filter _ trades); reflexivity.
  - rewrite app_nil_r. reflexivity.
Qed.

End ViewResults.

(** *** The sort of the views *)

Section SortSorted.

Variable A : Type.
Variable cmp : A -> A -> Z.
Variable le : A -> A -> Prop.

Hypothesis cmp_neg : forall x y, (cmp x y <? 0)%Z = true -> le x y.
Hypothesis cmp_pos : forall x y, (cmp x y <? 0)%Z = false -> le y x.
Hypothesis le_trans : forall x y z, le x y -> le y z -> le x z.

Lemma insertBy_perm (x : A) (l : list A) :
  Permutation (x :: l) (insertBy cmp x l).
Proof.
  induction l as [|y l IH]; simpl; [reflexivity|].
  destruct (cmp x y <? 0)%Z; [reflexivity|].
  rewrite perm_swap. apply perm_skip, IH.
Qed.

Lemma insertBy_sorted (x : A) (l : list A) :
  StronglySorted le l -> StronglySorted le (insertBy cmp x l).
Proof.
  induction l as [|y l IH]; intros Hs; simpl.
  - constructor; constructor.
  - inversion Hs as [|y' l' Hs' Hall]; subst.
    destruct (cmp x y <? 0)%Z eqn:Hc.
    + constructor; [exact Hs|]. constructor; [apply cmp_neg, Hc|].
      eapply Forall_impl; [|exact Hall].
      intros z Hz. eapply le_trans; [apply cmp_neg, Hc|exact Hz].
    + constructor; [apply IH, Hs'|].
      eapply Permutation_Forall; [apply insertBy_perm|].
      constructor; [apply cmp_pos, Hc|exact Hall].
Qed.

Lemma fold_insertBy (l acc : list A) :
  StronglySorted le acc ->
  Permutation (l ++ acc) (fold_left (fun a x => insertBy cmp x a) l acc)
  /\ StronglySorted le (fold_left (fun a x => insertBy cmp x a) l acc).
Proof.
  revert acc. induction l as [|x l IH]; intros acc Hs; simpl.
  - split; [reflexivity|exact Hs].
  - destruct (IH (insertBy cmp x acc) (insertBy_sorted x acc Hs)) as [Hp Hs'].
    split; [|exact Hs'].
    rewrite <- Hp. rewrite <- insertBy_perm. apply Permutation_middle.
Qed.

Lemma jsSort_sorted (l : list A) :
  Permutation l (jsSort cmp l) /\ StronglySorted le (jsSort cmp l).
Proof.
  unfold jsSort.
  destruct (fold_insertBy l [] (SSorted_nil le)) as [Hp Hs].
  rewrite app_nil_r in Hp. split; assumption.
Qed.

Lemma filter_sorted (f : A -> bool) (l : list A) :
  StronglySorted le l -> StronglySorted le (filter f l).
Proof.
  induction 1 as [|x l Hs IH Hall]; simpl; [constructor|].
  destruct (f x); [|exact IH].
  constructor; [exact IH|].
  apply Forall_forall. intros y Hy. apply filter_In in Hy as [Hy _].
  rewrite Forall_forall in Hall. apply Hall, Hy.
Qed.

End SortSorted.

Section ViewTheorems.

Lemma byTtl_neg (x y : TradeMemo) :
  (Home.byTtl x y <? 0)%Z = true -> (ttl x <= ttl y)%Z.
Proof.
  unfold Home.byTtl. destruct (Z.ltb_spec (ttl y) (ttl x)); simpl; intros;
    [discriminate|assumption].
Qed.

Lemma byTtl_pos (x y : TradeMemo) :
  (Home.byTtl x y <? 0)%Z = false -> (ttl y <= ttl x)%Z.
Proof.
  unfold Home.byTtl. destruct (Z.ltb_spec (ttl y) (ttl x)); simpl; intros;
    [lia|discriminate].
Qed.

(** X24.  The home view sorts the assets by ascending [ttl] without losing
    or adding any; the Current and Sold lists are in that order; Sold holds
    exactly the records in SOLD state, Current exactly those with a non-zero
    current value or in BUY state. *)
Theorem home_lists_sorted_by_ttl (currentValue : TradeMemo -> number)
    (assets : list TradeMemo) :
  Permutation assets (Home.sorted assets)
  /\ StronglySorted (fun a b => (ttl a <= ttl b)%Z)
       (Home.current currentValue assets)
  /\ StronglySorted (fun a b => (ttl a <= ttl b)%Z) (Home.sold assets)
  /\ (forall t, In t (Home.sold assets) <-> In t assets /\ state t = SOLD)
  /\ (forall t, In t (Home.current currentValue assets) <->
                In t assets /\ (~ currentValue t == 0 \/ state t = BUY)).
Proof.
  destruct (jsSort_sorted TradeMemo Home.byTtl
              (fun a b => (ttl a <= ttl b)%Z) byTtl_neg byTtl_pos
              (fun x y z => Z.le_trans (ttl x) (ttl y) (ttl z)) assets)
    as [Hp Hs].
  split; [exact Hp|].
  split; [apply filter_sorted, Hs|].
  split; [apply filter_sorted, Hs|].
  split; intros t; unfold Home.sold, Home.current; rewrite filter_In.
  - unfold stateIs. rewrite TradeState_eqb_eq.
    split; intros [Hin Hst]; (split; [|exact Hst]).
    + eapply Permutation_in; [symmetry; exact Hp|exact Hin].
    + eapply Permutation_in; [exact Hp|exact Hin].
  - rewrite orb_true_iff. unfold stateIs, truthy.
    rewrite TradeState_eqb_eq, negb_true_iff, Qeq_bool_false_neq.
    split; intros [Hin Hst]; (split; [|exact Hst]).
    + eapply Permutation_in; [symmetry; exact Hp|exact Hin].
    + eapply Permutation_in; [exact Hp|exact Hin].
Qed.

Import Assets.

Lemma byProfitDesc_neg (pr : TradeMemo -> number) (x y : TradeMemo) :
  (byProfitDesc pr x y <? 0)%Z = true -> pr y <= pr x.
Proof.
  unfold byProfitDesc. destruct (Qltb (pr x) (pr y)) eqn:Hb; simpl; intros H;
    [discriminate|]. apply Qltb_false, Hb.
Qed.

Lemma byProfitDesc_pos (pr : TradeMemo -> number) (x y : TradeMemo) :
  (byProfitDesc pr x y <? 0)%Z = false -> pr x <= pr y.
Proof.
  unfold byProfitDesc. destruct (Qltb (pr x) (pr y)) eqn:Hb; simpl; intros H;
    [|discriminate]. apply Qlt_le_weak, Qltb_true, Hb.
Qed.

(** X23.  The map [tradesMap] holds under each state exactly the records in
    that state, in the order of the list, and no entry for a state without
    records; the cards shown for a state are those records, sorted by
    descending profit ([Array.prototype.sort] as the insertion sort
    above). *)
Theorem assets_grouped_by_state (profit_ : TradeMemo -> number)
    (s : TradeState) (trades : list TradeMemo) :
  map_get s (tradesMap trades)
  = groupOf (filter (fun t => stateIs t s) trades)
  /\ (cardsOf profit_ s trades = None <->
      forall t, In t trades -> state t <> s)
  /\ (forall cards, cardsOf profit_ s trades = Some cards ->
        Permutation (filter (fun t => stateIs t s) trades) cards
        /\ StronglySorted (fun a b => profit_ b <= profit_ a) cards).
Proof.
  split; [apply tradesMap_get|].
  unfold cardsOf. rewrite tradesMap_get. split.
  - split.
    + intros Hn t Hin Hst.
      assert (Hf : In t (filter (fun t => stateIs t s) trades)).
      { apply filter_In. split; [exact Hin|].
        unfold stateIs. apply TradeState_eqb_eq, Hst. }
      destruct (filter _ trades); [destruct Hf|discriminate Hn].
    + intros Hall.
      destruct (filter (fun t => stateIs t s) trades) as [|t l] eqn:Hf;
        [reflexivity|].
      assert (Ht : In t (filter (fun t => stateIs t s) trades))
        by (rewrite Hf; left; reflexivity).
      apply filter_In in Ht as [Hin Hst].
      apply TradeState_eqb_eq in Hst. exfalso. exact (Hall t Hin Hst).
  - intros cards Hc.
    destruct (filter (fun t => stateIs t s) trades) as [|t l];
      [discriminate|].
    injection Hc as <-.
    apply (jsSort_sorted TradeMemo (byProfitDesc profit_)
             (fun a b => profit_ b <= profit_ a)
             (byProfitDesc_neg profit_) (byProfitDesc_pos profit_)).
    intros x y z H1 H2. eapply Qle_trans; eassumption.
Qed.

End ViewTheorems.
